(** * Portfolio optimisation demo: returns engine and allocation optimiser

    A shallow embedding of [data_handler.py], [optimizer.py] and the
    checks of [app.py].

    Numbers.  The program computes with binary64 values, and they are
    read in two ways.

    In the modules [np], [pd], [data_handler] and [optimizer] a finite
    value is a real number and every arithmetic operation on finite values
    is exact; the two infinities and NaN are kept as separate values,
    because the program's behaviour depends on them ([dropna] removes rows
    with NaN, [x != 0] holds of NaN).  Zero is unsigned.  This reading
    serves the properties that do not hang on the last digits of a
    result: shapes, labels, failures, the order of checks, which formula
    is evaluated, and what is rounded to four decimals.

    In the module [fp] the arithmetic is a parameter, and the functions
    whose properties do hang on the last digits are read over it:
    [calculate_cumulative_returns] and [calculate_portfolio_return], with
    the binary64 arithmetic itself (Rocq's primitive floats, which compute)
    and with real numbers rounded after every operation (for bounds on
    rounding errors).  The sum test of the manual entry in [app] is in
    binary64 as well.  Without rounding, the functions of [fp] are those
    of [data_handler] (lemmas [exact_portfolio_return] and
    [exact_cumulative_returns]).

    Tables.  A pandas [DataFrame] is a list of column labels and a list of
    rows; the date index is not represented, rows are addressed by
    position.  A [Series] or a one-dimensional array is a list.

    Failure.  A call either returns a value or raises an exception. *)

From Stdlib Require Import Floats Reals Lra Lia ZArith Bool String List.
Import ListNotations.
Local Open Scope R_scope.

(* ------------------------------------------------------------------ *)
(** ** Outcomes of a call *)

(** The exceptions that the modelled calls can raise, by origin. *)
Inductive exception : Type :=
| ValueError_invalid_method
    (* optimizer.py: raise ValueError("Invalid optimization method. ...") *)
| ValueError_not_aligned (rows cols given : nat)
    (* numpy.dot: shapes (rows,cols) and (given,) not aligned *)
| ValueError_coerce (req_len given_len : nat)
    (* pandas: Unable to coerce to Series, length must be req_len: given given_len *)
| ZeroDivisionError.
    (* Python: float division by zero *)

Inductive outcome (A : Type) : Type :=
| Returns (a : A)
| Raises (e : exception).
Arguments Returns {A} a.
Arguments Raises {A} e.

Definition bind {A B : Type} (c : outcome A) (k : A -> outcome B) : outcome B :=
  match c with
  | Returns a => k a
  | Raises e => Raises e
  end.

Declare Scope py_scope.
Delimit Scope py_scope with py.
Notation "x <- c ;; k" := (bind c (fun x => k))
  (at level 61, c at next level, right associativity) : py_scope.

(** The error kinds of the design document, and the exceptions of the
    program that stand for them. *)
Inductive error_kind : Type :=
| InsufficientDataError
| DimensionMismatchError
| InvalidObjectiveError
| SolverDivergedError.

Definition kind_of (e : exception) : option error_kind :=
  match e with
  | ValueError_invalid_method => Some InvalidObjectiveError
  | ValueError_not_aligned _ _ _ => Some DimensionMismatchError
  | ValueError_coerce _ _ => Some DimensionMismatchError
  | ZeroDivisionError => None
  end.

Definition fails_with {A : Type} (c : outcome A) (k : error_kind) : Prop :=
  exists e, c = Raises e /\ kind_of e = Some k.

(* ------------------------------------------------------------------ *)
(** ** Values *)

Definition Rzerob (r : R) : bool := if Req_dec_T r 0 then true else false.
Definition Rnegb (r : R) : bool := if Rlt_dec r 0 then true else false.

Module Float.

Inductive float : Type :=
| Num (r : R)
| Inf (negative : bool)
| NaN.

Definition mul (a b : float) : float :=
  match a, b with
  | NaN, _ | _, NaN => NaN
  | Num x, Num y => Num (x * y)
  | Inf s, Num y | Num y, Inf s => if Rzerob y then NaN else Inf (xorb s (Rnegb y))
  | Inf s, Inf t => Inf (xorb s t)
  end.

Definition div (a b : float) : float :=
  match a, b with
  | NaN, _ | _, NaN => NaN
  | Num x, Num y =>
      if Rzerob y then (if Rzerob x then NaN else Inf (Rnegb x)) else Num (x / y)
  | Num _, Inf _ => Num 0
  | Inf s, Num y => Inf (xorb s (Rnegb y))
  | Inf _, Inf _ => NaN
  end.

Definition sub (a b : float) : float :=
  match a, b with
  | NaN, _ | _, NaN => NaN
  | Num x, Num y => Num (x - y)
  | Inf s, Num _ => Inf s
  | Num _, Inf t => Inf (negb t)
  | Inf s, Inf t => if Bool.eqb s t then NaN else Inf s
  end.

Definition neg (a : float) : float :=
  match a with
  | Num x => Num (- x)
  | Inf s => Inf (negb s)
  | NaN => NaN
  end.

(** [a != 0] *)
Definition nonzero (a : float) : bool :=
  match a with
  | Num x => negb (Rzerob x)
  | Inf _ => true
  | NaN => true
  end.

Definition isna (a : float) : bool :=
  match a with
  | NaN => true
  | _ => false
  end.

Definition is_inf (a : float) : bool :=
  match a with
  | Inf _ => true
  | _ => false
  end.

End Float.
Import Float.

(** Rounding to the nearest integer, ties to the even one. *)
Definition round_half_even (x : R) : Z :=
  let f := Zfloor x in
  let d := x - IZR f in
  if Rlt_dec d (1 / 2) then f
  else if Rlt_dec (1 / 2) d then (f + 1)%Z
  else if Z.even f then f else (f + 1)%Z.

(** [round(x, 4)] and [np.round(x, 4)] on a finite value. *)
Definition round4 (x : R) : R := IZR (round_half_even (x * 10000)) / 10000.

(** [round(a, 4)] on any value: infinities and NaN are unchanged. *)
Definition round (a : float) : float :=
  match a with
  | Num x => Num (round4 x)
  | other => other
  end.

(* ------------------------------------------------------------------ *)
(** ** Lists as arrays *)

Fixpoint zip_with {A B C : Type} (f : A -> B -> C) (u : list A) (v : list B) : list C :=
  match u, v with
  | a :: u', b :: v' => f a b :: zip_with f u' v'
  | _, _ => []
  end.

(** Left-to-right summation, starting from 0. *)
Definition Rsum (xs : list R) : R := fold_left Rplus xs 0.

(* ------------------------------------------------------------------ *)
(** ** Tables *)

Record DataFrame (A : Type) : Type := mkFrame {
  columns : list string;
  values : list (list A)
}.
Arguments mkFrame {A} columns values.
Arguments columns {A} d.
Arguments values {A} d.

(** [df.shape] *)
Definition shape0 {A : Type} (df : DataFrame A) : nat := length (values df).
Definition shape1 {A : Type} (df : DataFrame A) : nat := length (columns df).

(** Every row has one cell per column. *)
Definition rectangular {A : Type} (df : DataFrame A) : Prop :=
  Forall (fun row => length row = shape1 df) (values df).

(** Cell in row [t], column [i]. *)
Definition cell {A : Type} (df : DataFrame A) (t i : nat) : option A :=
  match nth_error (values df) t with
  | Some row => nth_error row i
  | None => None
  end.

Definition frame_map {A B : Type} (f : A -> B) (df : DataFrame A) : DataFrame B :=
  mkFrame (columns df) (map (map f) (values df)).

(* ------------------------------------------------------------------ *)
(** ** Python dictionaries

    Insertion order is kept; assigning to a key that is present replaces
    its value where it stands. *)

Definition dict (V : Type) : Type := list (string * V).

Fixpoint dict_set {V : Type} (d : dict V) (k : string) (v : V) : dict V :=
  match d with
  | [] => [(k, v)]
  | (k', v') :: d' =>
      if String.eqb k k' then (k', v) :: d' else (k', v') :: dict_set d' k v
  end.

(** [dict(items)] *)
Definition dict_of {V : Type} (items : list (string * V)) : dict V :=
  fold_left (fun d kv => dict_set d (fst kv) (snd kv)) items [].

Definition dict_values {V : Type} (d : dict V) : list V := map snd d.

(** [zip(a, b)] *)
Definition zip {A B : Type} (a : list A) (b : list B) : list (A * B) :=
  zip_with pair a b.

(* ------------------------------------------------------------------ *)
(** ** The numpy calls of the program *)

Module np.

(** [np.sqrt] *)
Definition sqrt (a : float) : float :=
  match a with
  | Num x => if Rnegb x then NaN else Num (R_sqrt.sqrt x)
  | Inf false => Inf false
  | Inf true => NaN
  | NaN => NaN
  end.

(** [np.dot(returns, weights)] of a T x N table and an array of M
    numbers: one inner product per row; the shapes must agree. *)
Definition dot (returns : DataFrame R) (weights : list R) : outcome (list R) :=
  if Nat.eqb (length weights) (shape1 returns)
  then Returns (map (fun row => Rsum (zip_with Rmult row weights)) (values returns))
  else Raises (ValueError_not_aligned (shape0 returns) (shape1 returns) (length weights)).

(** [np.mean(a)]: the sum divided by the number of items; NaN on an
    empty array. *)
Definition mean (a : list R) : float :=
  div (Num (Rsum a)) (Num (INR (length a))).

(** [np.var(a)] with [ddof = 0]: the mean of the squared deviations from
    the mean. *)
Definition var (a : list R) : float :=
  match mean a with
  | Num arrmean =>
      let x := map (fun v => (v - arrmean) * (v - arrmean)) a in
      div (Num (Rsum x)) (Num (INR (length a)))
  | other => other
  end.

(** [np.std(a)] *)
Definition std (a : list R) : float := sqrt (var a).

(** [np.round(a, 4)] on an array *)
Definition round (a : list R) : list R := map round4 a.

End np.

(* ------------------------------------------------------------------ *)
(** ** The pandas calls of the program *)

Module pd.

(** [df.astype(float)]: a table of finite numbers as a table of values. *)
Definition as_float (df : DataFrame R) : DataFrame float := frame_map Num df.

(** [df.shift(1)]: every row moves down by one, the first row becomes
    NaN, the last row is lost. *)
Definition shift (df : DataFrame float) : DataFrame float :=
  mkFrame (columns df)
    (match values df with
     | [] => []
     | _ :: _ => repeat NaN (shape1 df) :: removelast (values df)
     end).

(** [a / b] on two tables with the same labels *)
Definition truediv (a b : DataFrame float) : DataFrame float :=
  mkFrame (columns a) (zip_with (zip_with div) (values a) (values b)).

(** [prices.pct_change()] on prices without missing entries:
    [data / data.shift(1) - 1]. *)
Definition pct_change (prices : DataFrame R) : DataFrame float :=
  let data := as_float prices in
  frame_map (fun q => sub q (Num 1)) (truediv data (shift data)).

(** [df.dropna()]: the rows without NaN. *)
Definition dropna (df : DataFrame float) : DataFrame float :=
  mkFrame (columns df)
    (filter (fun row => forallb (fun c => negb (isna c)) row) (values df)).

(** [df.cumprod()]: running product down every column. *)
Fixpoint cumprod_from (acc : list R) (rows : list (list R)) : list (list R) :=
  match rows with
  | [] => []
  | row :: rest =>
      let acc' := zip_with Rmult acc row in
      acc' :: cumprod_from acc' rest
  end.

Definition cumprod (df : DataFrame R) : DataFrame R :=
  mkFrame (columns df)
    (match values df with
     | [] => []
     | row :: rest => row :: cumprod_from row rest
     end).

(** [df * weights] for a one-dimensional array: the array is laid along
    the columns, its length must be the number of columns. *)
Definition mul (df : DataFrame R) (weights : list R) : outcome (DataFrame R) :=
  if Nat.eqb (shape1 df) (length weights)
  then Returns (mkFrame (columns df)
                  (map (fun row => zip_with Rmult row weights) (values df)))
  else Raises (ValueError_coerce (shape1 df) (length weights)).

(** [df.sum(axis=1)] *)
Definition sum_axis1 (df : DataFrame R) : list R := map Rsum (values df).

(** [series.mean()]: NaN on an empty series. *)
Definition mean (s : list R) : float :=
  match s with
  | [] => NaN
  | _ :: _ => Num (Rsum s / INR (length s))
  end.

(** [series.std()]: pandas divides by [count - ddof] with [ddof = 1],
    and gives NaN when [count <= ddof]. *)
Definition std (s : list R) : float :=
  let count := length s in
  let ddof := 1%nat in
  if Nat.leb count ddof then NaN
  else
    let avg := Rsum s / INR count in
    let sqr := map (fun v => (avg - v) * (avg - v)) s in
    np.sqrt (Num (Rsum sqr / INR (count - ddof))).

End pd.

(* ------------------------------------------------------------------ *)
(** ** data_handler.py *)

Module data_handler.

Local Open Scope py_scope.

Definition calculate_daily_returns (prices : DataFrame R)
  : outcome (DataFrame float) :=
  Returns (pd.dropna (pd.pct_change prices)).

Definition calculate_cumulative_returns (daily_returns : DataFrame R)
  : outcome (DataFrame R) :=
  let cumulative_value := pd.cumprod (frame_map (fun r => 1 + r) daily_returns) in
  let cumulative_return := frame_map (fun v => v - 1) cumulative_value in
  Returns cumulative_return.

Definition calculate_portfolio_return (daily_returns : DataFrame R)
    (weights : list R) : outcome (list R) :=
  weighted <- pd.mul daily_returns weights ;;
  Returns (pd.sum_axis1 weighted).

Record RiskMetrics : Type := mkRiskMetrics {
  Annual_Return : float;
  Volatility : float;
  Sharpe_Ratio : float
}.

Definition calculate_risk_metrics (daily_returns : DataFrame R)
    (weights : list R) : outcome RiskMetrics :=
  ptf_returns <- calculate_portfolio_return daily_returns weights ;;
  let mean_return := mul (pd.mean ptf_returns) (Num 252) in
  let volatility := mul (pd.std ptf_returns) (np.sqrt (Num 252)) in
  let sharpe_ratio :=
    if nonzero volatility then div mean_return volatility else Num 0 in
  Returns {| Annual_Return := round mean_return;
             Volatility := round volatility;
             Sharpe_Ratio := round sharpe_ratio |}.

End data_handler.

(* ------------------------------------------------------------------ *)
(** ** optimizer.py *)

Module optimizer.

Local Open Scope py_scope.

Definition get_portfolio_performance (weights : list R) (returns : DataFrame R)
  : outcome (float * float * float) :=
  d <- np.dot returns weights ;;
  let ptf_return := mul (np.mean d) (Num 252) in
  d' <- np.dot returns weights ;;
  let ptf_volatility := mul (np.std d') (np.sqrt (Num 252)) in
  let sharpe_ratio :=
    if nonzero ptf_volatility then div ptf_return ptf_volatility else Num 0 in
  Returns (ptf_return, ptf_volatility, sharpe_ratio).

(** What [scipy.optimize.minimize] hands back; the program reads [x]
    only. *)
Record OptimizeResult : Type := mkOptimizeResult {
  x : list R;
  success : bool
}.

(** The numerical work that a call of [optimize_portfolio] can do.  The
    objective is a closure handed to the solver, so it is evaluated
    only inside a call of the solver. *)
Inductive event : Type :=
| Solver_called (x0 : list R)
| Performance_evaluated (weights : list R).

(** A computation that records the numerical work it does. *)
Definition traced (A : Type) : Type := (list event * outcome A)%type.

Definition tbind {A B : Type} (c : traced A) (k : A -> traced B) : traced B :=
  match c with
  | (log, Returns a) => let (log', r) := k a in (log ++ log', r)
  | (log, Raises e) => (log, Raises e)
  end.

(** A step that does no numerical work. *)
Definition pure {A : Type} (c : outcome A) : traced A := ([], c).

(** A step that does the work [ev]. *)
Definition doing {A : Type} (ev : event) (c : outcome A) : traced A := ([ev], c).

Record OptimizationResult : Type := mkOptimizationResult {
  Optimal_Weights : dict R;
  Annual_Return : float;
  Volatility : float;
  Sharpe_Ratio : float
}.

(** The two objectives, and the [else] branch. *)
Definition objective_for (returns : DataFrame R) (method : string)
  : outcome (list R -> outcome float) :=
  if String.eqb method "sharpe" then
    Returns (fun weights =>
               p <- get_portfolio_performance weights returns ;;
               let '(_, _, sharpe) := p in
               Returns (neg sharpe))
  else if String.eqb method "min_vol" then
    Returns (fun weights =>
               p <- get_portfolio_performance weights returns ;;
               let '(_, vol, _) := p in
               Returns vol)
  else Raises ValueError_invalid_method.

(** [1.0 / assets_count] *)
Definition py_div_one (n : nat) : outcome R :=
  match n with
  | O => Raises ZeroDivisionError
  | S _ => Returns (1 / INR n)
  end.

Section Solver.

(** [scipy.optimize.minimize(objective, x0, method="SLSQP",
    bounds=bounds, constraints=constraints)].  It is not part of the
    program; the program is modelled for any such solver. *)
Variable minimize :
  (list R -> outcome float) ->  (* objective *)
  list R ->                     (* starting point *)
  list (R * R) ->               (* bounds *)
  (list R -> R) ->              (* equality constraint, zero when met *)
  outcome OptimizeResult.

Definition optimize_portfolio (returns : DataFrame R) (method : string)
  : traced OptimizationResult :=
  let assets_count := shape1 returns in
  tbind (pure (py_div_one assets_count)) (fun w0 =>
  let initial_weights := repeat w0 assets_count in
  let bounds := repeat (0, 1) assets_count in
  let constraints := fun x => Rsum x - 1 in
  tbind (pure (objective_for returns method)) (fun objective =>
  tbind (doing (Solver_called initial_weights)
           (minimize objective initial_weights bounds constraints))
    (fun result =>
  let optimal_weights := x result in
  tbind (doing (Performance_evaluated optimal_weights)
           (get_portfolio_performance optimal_weights returns))
    (fun p =>
  let '(ret, vol, sharpe) := p in
  pure (Returns
    {| Optimal_Weights :=
         dict_of (zip (columns returns) (np.round optimal_weights));
       Annual_Return := round ret;
       Volatility := round vol;
       Sharpe_Ratio := round sharpe |}))))).

End Solver.

End optimizer.

(* ------------------------------------------------------------------ *)
(** ** The returns engine in rounded arithmetic

    In [data_handler] above every operation on finite values is exact.
    Where the last digits of a result decide a property, the functions
    are read here over an arithmetic that is a parameter: the binary64
    arithmetic in which the program runs, or real numbers with a rounding
    after every operation.  Tables may hold NaN and infinities, as the
    arithmetic has them. *)

Module fp.

Local Open Scope py_scope.

Record arithmetic (F : Type) : Type := mkArithmetic {
  zero : F;
  one : F;
  plus : F -> F -> F;
  minus : F -> F -> F;
  times : F -> F -> F;
  isnan : F -> bool
}.

Arguments zero {F} _.
Arguments one {F} _.
Arguments plus {F} _ _ _.
Arguments minus {F} _ _ _.
Arguments times {F} _ _ _.
Arguments isnan {F} _ _.

(** A Python float and an item of a float64 array: IEEE 754 binary64,
    every operation rounded to nearest, ties to even. *)
Definition float64 : Type := PrimFloat.float.

Definition binary64 : arithmetic float64 :=
  {| zero := 0%float;
     one := 1%float;
     plus := PrimFloat.add;
     minus := PrimFloat.sub;
     times := PrimFloat.mul;
     isnan := PrimFloat.is_nan |}.

(** Real numbers with the rounding [rnd] applied to the exact result of
    every operation; there is no NaN. *)
Definition rounded (rnd : R -> R) : arithmetic R :=
  {| zero := 0;
     one := 1;
     plus := fun a b => rnd (a + b);
     minus := fun a b => rnd (a - b);
     times := fun a b => rnd (a * b);
     isnan := fun _ => false |}.

Section Engine.

Context {F : Type}.
Variable A : arithmetic F.

(** What a reduction of pandas reads in place of an item under its
    default [skipna=True]: [value] where the item is NaN. *)
Definition skipna (value v : F) : F := if isnan A v then value else v.

(** [np.cumprod(values, axis=0)]: the running product down every
    column. *)
Fixpoint cumprod_from (acc : list F) (rows : list (list F)) : list (list F) :=
  match rows with
  | [] => []
  | row :: rest =>
      let acc' := zip_with (times A) acc row in
      acc' :: cumprod_from acc' rest
  end.

Definition np_cumprod (rows : list (list F)) : list (list F) :=
  match rows with
  | [] => []
  | row :: rest => row :: cumprod_from row rest
  end.

(** [df.cumprod()]: pandas puts 1 in place of every NaN, takes the
    running product, and leaves NaN where the item was NaN. *)
Definition cumprod (df : DataFrame F) : DataFrame F :=
  let vals := map (map (skipna (one A))) (values df) in
  let result := np_cumprod vals in
  mkFrame (columns df)
    (zip_with (zip_with (fun v r => if isnan A v then v else r))
       (values df) result).

Definition calculate_cumulative_returns (daily_returns : DataFrame F)
  : outcome (DataFrame F) :=
  let cumulative_value := cumprod (frame_map (plus A (one A)) daily_returns) in
  let cumulative_return := frame_map (fun v => minus A v (one A)) cumulative_value in
  Returns cumulative_return.

(** [df * weights] for a one-dimensional array: the array is laid along
    the columns, its length must be the number of columns. *)
Definition mul (df : DataFrame F) (weights : list F) : outcome (DataFrame F) :=
  if Nat.eqb (shape1 df) (length weights)
  then Returns (mkFrame (columns df)
                  (map (fun row => zip_with (times A) row weights) (values df)))
  else Raises (ValueError_coerce (shape1 df) (length weights)).

(** [df.sum(axis=1)]: NaN counts as 0, and every row is added up from
    left to right. *)
Definition sum_axis1 (df : DataFrame F) : list F :=
  map (fun row => fold_left (plus A) (map (skipna (zero A)) row) (zero A))
    (values df).

Definition calculate_portfolio_return (daily_returns : DataFrame F)
    (weights : list F) : outcome (list F) :=
  weighted <- mul daily_returns weights ;;
  Returns (sum_axis1 weighted).

End Engine.

End fp.

(* ------------------------------------------------------------------ *)
(** ** The design document's definitions

    Written from the words of the document, to be compared with what the
    program computes. *)

Module Spec.

(** Trading days per year. *)
Definition TRADING_DAYS : R := 252.

Fixpoint total (xs : list R) : R :=
  match xs with
  | [] => 0
  | x :: rest => x + total rest
  end.

(** Dot product of a row with the weight vector. *)
Fixpoint dot_product (row weights : list R) : R :=
  match row, weights with
  | r :: row', w :: weights' => r * w + dot_product row' weights'
  | _, _ => 0
  end.

(** portfolioReturn: the dot product of each row with the weights. *)
Definition portfolioReturn (dailyReturns : DataFrame R) (weights : list R)
  : list R :=
  map (fun row => dot_product row weights) (values dailyReturns).

(** The mean of a series; undefined on an empty series. *)
Definition mean (xs : list R) : float :=
  match xs with
  | [] => NaN
  | _ :: _ => Num (total xs / INR (length xs))
  end.

(** The population standard deviation: the square root of the average
    squared deviation from the mean, the average taken over all [n]
    items. *)
Definition population_std (xs : list R) : float :=
  match xs with
  | [] => NaN
  | _ :: _ =>
      let n := INR (length xs) in
      let mu := total xs / n in
      Num (sqrt (total (map (fun x => (x - mu) ^ 2) xs) / n))
  end.

Definition AnnualReturn (ptf : list R) : float :=
  mul (mean ptf) (Num TRADING_DAYS).

Definition Volatility (ptf : list R) : float :=
  mul (population_std ptf) (Num (sqrt TRADING_DAYS)).

(** [v] is [x] rounded to 4 decimal places. *)
Definition rounded_4dp (x v : R) : Prop :=
  (exists z : Z, v = IZR z / 10000) /\ Rabs (v - x) <= 1 / 20000.

(** The same on values: infinities and the undefined value stay. *)
Definition rounding_of (a b : float) : Prop :=
  match a, b with
  | Num x, Num v => rounded_4dp x v
  | Inf s, Inf t => s = t
  | NaN, NaN => True
  | _, _ => False
  end.

End Spec.

(* ------------------------------------------------------------------ *)
(** * Vocabulary of the properties *)

Import data_handler.
Import optimizer.

(** ** Helper definitions *)

(** The change from price [q] to price [p], as [pct_change] computes it. *)
Definition pct (p q : R) : float := sub (div (Num p) (Num q)) (Num 1).

(** [f] applied to every item and the item before it, [prev] standing
    before the first. *)
Fixpoint pairwise {A B : Type} (f : A -> A -> B) (prev : A) (rows : list A)
  : list B :=
  match rows with
  | [] => []
  | r :: rest => f r prev :: pairwise f r rest
  end.

Definition complete (row : list float) : bool :=
  forallb (fun c => negb (isna c)) row.

(** No asset has a price of zero followed by a price of zero. *)
Definition no_zero_after_zero (prices : DataFrame R) : Prop :=
  forall t i, cell prices t i = Some 0 -> cell prices (S t) i <> Some 0.

(** The sample variance: the squared deviations from the mean, summed and
    divided by one less than the number of items. *)
Definition sample_variance (xs : list R) : R :=
  let mu := Spec.total xs / INR (length xs) in
  Spec.total (map (fun x => (x - mu) ^ 2) xs) / INR (length xs - 1).

(** The volatility that each implementation computes from the portfolio
    return series, before any rounding (optimizer.py line 12,
    data_handler.py line 54). *)
Definition np_volatility (ptf : list R) : float :=
  mul (np.std ptf) (np.sqrt (Num 252)).

Definition pd_volatility (ptf : list R) : float :=
  mul (pd.std ptf) (np.sqrt (Num 252)).

(** The value of $1 over time, the local variable [cumulative_value] of
    [calculate_cumulative_returns]. *)
Definition cumulative_value {F : Type} (A : fp.arithmetic F)
    (daily_returns : DataFrame F) : DataFrame F :=
  fp.cumprod A (frame_map (fp.plus A (fp.one A)) daily_returns).

(** A rounding of relative error at most [u]: binary64 rounds to nearest
    with [u = 2^-53] on every result that neither overflows nor falls
    into the subnormal range. *)
Definition accurate (u : R) (rnd : R -> R) : Prop :=
  forall x, Rabs (rnd x - x) <= u * Rabs x.

(** The sum of the absolute values of the products of a row and the
    weights. *)
Fixpoint abs_dot (row weights : list R) : R :=
  match row, weights with
  | r :: row', w :: weights' => Rabs (r * w) + abs_dot row' weights'
  | _, _ => 0
  end.

(** The quotient behind the guard [if volatility != 0 else 0]. *)
Definition guarded_sharpe (ret vol : float) : float :=
  if nonzero vol then div ret vol else Num 0.

(** The type of a solver. *)
Definition solver : Type :=
  (list R -> outcome float) -> list R -> list (R * R) -> (list R -> R) ->
  outcome OptimizeResult.

(** A solver that hands back the equal weighting, which is where the
    program starts the search. *)
Definition uniform_solver : solver :=
  fun _ x0 _ _ =>
    Returns (mkOptimizeResult (repeat (1 / INR (length x0)) (length x0)) true).

(** A weight vector of [n] weights in the box, whose sum misses 1 by at
    most [eps]. *)
Definition on_simplex (eps : R) (n : nat) (ws : list R) : Prop :=
  length ws = n
  /\ Forall (fun w => 0 <= w <= 1) ws
  /\ Rabs (Rsum ws - 1) <= eps.

(** What the program relies on the solver for: given the bounds [0,1] for
    each of [n >= 1] weights and the constraint that the weights sum to
    1, the point it hands back has [n] weights, keeps the bounds and meets
    the constraint within [eps]. *)
Definition keeps_constraints (eps : R) (minimize : solver) : Prop :=
  forall objective (n : nat) (x0 : list R) (r : OptimizeResult),
    length x0 = n -> (1 <= n)%nat ->
    minimize objective x0 (repeat (0, 1) n) (fun x => Rsum x - 1) = Returns r ->
    on_simplex eps n (x r).

(** ** Sentences of the design document, as they are written

    Each of these is refuted below and proved in an amended form. *)

(** The sentence of the design document on the risk metrics, as it is
    written, for both implementations: the mean times 252, the population
    standard deviation times the square root of 252, and their quotient
    where the volatility is not zero. *)
Definition both_implementations_return_design_metrics : Prop :=
  forall (returns : DataFrame R) (weights : list R),
    length weights = shape1 returns ->
    let ptf := Spec.portfolioReturn returns weights in
    let ar := Spec.AnnualReturn ptf in
    let vol := Spec.Volatility ptf in
    (exists sharpe,
        get_portfolio_performance weights returns = Returns (ar, vol, sharpe)
        /\ (nonzero vol = true -> sharpe = div ar vol))
    /\
    (exists m,
        calculate_risk_metrics returns weights = Returns m
        /\ data_handler.Annual_Return m = ar
        /\ data_handler.Volatility m = vol
        /\ (nonzero vol = true -> data_handler.Sharpe_Ratio m = div ar vol)).


(** The sentence of the design document on the returned weights, as it
    is written: their sum is within 1e-4 of 1 and each lies in [0,1] up
    to 1e-4. *)
Definition returned_weights_within_tolerance (minimize : solver) : Prop :=
  forall (returns : DataFrame R) (method : string) (log : list event)
         (res : OptimizationResult),
    (1 <= shape1 returns)%nat ->
    method = "sharpe"%string \/ method = "min_vol"%string ->
    optimize_portfolio minimize returns method = (log, Returns res) ->
    let ws := dict_values (Optimal_Weights res) in
    Rabs (Rsum ws - 1) <= 1 / 10000
    /\ Forall (fun w => 0 - 1 / 10000 <= w <= 1 + 1 / 10000) ws.

(** The sentence of the design document on cumulative returns, as it is
    written, for the program as it runs, in binary64: 0 at the first row,
    and the recurrence at every later row. *)
Definition cumulative_return_zero_at_first_row : Prop :=
  forall (daily_returns c : DataFrame fp.float64),
    rectangular daily_returns ->
    fp.calculate_cumulative_returns fp.binary64 daily_returns = Returns c ->
    (forall i d, cell daily_returns 0 i = Some d -> cell c 0 i = Some 0%float)
    /\
    (forall t i d, cell daily_returns (S t) i = Some d ->
       exists prev, cell c t i = Some prev
                    /\ cell c (S t) i = Some ((1 + prev) * (1 + d) - 1)%float).

(** The recurrence of that sentence alone, at one row of one column. *)
Definition recurrence_on_returns (daily_returns c : DataFrame fp.float64)
    (t i : nat) : Prop :=
  forall d, cell daily_returns (S t) i = Some d ->
    exists prev, cell c t i = Some prev
                 /\ cell c (S t) i = Some ((1 + prev) * (1 + d) - 1)%float.

(** The sentence of the design document on the linearity of the
    portfolio return, as it is written, for the program as it runs, in
    binary64: with the weights multiplied by [k], every item of the
    series is [k] times what it was; "equals" is the [==] of binary64. *)
Definition portfolio_return_linear_in_weights : Prop :=
  forall (daily_returns : DataFrame fp.float64) (weights : list fp.float64)
         (k : fp.float64) (scaled base : list fp.float64),
    length weights = shape1 daily_returns ->
    fp.calculate_portfolio_return fp.binary64 daily_returns
      (map (PrimFloat.mul k) weights) = Returns scaled ->
    fp.calculate_portfolio_return fp.binary64 daily_returns weights
    = Returns base ->
    Forall2 (fun a b => PrimFloat.eqb a b = true)
      scaled (map (PrimFloat.mul k) base).

(** The sentence of the design document on daily returns, as it is
    written: one row fewer, nothing undefined, every entry the ratio of
    consecutive prices minus one. *)
Definition daily_returns_one_row_fewer : Prop :=
  forall (prices : DataFrame R) (out : DataFrame float),
    rectangular prices ->
    (2 <= shape0 prices)%nat ->
    calculate_daily_returns prices = Returns out ->
    shape0 out = (shape0 prices - 1)%nat
    /\ (forall t i v, cell out t i = Some v -> isna v = false)
    /\ (forall t i p q,
          cell prices (S t) i = Some p -> cell prices t i = Some q ->
          cell out t i = Some (Num (p / q - 1))).

(** The sentence of the design document on short price tables, as it is
    written: fewer than 2 rows make the call fail. *)
Definition short_prices_fail : Prop :=
  forall prices : DataFrame R,
    rectangular prices ->
    (shape0 prices < 2)%nat ->
    fails_with (calculate_daily_returns prices) InsufficientDataError.

(** ** Example tables *)

(** The returns table of the design document's end-to-end example:
    assets A and B on three days. *)
Definition example_returns : DataFrame R :=
  mkFrame ["A"; "B"]%string
    [ [1 / 100; 0]; [- 1 / 100; 1 / 100]; [2 / 100; 1 / 100] ].

(** Prices of two assets on three days. *)
Definition example_prices : DataFrame R :=
  mkFrame ["A"; "B"]%string [ [100; 50]; [110; 50]; [99; 55] ].

(** One asset with two prices, both zero: the change is 0/0, which is
    undefined, and [dropna] removes that row as well as the first. *)
Definition two_zero_prices : DataFrame R := mkFrame ["A"%string] [[0]; [0]].

(** One asset held alone, with daily returns of 1 and 3 percent. *)
Definition two_day_returns : DataFrame R :=
  mkFrame ["A"%string] [[1 / 100]; [3 / 100]].

(** One asset held alone, with the same return on both days. *)
(** Tables of binary64 values.  A decimal such as 0.01 is the binary64
    value nearest to it, which is the quotient of 1 by 100 as binary64
    rounds it. *)
Definition one_percent_day : DataFrame fp.float64 :=
  mkFrame ["A"%string] [[(1 / 100)%float]].

Definition three_volatile_days : DataFrame fp.float64 :=
  mkFrame ["A"%string]
    [[(- (1 / 2))%float]; [(- (4 / 10))%float]; [(2 / 10)%float]].

Definition one_percent_around_nan : DataFrame fp.float64 :=
  mkFrame ["A"%string] [[(1 / 100)%float]; [nan]; [(1 / 100)%float]].

Definition ten_percent_day : DataFrame fp.float64 :=
  mkFrame ["A"%string] [[(1 / 10)%float]].

(** A rounding that is not the identity: every result is taken up by
    the relative error [2^-53]. *)
Definition rounding_up (x : R) : R := x * (1 + / 2 ^ 53).


Definition flat_returns : DataFrame R :=
  mkFrame ["A"%string] [[1 / 100]; [1 / 100]].

(** One asset held alone for three days: returns of about 1, 2 and -3
    percent. *)
Definition three_day_returns : DataFrame R :=
  mkFrame ["A"%string]
    [ [1 / 100 + 1 / 1800000]; [2 / 100 + 1 / 1800000];
      [- 3 / 100 + 1 / 1800000] ].

(** Seven assets whose returns are all zero on both days. *)
Definition seven_idle_assets : DataFrame R :=
  mkFrame ["A"; "B"; "C"; "D"; "E"; "F"; "G"]%string
    [ [0; 0; 0; 0; 0; 0; 0]; [0; 0; 0; 0; 0; 0; 0] ].

(* ------------------------------------------------------------------ *)
(** * The rest of the program

    The price loader of [data_handler.py] and the parts of the script
    [app.py] that compute: the portfolio read from the manual entry and
    the metrics of the allocation as entered.  Widgets and charts are
    not represented. *)

(** [series.std(ddof=ddof)]: NaN when [count <= ddof].  [np.std(series)]
    is [series.std(ddof=0)]. *)
Definition Series_std (ddof : nat) (s : list R) : float :=
  let count := length s in
  if Nat.leb count ddof then NaN
  else
    let avg := Rsum s / INR count in
    let sqr := map (fun v => (avg - v) * (avg - v)) s in
    np.sqrt (Num (Rsum sqr / INR (count - ddof))).

(** Equality of values as [drop_duplicates] sees it: NaN is a duplicate
    of NaN. *)
Definition Reqb (a b : R) : bool := if Req_dec_T a b then true else false.

Definition float_eqb (a b : float) : bool :=
  match a, b with
  | Num u, Num v => Reqb u v
  | Inf s, Inf t => Bool.eqb s t
  | NaN, NaN => true
  | _, _ => false
  end.

Fixpoint list_eqb {A : Type} (eqb : A -> A -> bool) (u v : list A) : bool :=
  match u, v with
  | [], [] => true
  | a :: u', b :: v' => eqb a b && list_eqb eqb u' v'
  | _, _ => false
  end.

(** [drop_duplicates()]: the first occurrence of every item, in order. *)
Definition drop_duplicates {A : Type} (eqb : A -> A -> bool) (l : list A) : list A :=
  rev (fold_left (fun kept a => if existsb (eqb a) kept then kept else a :: kept)
         l []).

(** The positions of the items of [l] that satisfy [p], counted from
    [from]. *)
Fixpoint positions {A : Type} (p : A -> bool) (l : list A) (from : nat) : list nat :=
  match l with
  | [] => []
  | a :: rest =>
      if p a then from :: positions p rest (S from) else positions p rest (S from)
  end.

(** The cells of a row at the given positions. *)
Definition pick (idx : list nat) (row : list float) : list float :=
  map (fun i => nth i row NaN) idx.

(** [data[col]]: the column labelled [col], row by row (all of them when
    the label occurs more than once). *)
Definition getitem (col : string) (data : DataFrame float) : list (list float) :=
  map (pick (positions (String.eqb col) (columns data) 0)) (values data).

Module loader.

(** What [yf.download] hands back: a table whose column labels have two
    levels, the field and the ticker.  The branch of [load_prices] for a
    download that is a [Series] is not represented. *)
Record Download : Type := mkDownload {
  labels : list (string * string);
  cells : list (list float)
}.

Inductive load_exception : Type :=
| KeyError (missing : list (string * string))
    (* pandas: a requested column label is not in the columns *)
| AssertionError (missing_prices : list string).
    (* "No prices found for these tickers: ..." *)

Definition label_eqb (a b : string * string) : bool :=
  String.eqb (fst a) (fst b) && String.eqb (snd a) (snd b).

(** [data[keys]] for a list of column labels: the columns with these
    labels, in the order of the keys; every key must be a label. *)
Definition select (keys : list (string * string)) (data : Download)
  : load_exception + Download :=
  match filter (fun k => negb (existsb (label_eqb k) (labels data))) keys with
  | [] =>
      let idx := flat_map (fun k => positions (label_eqb k) (labels data) 0) keys in
      inr (mkDownload
             (map (fun i => nth i (labels data) (EmptyString, EmptyString)) idx)
             (map (pick idx) (cells data)))
  | missing => inl (KeyError missing)
  end.

(** [data.columns = data.columns.droplevel()] *)
Definition droplevel (data : Download) : DataFrame float :=
  mkFrame (map snd (labels data)) (cells data).

Section Download.

(** [yf.download(tickers, start=start_date)].  It fetches from the
    network; the loader is modelled for any table it hands back. *)
Variable yf_download : list string -> string -> Download.

Definition load_prices (tickers : list string) (start_date : string)
  : load_exception + DataFrame float :=
  let data := yf_download tickers start_date in
  match select (map (fun ticker => ("Close"%string, ticker)) tickers) data with
  | inl e => inl e
  | inr data =>
      let data := droplevel data in
      let missing_prices :=
        filter (fun col =>
                  let d := drop_duplicates (list_eqb float_eqb) (getitem col data) in
                  Nat.eqb (length d) 1)
          (columns data) in
      match missing_prices with
      | [] =>
          let data := pd.dropna data in
          inr (pd.dropna data)
      | _ :: _ => inl (AssertionError missing_prices)
      end
  end.

End Download.

End loader.

Module app.

Local Open Scope py_scope.

Inductive entry_exception : Type :=
| AssertionError_sum_of_weights
    (* assert sum(weight_list) == 1.0, "Sum of weights should be 1" *)
| Exception_count_mismatch.
    (* raise Exception("Number of tickers and weights must match.") *)

(** [sum(weight_list)] on a list of floats: the items are added in
    binary64 from left to right, starting from 0. *)
Definition sum (weight_list : list fp.float64) : fp.float64 :=
  fold_left PrimFloat.add weight_list 0%float.

(** The portfolio of the manual entry, from the tickers and the weights
    as parsed; the weights are Python floats and [==] is the equality of
    binary64. *)
Definition manual_portfolio (ticker_list : list string)
    (weight_list : list fp.float64) : entry_exception + dict fp.float64 :=
  if PrimFloat.eqb (sum weight_list) 1%float then
    if Nat.eqb (length ticker_list) (length weight_list)
    then inr (dict_of (zip ticker_list weight_list))
    else inl Exception_count_mismatch
  else inl AssertionError_sum_of_weights.

(** [list(portfolio.keys())] and [list(portfolio.values())] *)
Definition keys {V : Type} (portfolio : dict V) : list string := map fst portfolio.

(** The metrics of the allocation as entered: [np.mean] and [np.std] of a
    pandas series are the series' own [mean()] and [std(ddof=0)], and the
    quotient is not guarded. *)
Definition original_allocation (daily_returns : DataFrame R) (weights : list R)
  : outcome (float * float * float) :=
  weighted <- pd.mul daily_returns weights ;;
  let original_allocation_return :=
    mul (pd.mean (pd.sum_axis1 weighted)) (Num 252) in
  weighted' <- pd.mul daily_returns weights ;;
  let original_allocation_vol :=
    mul (Series_std 0 (pd.sum_axis1 weighted')) (np.sqrt (Num 252)) in
  let original_allocation_sharpe :=
    div original_allocation_return original_allocation_vol in
  Returns (original_allocation_return, original_allocation_vol,
           original_allocation_sharpe).

End app.

(** ** Vocabulary of the further properties *)

(** The weight vector that holds asset [i] alone, among [n] assets. *)
Definition one_hot (n i : nat) : list R :=
  map (fun j => if Nat.eqb j i then 1 else 0) (seq 0 n).

(** Column [i] of a table. *)
Definition column {A : Type} (df : DataFrame A) (i : nat) (default : A) : list A :=
  map (fun row => nth i row default) (values df).


(** A solver that fails, and one that hands back a point of the wrong
    size. *)
Definition failing_solver (e : exception) : solver :=
  fun _ _ _ _ => Raises e.

Definition short_solver : solver :=
  fun _ _ _ _ => Returns (mkOptimizeResult [] true).

(** A download of closing prices for assets A and B on three days; B has
    no prices. *)
Definition example_download : loader.Download :=
  loader.mkDownload
    [("Close", "A"); ("Close", "B"); ("Volume", "A")]%string
    [ [Num 100; NaN; Num 7]; [Num 110; NaN; Num 8]; [Num 99; NaN; Num 9] ].

(** The table of closing prices that [load_prices] checks and cleans:
    the download after the selection of the "Close" columns and the drop
    of the first level of the labels. *)
Definition closing_of (tickers : list string) (download : loader.Download)
  : option (DataFrame float) :=
  match loader.select (map (fun ticker => ("Close"%string, ticker)) tickers)
          download with
  | inr d => Some (loader.droplevel d)
  | inl _ => None
  end.

(** An empty download, as for tickers that do not exist: the Close
    columns are there, without any row. *)
Definition empty_download : loader.Download :=
  loader.mkDownload [("Close", "A"); ("Close", "B")]%string [].

(** A download of a single day. *)
Definition one_day_download : loader.Download :=
  loader.mkDownload [("Close", "A"); ("Close", "B")]%string
    [ [Num 100; Num 50] ].

(** A download in which the price of A is missing on the second day. *)
Definition gappy_download : loader.Download :=
  loader.mkDownload [("Close", "A"); ("Close", "B")]%string
    [ [Num 100; Num 50]; [NaN; Num 51]; [Num 99; Num 55] ].

(** The columns that the loop of [load_prices] collects in
    [missing_prices]: those with exactly one distinct value. *)
Definition missing_prices_of (data : DataFrame float) : list string :=
  filter (fun col =>
            Nat.eqb (length (drop_duplicates (list_eqb float_eqb) (getitem col data))) 1)
    (columns data).

(** [d.get(k)]: the value stored under [k], if any. *)
Definition dict_get {V : Type} (d : dict V) (k : string) : option V :=
  option_map snd (find (fun kv => String.eqb k (fst kv)) d).

(** The value paired with the last occurrence of [k] in a list of
    items. *)
Definition last_value {V : Type} (items : list (string * V)) (k : string)
  : option V :=
  fold_left (fun found kv => if String.eqb k (fst kv) then Some (snd kv) else found)
    items None.

(* ------------------------------------------------------------------ *)
(** * Properties *)

(** ** Real numbers and rounding *)

Lemma Rzerob_true (r : R) : r = 0 -> Rzerob r = true.
Proof. intros H. unfold Rzerob. destruct (Req_dec_T r 0); [reflexivity | contradiction]. Qed.

Lemma Rzerob_false (r : R) : r <> 0 -> Rzerob r = false.
Proof. intros H. unfold Rzerob. destruct (Req_dec_T r 0); [contradiction | reflexivity]. Qed.

Lemma Rnegb_false (r : R) : 0 <= r -> Rnegb r = false.
Proof. intros H. unfold Rnegb. destruct (Rlt_dec r 0); [lra | reflexivity]. Qed.

Lemma fold_left_Rplus_acc (xs : list R) (a : R) :
  fold_left Rplus xs a = a + fold_left Rplus xs 0.
Proof.
  revert a. induction xs as [|x xs IH]; intros a; simpl.
  - lra.
  - rewrite (IH (a + x)), (IH (0 + x)). lra.
Qed.

Lemma Rsum_cons (x : R) (xs : list R) : Rsum (x :: xs) = x + Rsum xs.
Proof. unfold Rsum. simpl. rewrite fold_left_Rplus_acc. lra. Qed.

Lemma Rsum_nil : Rsum [] = 0.
Proof. reflexivity. Qed.

Lemma Rsum_total (xs : list R) : Rsum xs = Spec.total xs.
Proof.
  induction xs as [|x xs IH]; [reflexivity|].
  rewrite Rsum_cons, IH. reflexivity.
Qed.

Lemma Rabs_le_inv (a b : R) : Rabs a <= b -> - b <= a <= b.
Proof. unfold Rabs. destruct (Rcase_abs a); lra. Qed.

Lemma round_half_even_near (x : R) :
  Rabs (IZR (round_half_even x) - x) <= 1 / 2.
Proof.
  unfold round_half_even.
  pose proof (Zfloor_bound x) as [Hlo Hhi].
  destruct (Rlt_dec (x - IZR (Zfloor x)) (1 / 2)) as [Hd|Hd].
  - apply Rabs_le. lra.
  - destruct (Rlt_dec (1 / 2) (x - IZR (Zfloor x))) as [Hu|Hu].
    + rewrite plus_IZR. apply Rabs_le. lra.
    + destruct (Z.even (Zfloor x)); [|rewrite plus_IZR]; apply Rabs_le; lra.
Qed.

(** A number strictly within one half of an integer rounds to it. *)
Lemma round_half_even_eq (z : Z) (x : R) :
  IZR z - 1 / 2 < x < IZR z + 1 / 2 -> round_half_even x = z.
Proof.
  intros [Hlo Hhi].
  pose proof (round_half_even_near x) as Hn.
  apply Rabs_le_inv in Hn.
  assert (Hz : (z - 1 < round_half_even x < z + 1)%Z).
  { split; apply lt_IZR; [rewrite minus_IZR | rewrite plus_IZR]; lra. }
  lia.
Qed.

Lemma round_half_even_IZR (z : Z) : round_half_even (IZR z) = z.
Proof. apply round_half_even_eq. lra. Qed.

Lemma round4_near (x : R) : Rabs (round4 x - x) <= 1 / 20000.
Proof.
  unfold round4.
  pose proof (round_half_even_near (x * 10000)) as H.
  apply Rabs_le_inv in H. apply Rabs_le. lra.
Qed.

Lemma round4_rounded (x : R) : Spec.rounded_4dp x (round4 x).
Proof.
  split; [|apply round4_near].
  exists (round_half_even (x * 10000)). reflexivity.
Qed.

(** Rounding a number that has at most 4 decimals changes nothing. *)
Lemma round4_exact (z : Z) (x : R) : x = IZR z / 10000 -> round4 x = x.
Proof.
  intros ->. unfold round4.
  replace (IZR z / 10000 * 10000) with (IZR z) by lra.
  rewrite round_half_even_IZR. reflexivity.
Qed.

Lemma round4_0 : round4 0 = 0.
Proof. apply (round4_exact 0). lra. Qed.

Lemma round4_unit_interval (x : R) : 0 <= x <= 1 -> 0 <= round4 x <= 1.
Proof.
  intros [H0 H1]. unfold round4.
  pose proof (round_half_even_near (x * 10000)) as H.
  apply Rabs_le_inv in H.
  assert (Hz : (-1 < round_half_even (x * 10000) < 10001)%Z).
  { split; apply lt_IZR; lra. }
  assert (Hz' : (0 <= round_half_even (x * 10000) <= 10000)%Z) by lia.
  destruct Hz' as [Ha Hb]. apply IZR_le in Ha, Hb. lra.
Qed.

(** Evaluating [round4] at a point that is not a tie. *)
Lemma round4_eval (z : Z) (x : R) :
  IZR z - 1 / 2 < x * 10000 < IZR z + 1 / 2 -> round4 x = IZR z / 10000.
Proof. intros H. unfold round4. rewrite (round_half_even_eq z); [reflexivity | exact H]. Qed.

Lemma round_rounding_of (a : float) : Spec.rounding_of a (round a).
Proof. destruct a; simpl; [apply round4_rounded | reflexivity | exact I]. Qed.

(* ------------------------------------------------------------------ *)
(** ** The portfolio return series *)

Lemma Rsum_zip_dot (row weights : list R) :
  Rsum (zip_with Rmult row weights) = Spec.dot_product row weights.
Proof.
  revert weights. induction row as [|r row IH]; intros [|w weights]; simpl;
    try reflexivity.
  rewrite Rsum_cons, IH. reflexivity.
Qed.

Lemma portfolio_return_matching (daily_returns : DataFrame R) (weights : list R) :
  length weights = shape1 daily_returns ->
  calculate_portfolio_return daily_returns weights
  = Returns (Spec.portfolioReturn daily_returns weights).
Proof.
  intros Hlen. unfold calculate_portfolio_return, pd.mul.
  rewrite Hlen, Nat.eqb_refl. simpl.
  unfold pd.sum_axis1, Spec.portfolioReturn. simpl.
  rewrite map_map. f_equal. apply map_ext. intros row. apply Rsum_zip_dot.
Qed.

Lemma portfolio_return_mismatch (daily_returns : DataFrame R) (weights : list R) :
  length weights <> shape1 daily_returns ->
  calculate_portfolio_return daily_returns weights
  = Raises (ValueError_coerce (shape1 daily_returns) (length weights)).
Proof.
  intros Hlen. unfold calculate_portfolio_return, pd.mul.
  destruct (Nat.eqb_spec (shape1 daily_returns) (length weights)) as [E|E].
  - congruence.
  - reflexivity.
Qed.

Lemma np_dot_matching (returns : DataFrame R) (weights : list R) :
  length weights = shape1 returns ->
  np.dot returns weights = Returns (Spec.portfolioReturn returns weights).
Proof.
  intros Hlen. unfold np.dot. rewrite Hlen, Nat.eqb_refl.
  unfold Spec.portfolioReturn. f_equal. apply map_ext. intros row.
  apply Rsum_zip_dot.
Qed.

(** C8.  For a daily-returns table with N columns, a weight sequence whose
    length is not N makes [calculate_portfolio_return] fail with the
    dimension-mismatch error (the [ValueError] that pandas raises when it
    cannot lay the array along the columns); a weight sequence of length
    N gives, for each row, the dot product of that row with the weights. *)
Theorem C8_portfolio_return_dimensions
    (daily_returns : DataFrame R) (weights : list R) :
  (length weights <> shape1 daily_returns ->
   fails_with (calculate_portfolio_return daily_returns weights)
     DimensionMismatchError)
  /\
  (length weights = shape1 daily_returns ->
   calculate_portfolio_return daily_returns weights
   = Returns (map (fun row => Spec.dot_product row weights)
                (values daily_returns))).
Proof.
  split; intros Hlen.
  - exists (ValueError_coerce (shape1 daily_returns) (length weights)).
    split; [apply portfolio_return_mismatch; exact Hlen | reflexivity].
  - apply portfolio_return_matching. exact Hlen.
Qed.

Lemma C8_portfolio_return_dimensions_witness :
  fails_with (calculate_portfolio_return example_returns [1 / 2; 1 / 4; 1 / 4])
    DimensionMismatchError
  /\ calculate_portfolio_return example_returns [1 / 2; 1 / 2]
     = Returns (map (fun row => Spec.dot_product row [1 / 2; 1 / 2])
                  (values example_returns)).
Proof.
  split.
  - apply (proj1 (C8_portfolio_return_dimensions example_returns
                    [1 / 2; 1 / 4; 1 / 4])).
    unfold shape1. simpl. lia.
  - apply (proj2 (C8_portfolio_return_dimensions example_returns [1 / 2; 1 / 2])).
    reflexivity.
Defined.

(* ------------------------------------------------------------------ *)
(** ** Cells of tables *)

Lemma nth_error_zip_with {A B C : Type} (f : A -> B -> C)
    (u : list A) (v : list B) (i : nat) :
  nth_error (zip_with f u v) i
  = match nth_error u i, nth_error v i with
    | Some a, Some b => Some (f a b)
    | _, _ => None
    end.
Proof.
  revert v i. induction u as [|a u IH]; intros [|b v] [|i]; simpl;
    try reflexivity.
  - destruct (nth_error u i); reflexivity.
  - apply IH.
Qed.

Lemma length_zip_with {A B C : Type} (f : A -> B -> C) (u : list A) (v : list B) :
  length (zip_with f u v) = Nat.min (length u) (length v).
Proof.
  revert v. induction u as [|a u IH]; intros [|b v]; simpl; auto.
Qed.

Lemma cell_frame_map {A B : Type} (f : A -> B) (df : DataFrame A) (t i : nat) :
  cell (frame_map f df) t i = option_map f (cell df t i).
Proof.
  unfold cell, frame_map. simpl. rewrite nth_error_map.
  destruct (nth_error (values df) t) as [row|]; simpl; [|reflexivity].
  apply nth_error_map.
Qed.

Lemma rectangular_frame_map {A B : Type} (f : A -> B) (df : DataFrame A) :
  rectangular df -> rectangular (frame_map f df).
Proof.
  unfold rectangular, frame_map, shape1. simpl. intros H.
  apply Forall_map. eapply Forall_impl; [|exact H].
  intros row Hrow. simpl. rewrite length_map. exact Hrow.
Qed.

Lemma cell_some_lt {A : Type} (df : DataFrame A) (t i : nat) (a : A) :
  rectangular df -> cell df t i = Some a -> (i < shape1 df)%nat.
Proof.
  unfold rectangular, cell. intros Hrect H.
  destruct (nth_error (values df) t) as [row|] eqn:Erow; [|discriminate].
  apply nth_error_In in Erow.
  rewrite Forall_forall in Hrect. rewrite <- (Hrect row Erow).
  apply nth_error_Some. congruence.
Qed.

(* ------------------------------------------------------------------ *)
(** ** Cumulative returns *)

Lemma cumprod_from_step (acc : list R) (rows : list (list R)) (t : nat)
    (row : list R) :
  nth_error rows t = Some row ->
  exists prev,
    nth_error (acc :: pd.cumprod_from acc rows) t = Some prev
    /\ nth_error (acc :: pd.cumprod_from acc rows) (S t)
       = Some (zip_with Rmult prev row).
Proof.
  revert acc t. induction rows as [|r rows IH]; intros acc [|t] H; simpl in H;
    try discriminate.
  - injection H as ->. exists acc. split; reflexivity.
  - destruct (IH (zip_with Rmult acc r) t H) as (prev & H1 & H2).
    exists prev. split; [exact H1 | exact H2].
Qed.

Lemma cumprod_from_lengths (n : nat) (acc : list R) (rows : list (list R)) :
  length acc = n ->
  Forall (fun row => length row = n) rows ->
  Forall (fun row => length row = n) (pd.cumprod_from acc rows).
Proof.
  revert acc. induction rows as [|r rows IH]; intros acc Hacc Hrows; simpl.
  - constructor.
  - apply Forall_cons_iff in Hrows as [Hr Hrest].
    assert (Hlen : length (zip_with Rmult acc r) = n).
    { rewrite length_zip_with, Hacc, Hr. apply Nat.min_id. }
    constructor; [exact Hlen|]. apply IH; [exact Hlen | exact Hrest].
Qed.

Lemma rectangular_cumprod (df : DataFrame R) :
  rectangular df -> rectangular (pd.cumprod df).
Proof.
  unfold rectangular, pd.cumprod, shape1. simpl.
  destruct (values df) as [|row rest]; intros H; [constructor|].
  apply Forall_cons_iff in H as [Hr Hrest].
  constructor; [exact Hr|].
  apply cumprod_from_lengths; assumption.
Qed.

Lemma shape0_cumprod (df : DataFrame R) : shape0 (pd.cumprod df) = shape0 df.
Proof.
  unfold shape0, pd.cumprod. simpl.
  destruct (values df) as [|row rest]; [reflexivity|]. simpl. f_equal.
  revert row. induction rest as [|r rest IH]; intros row; simpl;
    [reflexivity | f_equal; apply IH].
Qed.

(** The same cells for the running product in any arithmetic. *)
Lemma fp_cumprod_from_step {F : Type} (A : fp.arithmetic F) (acc : list F)
    (rows : list (list F)) (t : nat) (row : list F) :
  nth_error rows t = Some row ->
  exists prev,
    nth_error (acc :: fp.cumprod_from A acc rows) t = Some prev
    /\ nth_error (acc :: fp.cumprod_from A acc rows) (S t)
       = Some (zip_with (fp.times A) prev row).
Proof.
  revert acc t. induction rows as [|r rows IH]; intros acc [|t] H; simpl in H;
    try discriminate.
  - injection H as ->. exists acc. split; reflexivity.
  - destruct (IH (zip_with (fp.times A) acc r) t H) as (prev & H1 & H2).
    exists prev. split; [exact H1 | exact H2].
Qed.

Lemma fp_cumprod_from_lengths {F : Type} (A : fp.arithmetic F) (n : nat)
    (acc : list F) (rows : list (list F)) :
  length acc = n ->
  Forall (fun row => length row = n) rows ->
  Forall (fun row => length row = n) (fp.cumprod_from A acc rows)
  /\ length (fp.cumprod_from A acc rows) = length rows.
Proof.
  revert acc. induction rows as [|r rows IH]; intros acc Hacc Hrows; simpl.
  - split; [constructor | reflexivity].
  - apply Forall_cons_iff in Hrows as [Hr Hrest].
    assert (Hlen : length (zip_with (fp.times A) acc r) = n).
    { rewrite length_zip_with, Hacc, Hr. apply Nat.min_id. }
    destruct (IH _ Hlen Hrest) as [Hall Hcount].
    split; [constructor; assumption | f_equal; exact Hcount].
Qed.

Lemma fp_np_cumprod_lengths {F : Type} (A : fp.arithmetic F) (n : nat)
    (rows : list (list F)) :
  Forall (fun row => length row = n) rows ->
  Forall (fun row => length row = n) (fp.np_cumprod A rows)
  /\ length (fp.np_cumprod A rows) = length rows.
Proof.
  destruct rows as [|row rest]; intros H; [split; [constructor | reflexivity]|].
  apply Forall_cons_iff in H as [Hr Hrest]. unfold fp.np_cumprod.
  destruct (fp_cumprod_from_lengths A n row rest Hr Hrest) as [Hall Hcount].
  split; [constructor; assumption | simpl; f_equal; exact Hcount].
Qed.

Lemma shape0_fp_cumprod {F : Type} (A : fp.arithmetic F) (df : DataFrame F) :
  rectangular df -> shape0 (fp.cumprod A df) = shape0 df.
Proof.
  intros Hrect. unfold shape0, fp.cumprod. cbn [values].
  rewrite length_zip_with.
  destruct (fp_np_cumprod_lengths A (shape1 df)
              (map (map (fp.skipna A (fp.one A))) (values df))) as [_ Hcount].
  - apply Forall_map. eapply Forall_impl; [|exact Hrect].
    intros row Hrow. simpl. rewrite length_map. exact Hrow.
  - rewrite Hcount, length_map. apply Nat.min_id.
Qed.

(** At the first row the running product is the row itself, NaN
    included. *)
Lemma cell_fp_cumprod_first {F : Type} (A : fp.arithmetic F) (df : DataFrame F)
    (i : nat) :
  cell (fp.cumprod A df) 0 i = cell df 0 i.
Proof.
  unfold cell, fp.cumprod. cbn [values].
  destruct (values df) as [|row rest]; [reflexivity|].
  cbn [map fp.np_cumprod zip_with nth_error].
  rewrite nth_error_zip_with, nth_error_map.
  destruct (nth_error row i) as [v|]; [|reflexivity].
  cbn [option_map]. unfold fp.skipna.
  destruct (fp.isnan A v); reflexivity.
Qed.

(** At a later row, where neither the item nor the item above it is NaN,
    the running product is the one above times the item. *)
Lemma cell_fp_cumprod_step {F : Type} (A : fp.arithmetic F) (df : DataFrame F)
    (t i : nat) (v' v : F) :
  rectangular df ->
  cell df t i = Some v' ->
  cell df (S t) i = Some v ->
  fp.isnan A v' = false ->
  fp.isnan A v = false ->
  exists g,
    cell (fp.cumprod A df) t i = Some g
    /\ cell (fp.cumprod A df) (S t) i = Some (fp.times A g v).
Proof.
  intros Hrect Hup Hcell Hnan' Hnan.
  pose proof (cell_some_lt df (S t) i v Hrect Hcell) as Hi.
  unfold cell in Hup, Hcell |- *. unfold fp.cumprod. cbn [values].
  set (fill := map (fp.skipna A (fp.one A))).
  set (keep := zip_with (fun x r : F => if fp.isnan A x then x else r)).
  assert (Hvals : Forall (fun row => length row = shape1 df) (map fill (values df))).
  { apply Forall_map. eapply Forall_impl; [|exact Hrect].
    intros row Hrow. unfold fill. simpl. rewrite length_map. exact Hrow. }
  destruct (fp_np_cumprod_lengths A _ _ Hvals) as [Hall _].
  destruct (values df) as [|row0 rest] eqn:Evals; [discriminate|].
  cbn [nth_error] in Hcell.
  destruct (nth_error rest t) as [row|] eqn:Erow; [|discriminate].
  destruct (nth_error (row0 :: rest) t) as [row'|] eqn:Erow'; [|discriminate].
  cbn [map fp.np_cumprod] in Hall |- *.
  destruct (fp_cumprod_from_step A (fill row0) (map fill rest) t (fill row))
    as (prev & H1 & H2).
  { rewrite nth_error_map, Erow. reflexivity. }
  assert (Hprev : length prev = shape1 df).
  { rewrite Forall_forall in Hall. apply Hall. eapply nth_error_In. exact H1. }
  destruct (nth_error prev i) as [p|] eqn:Ep.
  2:{ apply nth_error_None in Ep. lia. }
  exists p.
  rewrite !nth_error_zip_with, Erow', H1, H2.
  change (nth_error (row0 :: rest) (S t)) with (nth_error rest t). rewrite Erow.
  unfold keep. rewrite !nth_error_zip_with, Hup, Hcell, Ep.
  unfold fill at 1. rewrite nth_error_map, Hcell. cbn [option_map].
  unfold fp.skipna. rewrite Hnan', Hnan. split; reflexivity.
Qed.

(** *** NaN in binary64

    From the specification of the primitive floats: the sum of 1 and a
    number is NaN exactly where the number is. *)

Lemma shr_1_nonneg (mrs : shr_record) :
  (0 <= shr_m mrs)%Z -> (0 <= shr_m (shr_1 mrs))%Z.
Proof.
  destruct mrs as [m r s]. simpl.
  destruct m as [|[p|p|]|p]; simpl; lia.
Qed.

Lemma iter_shr_1_nonneg (p : positive) (mrs : shr_record) :
  (0 <= shr_m mrs)%Z -> (0 <= shr_m (SpecFloat.iter_pos shr_1 p mrs))%Z.
Proof.
  revert mrs. induction p as [p IH|p IH|]; intros mrs H; simpl.
  - apply IH, IH, shr_1_nonneg, H.
  - apply IH, IH, H.
  - apply shr_1_nonneg, H.
Qed.

Lemma shr_fexp_nonneg (prec emax m e : Z) (l : location) :
  (0 <= m)%Z -> (0 <= shr_m (fst (shr_fexp prec emax m e l)))%Z.
Proof.
  intros H. unfold shr_fexp, shr.
  assert (H0 : (0 <= shr_m (shr_record_of_loc m l))%Z).
  { destruct l as [|[| |]]; exact H. }
  destruct (fexp prec emax (Zdigits2 m + e) - e)%Z; simpl; try exact H0.
  apply iter_shr_1_nonneg, H0.
Qed.

Lemma round_nearest_even_nonneg (m : Z) (l : location) :
  (0 <= m)%Z -> (0 <= round_nearest_even m l)%Z.
Proof.
  intros H. destruct l as [|[| |]]; simpl; try lia.
  destruct (Z.even m); lia.
Qed.

Lemma binary_round_aux_not_nan (prec emax : Z) (s : bool) (m e : Z)
    (l : location) :
  (0 <= m)%Z -> binary_round_aux prec emax s m e l <> S754_nan.
Proof.
  intros H. unfold binary_round_aux.
  pose proof (shr_fexp_nonneg prec emax m e l H) as H1.
  destruct (shr_fexp prec emax m e l) as [mrs' e']. simpl in H1.
  pose proof (shr_fexp_nonneg prec emax _ e' loc_Exact
                (round_nearest_even_nonneg _ (loc_of_shr_record mrs') H1)) as H2.
  destruct (shr_fexp prec emax
              (round_nearest_even (shr_m mrs') (loc_of_shr_record mrs'))
              e' loc_Exact) as [mrs'' e'']. simpl in H2.
  destruct (shr_m mrs'') as [|p|p]; try discriminate; [|lia].
  destruct (e'' <=? emax - prec)%Z; discriminate.
Qed.

Lemma binary_normalize_not_nan (prec emax m e : Z) (szero : bool) :
  binary_normalize prec emax m e szero <> S754_nan.
Proof.
  unfold binary_normalize, binary_round.
  destruct m as [|p|p]; [discriminate| |];
    destruct (shl_align _ _ _) as [mz ez]; apply binary_round_aux_not_nan; lia.
Qed.

Lemma SFadd_finite_nan (prec emax : Z) (s : bool) (m : positive) (e : Z)
    (y : spec_float) :
  SFadd prec emax (S754_finite s m e) y = S754_nan <-> y = S754_nan.
Proof.
  destruct y as [sy|sy| |sy my ey]; simpl; split; intros H; try discriminate;
    try reflexivity.
  exfalso. revert H. apply binary_normalize_not_nan.
Qed.

Lemma SFeqb_refl (x : spec_float) : SFeqb x x = false <-> x = S754_nan.
Proof.
  destruct x as [s|s| |s m e]; unfold SFeqb; simpl; split; intros H;
    try discriminate; try reflexivity.
  - destruct s; discriminate.
  - exfalso. rewrite Z.compare_refl, Pos.compare_cont_refl in H.
    destruct s; discriminate.
Qed.

Lemma is_nan_spec (x : fp.float64) :
  PrimFloat.is_nan x = true <-> Prim2SF x = S754_nan.
Proof.
  unfold PrimFloat.is_nan. rewrite FloatAxioms.eqb_spec, negb_true_iff.
  apply SFeqb_refl.
Qed.

Lemma is_nan_one_plus (d : fp.float64) :
  PrimFloat.is_nan (1 + d)%float = PrimFloat.is_nan d.
Proof.
  apply eq_true_iff_eq. rewrite !is_nan_spec, add_spec.
  change (Prim2SF 1) with (S754_finite false 4503599627370496 (-52)).
  apply SFadd_finite_nan.
Qed.

Lemma Some_eq {A : Type} (a b : A) : Some a = Some b -> a = b.
Proof. intros H. injection H as H. exact H. Qed.

(** C5 as it is written fails.  One asset, one day, a return of one
    percent: the cumulative return of that day is (1 + 0.01) - 1 as
    binary64 computes it, 0.010000000000000009, not 0. *)
Lemma C5_first_row_not_zero : ~ cumulative_return_zero_at_first_row.
Proof.
  intros H.
  destruct (H one_percent_day
              (mkFrame ["A"%string] [[(1 + 1 / 100 - 1)%float]])) as [H0 _].
  - repeat constructor.
  - reflexivity.
  - specialize (H0 0%nat (1 / 100)%float eq_refl).
    unfold cell in H0. cbn [values nth_error] in H0.
    apply Some_eq in H0.
    apply (f_equal (fun v => PrimFloat.eqb v 0%float)) in H0.
    vm_compute in H0. discriminate H0.
Qed.

(** In binary64 the recurrence of the sentence fails as well, where the
    value of $1 has fallen below one half.  After returns of -0.5 and
    -0.4 the value is 0.3 and the cumulative return -0.7; a return of 0.2
    takes the value to 0.36 and the cumulative return to -0.64, where
    (1 + -0.7) * (1 + 0.2) - 1 is -0.6399999999999999. *)
Lemma recurrence_on_returns_fails_in_binary64 :
  exists c : DataFrame fp.float64,
    fp.calculate_cumulative_returns fp.binary64 three_volatile_days = Returns c
    /\ ~ recurrence_on_returns three_volatile_days c 1 0.
Proof.
  eexists. split; [reflexivity|].
  intros H. destruct (H (2 / 10)%float eq_refl) as (prev & Hprev & Hnext).
  vm_compute in Hprev. apply Some_eq in Hprev. subst prev.
  apply (f_equal (fun o => match o with
                           | Some v => PrimFloat.eqb v (- (64 / 100))%float
                           | None => false
                           end)) in Hnext.
  vm_compute in Hnext. discriminate Hnext.
Qed.

(** pandas leaves a NaN out of the running product: after a return of
    one percent, a NaN and another return of one percent, the cumulative
    return is that of the two returns, 0.020100000000000007, and the
    formula of the sentence gives NaN. *)
Lemma recurrence_on_returns_skips_nan :
  exists c : DataFrame fp.float64,
    fp.calculate_cumulative_returns fp.binary64 one_percent_around_nan
    = Returns c
    /\ cell c 1 0 = Some nan
    /\ cell c 2 0 = Some ((1 + 1 / 100) * (1 + 1 / 100) - 1)%float
    /\ ~ recurrence_on_returns one_percent_around_nan c 1 0.
Proof.
  eexists. split; [reflexivity|]. split; [reflexivity|].
  split; [reflexivity|].
  intros H. destruct (H (1 / 100)%float eq_refl) as (prev & Hprev & Hnext).
  vm_compute in Hprev. apply Some_eq in Hprev. subst prev.
  apply (f_equal (fun o => match o with
                           | Some v => PrimFloat.is_nan v
                           | None => false
                           end)) in Hnext.
  vm_compute in Hnext. discriminate Hnext.
Qed.

(** C5 (amended).  For every daily-returns table of binary64 values and
    every column: the cumulative return at the first row is
    [(1 + daily[0]) - 1], which is the daily return up to rounding and not
    0; at every row it is the value of $1 minus 1; and at every later row
    [t], where neither [daily[t-1]] nor [daily[t]] is NaN, the value of
    $1 is the value at [t-1] times [1 + daily[t]], so that the cumulative
    return is [value[t-1] * (1 + daily[t]) - 1]. *)
Theorem C5_cumulative_return_recurrence (daily_returns : DataFrame fp.float64) :
  rectangular daily_returns ->
  let value := cumulative_value fp.binary64 daily_returns in
  exists c : DataFrame fp.float64,
    fp.calculate_cumulative_returns fp.binary64 daily_returns = Returns c
    /\ shape0 c = shape0 daily_returns
    /\ (forall i d, cell daily_returns 0 i = Some d ->
          cell c 0 i = Some ((1 + d) - 1)%float)
    /\ (forall t i, cell c t i
                    = option_map (fun g => (g - 1)%float) (cell value t i))
    /\ (forall t i d' d,
          cell daily_returns t i = Some d' ->
          cell daily_returns (S t) i = Some d ->
          PrimFloat.is_nan d' = false ->
          PrimFloat.is_nan d = false ->
          exists g,
            cell value t i = Some g
            /\ cell value (S t) i = Some (g * (1 + d))%float
            /\ cell c (S t) i = Some (g * (1 + d) - 1)%float).
Proof.
  intros Hrect value. eexists. split; [reflexivity|].
  set (grown := frame_map (fp.plus fp.binary64 (fp.one fp.binary64)) daily_returns).
  assert (Hg : rectangular grown) by (apply rectangular_frame_map; exact Hrect).
  change value with (fp.cumprod fp.binary64 grown).
  split; [|split; [|split]].
  - unfold shape0, frame_map. cbn [values]. rewrite length_map.
    change (shape0 (fp.cumprod fp.binary64 grown) = shape0 daily_returns).
    rewrite shape0_fp_cumprod by exact Hg.
    unfold grown, shape0, frame_map. cbn [values]. apply length_map.
  - intros i d Hd.
    rewrite cell_frame_map, cell_fp_cumprod_first. unfold grown.
    rewrite cell_frame_map, Hd. reflexivity.
  - intros t i. apply cell_frame_map.
  - intros t i d' d Hd' Hd Hnan' Hnan.
    destruct (cell_fp_cumprod_step fp.binary64 grown t i (1 + d')%float (1 + d)%float)
      as (g & Hprev & Hnext); try assumption.
    + unfold grown. rewrite cell_frame_map, Hd'. reflexivity.
    + unfold grown. rewrite cell_frame_map, Hd. reflexivity.
    + cbn [fp.isnan fp.binary64]. rewrite is_nan_one_plus. exact Hnan'.
    + cbn [fp.isnan fp.binary64]. rewrite is_nan_one_plus. exact Hnan.
    + exists g. split; [exact Hprev|]. split; [exact Hnext|].
      rewrite cell_frame_map, Hnext. reflexivity.
Qed.

Lemma C5_cumulative_return_recurrence_witness :
  exists c : DataFrame fp.float64,
    fp.calculate_cumulative_returns fp.binary64 three_volatile_days = Returns c
    /\ shape0 c = 3%nat
    /\ cell c 0 0 = Some ((1 + - (1 / 2)) - 1)%float
    /\ cell c 2 0
       = Some ((1 + - (1 / 2)) * (1 + - (4 / 10)) * (1 + 2 / 10) - 1)%float.
Proof.
  destruct (C5_cumulative_return_recurrence three_volatile_days)
    as (c & Hc & Hshape & Hfirst & Hvalue & Hstep).
  { repeat constructor. }
  exists c. split; [exact Hc|]. split; [exact Hshape|].
  split; [apply Hfirst; reflexivity|].
  destruct (Hstep 1%nat 0%nat (- (4 / 10))%float (2 / 10)%float)
    as (g & Hg & _ & Hnext); try reflexivity.
  rewrite Hnext. vm_compute in Hg. apply Some_eq in Hg. subst g. reflexivity.
Defined.

(* ------------------------------------------------------------------ *)
(** ** The portfolio return in rounded arithmetic *)

Lemma pow_1u_ge_1 (u : R) (m : nat) : 0 <= u -> 1 <= (1 + u) ^ m.
Proof. intros Hu. apply pow_R1_Rle. lra. Qed.

Lemma pow_1u_mono (u : R) (m n : nat) :
  0 <= u -> (m <= n)%nat -> (1 + u) ^ m <= (1 + u) ^ n.
Proof. intros Hu Hmn. apply Rle_pow; [lra | exact Hmn]. Qed.

Lemma total_abs_nonneg (xs : list R) : 0 <= Spec.total (map Rabs xs).
Proof.
  induction xs as [|x xs IH]; simpl; [lra|].
  pose proof (Rabs_pos x). lra.
Qed.

Lemma abs_dot_nonneg (row weights : list R) : 0 <= abs_dot row weights.
Proof.
  revert weights. induction row as [|r row IH]; intros [|w weights]; simpl;
    try lra.
  pose proof (Rabs_pos (r * w)). specialize (IH weights). lra.
Qed.

Lemma accurate_bound (u : R) (rnd : R -> R) (x : R) :
  0 <= u -> accurate u rnd -> Rabs (rnd x) <= (1 + u) * Rabs x.
Proof.
  intros Hu Hrnd. specialize (Hrnd x).
  replace (rnd x) with ((rnd x - x) + x) by ring.
  eapply Rle_trans; [apply Rabs_triang|]. lra.
Qed.

(** A sum taken from left to right with a rounding after every addition:
    each of the [n] additions adds a relative error of at most [u]. *)
Lemma rounded_sum_near (rnd : R -> R) (u : R) (xs : list R) (acc : R) :
  0 <= u -> accurate u rnd ->
  Rabs (fold_left (fun a x => rnd (a + x)) xs acc - (acc + Spec.total xs))
  <= ((1 + u) ^ length xs - 1) * (Rabs acc + Spec.total (map Rabs xs)).
Proof.
  intros Hu Hrnd. revert acc. induction xs as [|x xs IH]; intros acc.
  - simpl. replace (acc - (acc + 0)) with 0 by ring. rewrite Rabs_R0. lra.
  - cbn [fold_left Spec.total map length].
    set (a' := rnd (acc + x)).
    specialize (IH a').
    pose proof (Hrnd (acc + x)) as Hnear. fold a' in Hnear.
    pose proof (accurate_bound u rnd (acc + x) Hu Hrnd) as Ha'. fold a' in Ha'.
    pose proof (Rabs_triang acc x) as Htri.
    pose proof (Rabs_pos acc) as Hacc. pose proof (Rabs_pos x) as Hx.
    pose proof (total_abs_nonneg xs) as HT.
    pose proof (pow_1u_ge_1 u (length xs) Hu) as HP.
    set (F := fold_left (fun a y => rnd (a + y)) xs a') in *.
    set (P := (1 + u) ^ length xs) in *.
    set (T := Spec.total (map Rabs xs)) in *.
    set (Sx := Spec.total xs) in *.
    replace (F - (acc + (x + Sx))) with ((F - (a' + Sx)) + (a' - (acc + x))) by ring.
    eapply Rle_trans; [apply Rabs_triang|].
    change ((1 + u) ^ S (length xs)) with ((1 + u) * (1 + u) ^ length xs).
    fold P.
    assert (H1 : (P - 1) * (Rabs a' + T)
                 <= (P - 1) * ((1 + u) * (Rabs acc + Rabs x) + T)).
    { apply Rmult_le_compat_l; [lra|].
      assert ((1 + u) * Rabs (acc + x) <= (1 + u) * (Rabs acc + Rabs x))
        by (apply Rmult_le_compat_l; lra).
      lra. }
    assert (H2 : u * Rabs (acc + x) <= u * (Rabs acc + Rabs x))
      by (apply Rmult_le_compat_l; lra).
    assert (H3 : 0 <= u * P * T).
    { apply Rmult_le_pos; [apply Rmult_le_pos; lra | lra]. }
    nra.
Qed.

(** Products that are each off by a relative error of at most [eta]. *)
Lemma perturbed_products_near (f g : R -> R -> R) (eta : R)
    (row weights : list R) :
  0 <= eta ->
  (forall r w, Rabs (f r w - g r w) <= eta * Rabs (g r w)) ->
  Rabs (Spec.total (zip_with f row weights) - Spec.total (zip_with g row weights))
  <= eta * Spec.total (map Rabs (zip_with g row weights))
  /\ Spec.total (map Rabs (zip_with f row weights))
     <= (1 + eta) * Spec.total (map Rabs (zip_with g row weights)).
Proof.
  intros Heta Hfg. revert weights.
  induction row as [|r row IH]; intros [|w weights];
    cbn [zip_with Spec.total map];
    try (replace (0 - 0) with 0 by ring; rewrite Rabs_R0; split; lra).
  destruct (IH weights) as [IH1 IH2].
  specialize (Hfg r w).
  pose proof (Rabs_pos (g r w)) as Hg.
  split.
  - replace (f r w + Spec.total (zip_with f row weights)
             - (g r w + Spec.total (zip_with g row weights)))
      with ((f r w - g r w)
            + (Spec.total (zip_with f row weights)
               - Spec.total (zip_with g row weights))) by ring.
    eapply Rle_trans; [apply Rabs_triang|]. lra.
  - assert (Hf : Rabs (f r w) <= (1 + eta) * Rabs (g r w)).
    { replace (f r w) with ((f r w - g r w) + g r w) by ring.
      eapply Rle_trans; [apply Rabs_triang|]. lra. }
    lra.
Qed.

(** A dot product computed with roundings about its exact value. *)
Lemma rounded_dot_near (rnd : R -> R) (u eta : R) (f g : R -> R -> R) (n : nat)
    (row weights : list R) :
  0 <= u -> accurate u rnd -> 0 <= eta ->
  (forall r w, Rabs (f r w - g r w) <= eta * Rabs (g r w)) ->
  (length weights <= n)%nat ->
  Rabs (fold_left (fun a x => rnd (a + x)) (zip_with f row weights) 0
        - Spec.total (zip_with g row weights))
  <= ((1 + u) ^ n * (1 + eta) - 1)
     * Spec.total (map Rabs (zip_with g row weights)).
Proof.
  intros Hu Hrnd Heta Hfg Hn.
  pose proof (rounded_sum_near rnd u (zip_with f row weights) 0 Hu Hrnd) as Hsum.
  destruct (perturbed_products_near f g eta row weights Heta Hfg) as [Hnear Habs].
  rewrite Rabs_R0, Rplus_0_l in Hsum. rewrite Rplus_0_l in Hsum.
  pose proof (total_abs_nonneg (zip_with g row weights)) as HG.
  pose proof (total_abs_nonneg (zip_with f row weights)) as HF.
  assert (Hm : (length (zip_with f row weights) <= n)%nat).
  { rewrite length_zip_with. lia. }
  pose proof (pow_1u_mono u _ _ Hu Hm) as Hmono.
  pose proof (pow_1u_ge_1 u (length (zip_with f row weights)) Hu) as HP.
  set (F := fold_left (fun a x => rnd (a + x)) (zip_with f row weights) 0) in *.
  set (Sf := Spec.total (zip_with f row weights)) in *.
  set (Sg := Spec.total (zip_with g row weights)) in *.
  set (Tf := Spec.total (map Rabs (zip_with f row weights))) in *.
  set (Tg := Spec.total (map Rabs (zip_with g row weights))) in *.
  set (Pm := (1 + u) ^ length (zip_with f row weights)) in *.
  set (Pn := (1 + u) ^ n) in *.
  replace (F - Sg) with ((F - Sf) + (Sf - Sg)) by ring.
  eapply Rle_trans; [apply Rabs_triang|].
  assert (H1 : (Pm - 1) * Tf <= (Pm - 1) * ((1 + eta) * Tg))
    by (apply Rmult_le_compat_l; lra).
  assert (H2 : Pm * ((1 + eta) * Tg) <= Pn * ((1 + eta) * Tg)).
  { apply Rmult_le_compat_r; [|exact Hmono].
    apply Rmult_le_pos; lra. }
  nra.
Qed.

Lemma total_products (row weights : list R) :
  Spec.total (zip_with Rmult row weights) = Spec.dot_product row weights.
Proof.
  revert weights. induction row as [|r row IH]; intros [|w weights]; simpl;
    try reflexivity.
  rewrite IH. reflexivity.
Qed.

Lemma total_abs_products (row weights : list R) :
  Spec.total (map Rabs (zip_with Rmult row weights)) = abs_dot row weights.
Proof.
  revert weights. induction row as [|r row IH]; intros [|w weights]; simpl;
    try reflexivity.
  rewrite IH. reflexivity.
Qed.

Lemma total_scaled_products (k : R) (row weights : list R) :
  Spec.total (zip_with (fun r w => k * (r * w)) row weights)
  = k * Spec.dot_product row weights
  /\ Spec.total (map Rabs (zip_with (fun r w => k * (r * w)) row weights))
     = Rabs k * abs_dot row weights.
Proof.
  revert weights. induction row as [|r row IH]; intros [|w weights]; simpl;
    try (split; ring).
  destruct (IH weights) as [-> ->]. rewrite (Rabs_mult k (r * w)).
  split; ring.
Qed.

Lemma zip_with_map_right {A B B' C : Type} (f : A -> B' -> C) (h : B -> B')
    (u : list A) (v : list B) :
  zip_with f u (map h v) = zip_with (fun a b => f a (h b)) u v.
Proof.
  revert v. induction u as [|a u IH]; intros [|b v]; simpl; try reflexivity.
  f_equal. apply IH.
Qed.

(** One rounded product, and one rounded product with a rounded scaled
    weight. *)
Lemma rounded_product_near (rnd : R -> R) (u r w : R) :
  0 <= u -> accurate u rnd ->
  Rabs (rnd (r * w) - r * w) <= u * Rabs (r * w).
Proof. intros _ Hrnd. apply Hrnd. Qed.

Lemma rounded_scaled_product_near (rnd : R -> R) (u k r w : R) :
  0 <= u -> accurate u rnd ->
  Rabs (rnd (r * rnd (k * w)) - k * (r * w))
  <= ((1 + u) * (1 + u) - 1) * Rabs (k * (r * w)).
Proof.
  intros Hu Hrnd.
  pose proof (Hrnd (k * w)) as Hz.
  pose proof (Hrnd (r * rnd (k * w))) as Hy.
  pose proof (accurate_bound u rnd (k * w) Hu Hrnd) as Hz'.
  replace (k * (r * w)) with (r * (k * w)) by ring.
  rewrite (Rabs_mult r (k * w)).
  rewrite (Rabs_mult r (rnd (k * w))) in Hy.
  pose proof (Rabs_pos r) as Hr. pose proof (Rabs_pos (k * w)) as Hkw.
  replace (rnd (r * rnd (k * w)) - r * (k * w))
    with ((rnd (r * rnd (k * w)) - r * rnd (k * w))
          + r * (rnd (k * w) - k * w)) by ring.
  eapply Rle_trans; [apply Rabs_triang|].
  rewrite (Rabs_mult r (rnd (k * w) - k * w)).
  assert (H1 : Rabs r * Rabs (rnd (k * w) - k * w) <= Rabs r * (u * Rabs (k * w)))
    by (apply Rmult_le_compat_l; lra).
  assert (H2 : u * (Rabs r * Rabs (rnd (k * w)))
               <= u * (Rabs r * ((1 + u) * Rabs (k * w)))).
  { apply Rmult_le_compat_l; [lra|]. apply Rmult_le_compat_l; lra. }
  nra.
Qed.

Lemma dot_le_abs_dot (row weights : list R) :
  Rabs (Spec.dot_product row weights) <= abs_dot row weights.
Proof.
  revert weights. induction row as [|r row IH]; intros [|w weights]; simpl;
    try (rewrite Rabs_R0; lra).
  eapply Rle_trans; [apply Rabs_triang|]. specialize (IH weights). lra.
Qed.

Lemma skipna_rounded (rnd : R -> R) (row : list R) :
  map (fp.skipna (fp.rounded rnd) (fp.zero (fp.rounded rnd))) row = row.
Proof. induction row as [|x row IH]; simpl; [reflexivity | f_equal; exact IH]. Qed.

(** One row: the portfolio return with the weights scaled, against the
    scaled portfolio return. *)
Lemma rounded_row_linear (rnd : R -> R) (u k : R) (row weights : list R) :
  0 <= u -> accurate u rnd ->
  let dot := fun ws =>
    fold_left (fun a x => rnd (a + x)) (zip_with (fun r w => rnd (r * w)) row ws) 0 in
  Rabs (dot (map (fun w => rnd (k * w)) weights) - rnd (k * dot weights))
  <= 2 * ((1 + u) ^ (length weights + 2) - 1) * Rabs k * abs_dot row weights.
Proof.
  intros Hu Hrnd dot. unfold dot.
  rewrite zip_with_map_right.
  set (n := length weights).
  pose proof (rounded_dot_near rnd u ((1 + u) * (1 + u) - 1)
                (fun r w => rnd (r * rnd (k * w))) (fun r w => k * (r * w))
                n row weights Hu Hrnd) as Hx.
  pose proof (rounded_dot_near rnd u u
                (fun r w => rnd (r * w)) Rmult n row weights Hu Hrnd Hu) as Hy.
  destruct (total_scaled_products k row weights) as [Esum Eabs].
  rewrite Esum, Eabs in Hx. rewrite total_products, total_abs_products in Hy.
  assert (Hx' := Hx ltac:(nra)
                   (fun r w => rounded_scaled_product_near rnd u k r w Hu Hrnd)
                   (Nat.le_refl n)).
  assert (Hy' := Hy (fun r w => rounded_product_near rnd u r w Hu Hrnd)
                   (Nat.le_refl n)).
  clear Hx Hy.
  set (X := fold_left (fun a x => rnd (a + x))
              (zip_with (fun r w => rnd (r * rnd (k * w))) row weights) 0) in *.
  set (Y := fold_left (fun a x => rnd (a + x))
              (zip_with (fun r w => rnd (r * w)) row weights) 0) in *.
  set (D := Spec.dot_product row weights) in *.
  pose proof (dot_le_abs_dot row weights) as HD. fold D in HD.
  pose proof (abs_dot_nonneg row weights) as HS.
  set (S0 := abs_dot row weights) in *.
  pose proof (pow_1u_ge_1 u n Hu) as HP.
  replace ((1 + u) ^ (n + 2)) with ((1 + u) ^ n * ((1 + u) * (1 + u)))
    by (rewrite pow_add; simpl; ring).
  set (P := (1 + u) ^ n) in *.
  pose proof (Rabs_pos k) as HK.
  pose proof (Hrnd (k * Y)) as Hr. rewrite (Rabs_mult k Y) in Hr.
  assert (HY : Rabs Y <= P * (1 + u) * S0).
  { replace Y with ((Y - D) + D) by ring.
    eapply Rle_trans; [apply Rabs_triang|]. lra. }
  assert (H1 : u * (Rabs k * Rabs Y) <= u * (Rabs k * (P * (1 + u) * S0))).
  { apply Rmult_le_compat_l; [lra|]. apply Rmult_le_compat_l; lra. }
  assert (H2 : Rabs k * Rabs (Y - D) <= Rabs k * ((P * (1 + u) - 1) * S0))
    by (apply Rmult_le_compat_l; lra).
  replace (X - rnd (k * Y))
    with ((X - k * D) + (- (rnd (k * Y) - k * Y) + - (k * (Y - D)))) by ring.
  eapply Rle_trans; [apply Rabs_triang|].
  eapply Rle_trans; [apply Rplus_le_compat_l, Rabs_triang|].
  rewrite !Rabs_Ropp, (Rabs_mult k (Y - D)).
  replace (1 + ((1 + u) * (1 + u) - 1)) with ((1 + u) * (1 + u)) in Hx' by ring.
  nra.
Qed.

(** C9 as it is written fails.  One asset with a return of 0.1, a weight
    of 0.3 and [k = 7]: the return on the weight 7 * 0.3 is
    0.21000000000000002, and 7 times the return on the weight 0.3 is
    0.21. *)
Lemma C9_scaling_rounds_differently : ~ portfolio_return_linear_in_weights.
Proof.
  intros H.
  specialize (H ten_percent_day [(3 / 10)%float] 7%float _ _
                eq_refl eq_refl eq_refl).
  apply Forall2_cons_iff in H as [H _].
  vm_compute in H. discriminate H.
Qed.

(** On that input the two sides are neighbours: the first is the next
    binary64 value above the second. *)
Lemma scaling_differs_in_the_last_place :
  exists scaled base,
    fp.calculate_portfolio_return fp.binary64 ten_percent_day
      [(7 * (3 / 10))%float] = Returns [scaled]
    /\ fp.calculate_portfolio_return fp.binary64 ten_percent_day
         [(3 / 10)%float] = Returns [base]
    /\ PrimFloat.eqb scaled (next_up (7 * base)%float) = true.
Proof.
  do 2 eexists. split; [reflexivity|]. split; reflexivity.
Qed.

(** C9 (amended).  [calculate_portfolio_return] is linear in the weights
    up to rounding.  In an arithmetic that rounds the result of every
    operation with a relative error of at most [u], for weights of
    matching length and every [k], the series computed on the weights
    multiplied by [k] and [k] times the series computed on the weights
    differ, at every row, by at most
    [2 * ((1 + u) ^ (N + 2) - 1) * |k|] times the sum of the absolute
    values of the products of the row and the weights.  Where nothing is
    rounded ([u = 0]) the two are equal. *)
Theorem C9_portfolio_return_linear (rnd : R -> R) (u : R)
    (daily_returns : DataFrame R) (weights : list R) (k : R) :
  0 <= u -> accurate u rnd ->
  length weights = shape1 daily_returns ->
  let A := fp.rounded rnd in
  exists scaled base : list R,
    fp.calculate_portfolio_return A daily_returns (map (fp.times A k) weights)
    = Returns scaled
    /\ fp.calculate_portfolio_return A daily_returns weights = Returns base
    /\ length scaled = shape0 daily_returns
    /\ length base = shape0 daily_returns
    /\ forall t row x y,
         nth_error (values daily_returns) t = Some row ->
         nth_error scaled t = Some x ->
         nth_error base t = Some y ->
         Rabs (x - fp.times A k y)
         <= 2 * ((1 + u) ^ (length weights + 2) - 1) * Rabs k
            * abs_dot row weights
         /\ (u = 0 -> x = k * y).
Proof.
  intros Hu Hrnd Hlen A.
  unfold fp.calculate_portfolio_return, fp.mul.
  rewrite length_map, <- Hlen, Nat.eqb_refl. cbn [bind].
  do 2 eexists. split; [reflexivity|]. split; [reflexivity|].
  unfold fp.sum_axis1, shape0. cbn [values]. rewrite !length_map.
  split; [reflexivity|]. split; [reflexivity|].
  intros t row x y Hrow Hx Hy.
  rewrite map_map, nth_error_map, Hrow in Hx, Hy. cbn [option_map] in Hx, Hy.
  unfold A in Hx, Hy. rewrite skipna_rounded in Hx, Hy.
  apply Some_eq in Hx, Hy. subst x y.
  pose proof (rounded_row_linear rnd u k row weights Hu Hrnd) as Hbound.
  cbv beta zeta in Hbound.
  unfold A. cbn [fp.times fp.plus fp.zero fp.rounded].
  split; [exact Hbound|].
  intros Hu0. subst u.
  assert (Hid : forall z, rnd z = z).
  { intros z. specialize (Hrnd z). rewrite Rmult_0_l in Hrnd.
    pose proof (Rabs_pos (rnd z - z)) as Hpos.
    assert (Hz : Rabs (rnd z - z) = 0) by lra.
    destruct (Req_dec (rnd z - z) 0) as [E|E]; [lra|].
    apply Rabs_no_R0 in E. contradiction. }
  rewrite <- (Hid (k * _)).
  replace (1 + 0) with 1 in Hbound by ring. rewrite pow1 in Hbound.
  replace (2 * (1 - 1) * Rabs k * abs_dot row weights) with 0 in Hbound by ring.
  match type of Hbound with
  | Rabs (?a - ?b) <= 0 =>
      pose proof (Rabs_pos (a - b)) as Hpos;
      destruct (Req_dec (a - b) 0) as [E|E];
      [lra | apply Rabs_no_R0 in E; lra]
  end.
Qed.

Lemma rounding_up_accurate : accurate (/ 2 ^ 53) rounding_up.
Proof.
  intros x. unfold rounding_up.
  assert (Hu : 0 < / 2 ^ 53) by (apply Rinv_0_lt_compat, pow_lt; lra).
  replace (x * (1 + / 2 ^ 53) - x) with (/ 2 ^ 53 * x) by ring.
  rewrite Rabs_mult, (Rabs_pos_eq (/ 2 ^ 53)) by lra. lra.
Qed.

Lemma C9_portfolio_return_linear_witness :
  exists scaled base : list R,
    fp.calculate_portfolio_return (fp.rounded rounding_up) example_returns
      (map (fp.times (fp.rounded rounding_up) 3) [1 / 2; 1 / 2])
    = Returns scaled
    /\ fp.calculate_portfolio_return (fp.rounded rounding_up) example_returns
         [1 / 2; 1 / 2]
       = Returns base
    /\ length scaled = shape0 example_returns
    /\ length base = shape0 example_returns
    /\ forall t row x y,
         nth_error (values example_returns) t = Some row ->
         nth_error scaled t = Some x ->
         nth_error base t = Some y ->
         Rabs (x - fp.times (fp.rounded rounding_up) 3 y)
         <= 2 * ((1 + / 2 ^ 53) ^ (length [1 / 2; 1 / 2] + 2) - 1) * Rabs 3
            * abs_dot row [1 / 2; 1 / 2]
         /\ (/ 2 ^ 53 = 0 -> x = 3 * y).
Proof.
  apply (C9_portfolio_return_linear rounding_up (/ 2 ^ 53) example_returns
           [1 / 2; 1 / 2] 3).
  - apply Rlt_le, Rinv_0_lt_compat, pow_lt. lra.
  - exact rounding_up_accurate.
  - reflexivity.
Defined.

(** Without rounding the engine is the one of [data_handler]. *)
Lemma exact_portfolio_return (daily_returns : DataFrame R) (weights : list R) :
  fp.calculate_portfolio_return (fp.rounded (fun x => x)) daily_returns weights
  = calculate_portfolio_return daily_returns weights.
Proof.
  unfold fp.calculate_portfolio_return, calculate_portfolio_return, fp.mul, pd.mul.
  destruct (Nat.eqb (shape1 daily_returns) (length weights)); [|reflexivity].
  cbn [bind]. f_equal. unfold fp.sum_axis1, pd.sum_axis1. cbn [values].
  apply map_ext. intros row. rewrite skipna_rounded. reflexivity.
Qed.

Lemma zip_with_right {A : Type} (u v : list A) :
  length u = length v -> zip_with (fun _ r => r) u v = v.
Proof.
  revert v. induction u as [|a u IH]; intros [|b v] H; simpl in *;
    try discriminate; [reflexivity|].
  f_equal. apply IH. lia.
Qed.

Lemma exact_cumulative_returns (daily_returns : DataFrame R) :
  rectangular daily_returns ->
  fp.calculate_cumulative_returns (fp.rounded (fun x => x)) daily_returns
  = calculate_cumulative_returns daily_returns.
Proof.
  intros Hrect.
  unfold fp.calculate_cumulative_returns, calculate_cumulative_returns.
  f_equal. cbn [fp.minus fp.plus fp.one fp.rounded].
  set (grown := frame_map (fun r => 1 + r) daily_returns).
  assert (Hg : rectangular grown) by (apply rectangular_frame_map; exact Hrect).
  change (frame_map (fun b => 1 + b) daily_returns) with grown.
  f_equal. unfold fp.cumprod, pd.cumprod. f_equal.
  assert (Hfill : map (map (fp.skipna (fp.rounded (fun x => x))
                              (fp.one (fp.rounded (fun x => x))))) (values grown)
                  = values grown).
  { rewrite <- (map_id (values grown)) at 2. apply map_ext. intros row.
    induction row as [|x row IH]; simpl; [reflexivity | f_equal; exact IH]. }
  rewrite Hfill.
  destruct (fp_np_cumprod_lengths (fp.rounded (fun x => x)) (shape1 grown)
              (values grown) Hg) as [Hall Hcount].
  change (match values grown with
          | [] => []
          | row :: rest => row :: pd.cumprod_from row rest
          end) with (fp.np_cumprod (fp.rounded (fun x => x)) (values grown)).
  set (result := fp.np_cumprod (fp.rounded (fun x => x)) (values grown)) in *.
  clearbody result. clear Hfill. unfold rectangular in Hg.
  revert result Hall Hcount.
  induction (values grown) as [|row rows IH]; intros [|r result] Hall Hcount;
    simpl in Hcount; try discriminate; [reflexivity|].
  apply Forall_cons_iff in Hall as [Hr Hall].
  apply Forall_cons_iff in Hg as [Hrow Hg].
  cbn [zip_with]. f_equal.
  - apply zip_with_right. congruence.
  - apply IH; [exact Hg | exact Hall | lia].
Qed.

(* ------------------------------------------------------------------ *)
(** ** Daily returns *)

Lemma zip_with_shifted {A B : Type} (f : A -> A -> B) (prev : A) (rows : list A) :
  zip_with f rows (removelast (prev :: rows)) = pairwise f prev rows.
Proof.
  revert prev. induction rows as [|r rows IH]; intros prev; [reflexivity|].
  change (removelast (prev :: r :: rows)) with (prev :: removelast (r :: rows)).
  cbn [zip_with pairwise]. rewrite IH. reflexivity.
Qed.

Lemma length_pairwise {A B : Type} (f : A -> A -> B) (prev : A) (rows : list A) :
  length (pairwise f prev rows) = length rows.
Proof.
  revert prev. induction rows as [|r rows IH]; intros prev; simpl;
    [reflexivity | f_equal; apply IH].
Qed.

Lemma nth_error_pairwise {A B : Type} (f : A -> A -> B) (prev : A)
    (rows : list A) (t : nat) :
  nth_error (pairwise f prev rows) t
  = match nth_error rows t, nth_error (prev :: rows) t with
    | Some r, Some p => Some (f r p)
    | _, _ => None
    end.
Proof.
  revert prev t. induction rows as [|r rows IH]; intros prev [|t]; simpl;
    try reflexivity.
  rewrite IH. reflexivity.
Qed.

Lemma zip_with_map {A A' B B' C : Type} (f : A' -> B' -> C) (g : A -> A')
    (h : B -> B') (u : list A) (v : list B) :
  zip_with f (map g u) (map h v) = zip_with (fun a b => f (g a) (h b)) u v.
Proof.
  revert v. induction u as [|a u IH]; intros [|b v]; simpl; try reflexivity.
  rewrite IH. reflexivity.
Qed.

Lemma map_zip_with {A B C D : Type} (g : C -> D) (f : A -> B -> C)
    (u : list A) (v : list B) :
  map g (zip_with f u v) = zip_with (fun a b => g (f a b)) u v.
Proof.
  revert v. induction u as [|a u IH]; intros [|b v]; simpl; try reflexivity.
  rewrite IH. reflexivity.
Qed.

Lemma map_pairwise {A B C : Type} (g : B -> C) (f : A -> A -> B) (prev : A)
    (rows : list A) :
  map g (pairwise f prev rows) = pairwise (fun r p => g (f r p)) prev rows.
Proof.
  revert prev. induction rows as [|r rows IH]; intros prev; simpl;
    [reflexivity | rewrite IH; reflexivity].
Qed.

Lemma pairwise_map {A A' B : Type} (f : A' -> A' -> B) (g : A -> A') (prev : A)
    (rows : list A) :
  pairwise f (g prev) (map g rows) = pairwise (fun r p => f (g r) (g p)) prev rows.
Proof.
  revert prev. induction rows as [|r rows IH]; intros prev; simpl;
    [reflexivity | rewrite IH; reflexivity].
Qed.

(** The rows of [pct_change]: a first row that is NaN throughout, then
    the changes between consecutive rows. *)
Lemma pct_change_rows (cols : list string) (row0 : list R) (rest : list (list R)) :
  values (pd.pct_change (mkFrame cols (row0 :: rest)))
  = zip_with (fun (p : R) (b : float) => sub (div (Num p) b) (Num 1)) row0
      (repeat NaN (length cols))
    :: pairwise (zip_with pct) row0 rest.
Proof.
  unfold pd.pct_change, pd.truediv, pd.shift, pd.as_float, frame_map, shape1.
  cbn [values columns map].
  change (removelast (map Num row0 :: map (map Num) rest))
    with (removelast (map (map Num) (row0 :: rest))).
  cbn [zip_with map]. f_equal.
  - rewrite map_zip_with.
    rewrite <- (map_id (repeat NaN (length cols))) at 1.
    rewrite zip_with_map. reflexivity.
  - change (map (map Num) (row0 :: rest))
      with (map Num row0 :: map (map Num) rest).
    rewrite zip_with_shifted, map_pairwise, pairwise_map.
    clear. revert row0. induction rest as [|r rest IH]; intros row0; simpl;
      [reflexivity|].
    rewrite IH. f_equal.
    rewrite map_zip_with, zip_with_map. reflexivity.
Qed.

Lemma pct_finite (p q : R) : q <> 0 -> pct p q = Num (p / q - 1).
Proof. intros Hq. unfold pct. simpl. rewrite (Rzerob_false q Hq). reflexivity. Qed.

Lemma pct_infinite (p q : R) : q = 0 -> p <> 0 -> pct p q = Inf (Rnegb p).
Proof.
  intros Hq Hp. unfold pct. simpl.
  rewrite (Rzerob_true q Hq), (Rzerob_false p Hp). reflexivity.
Qed.

Lemma pct_undefined (p q : R) : q = 0 -> p = 0 -> pct p q = NaN.
Proof.
  intros Hq Hp. unfold pct. simpl.
  rewrite (Rzerob_true q Hq), (Rzerob_true p Hp). reflexivity.
Qed.

Lemma pct_notna (p q : R) : ~ (q = 0 /\ p = 0) -> isna (pct p q) = false.
Proof.
  intros H. destruct (Req_dec_T q 0) as [Hq|Hq].
  - destruct (Req_dec_T p 0) as [Hp|Hp]; [tauto|].
    rewrite pct_infinite by assumption. reflexivity.
  - rewrite pct_finite by assumption. reflexivity.
Qed.

Lemma filter_all {A : Type} (f : A -> bool) (l : list A) :
  Forall (fun a => f a = true) l -> filter f l = l.
Proof.
  induction 1 as [|a l Ha _ IH]; simpl; [reflexivity|].
  rewrite Ha, IH. reflexivity.
Qed.

Lemma first_row_incomplete (row0 : list R) (n : nat) :
  length row0 = n -> (1 <= n)%nat ->
  complete (zip_with (fun (p : R) (b : float) => sub (div (Num p) b) (Num 1)) row0
              (repeat NaN n)) = false.
Proof.
  intros Hlen Hn. destruct row0 as [|p row0]; simpl in Hlen; [lia|].
  destruct n as [|n]; [lia|]. reflexivity.
Qed.

Lemma changes_complete (prices : DataFrame R) (row0 : list R)
    (rest : list (list R)) :
  values prices = row0 :: rest ->
  no_zero_after_zero prices ->
  Forall (fun row => complete row = true) (pairwise (zip_with pct) row0 rest).
Proof.
  intros Hvals Hnz. apply Forall_forall. intros row Hin.
  apply In_nth_error in Hin as [t Ht].
  rewrite nth_error_pairwise in Ht.
  destruct (nth_error rest t) as [r|] eqn:Er; [|discriminate].
  destruct (nth_error (row0 :: rest) t) as [p|] eqn:Ep; [|discriminate].
  injection Ht as <-.
  apply forallb_forall. intros c Hc.
  apply In_nth_error in Hc as [i Hi].
  rewrite nth_error_zip_with in Hi.
  destruct (nth_error r i) as [a|] eqn:Ea; [|discriminate].
  destruct (nth_error p i) as [b|] eqn:Eb; [|discriminate].
  injection Hi as <-.
  rewrite pct_notna; [reflexivity|].
  intros [Hb Ha]. subst a b.
  apply (Hnz t i).
  - unfold cell. rewrite Hvals, Ep. exact Eb.
  - unfold cell. rewrite Hvals. simpl. rewrite Er. exact Ea.
Qed.

Lemma daily_returns_rows (prices : DataFrame R) (row0 : list R)
    (rest : list (list R)) :
  values prices = row0 :: rest ->
  rectangular prices ->
  (1 <= shape1 prices)%nat ->
  no_zero_after_zero prices ->
  values (pd.dropna (pd.pct_change prices)) = pairwise (zip_with pct) row0 rest.
Proof.
  intros Hvals Hrect Hn Hnz.
  pose proof (changes_complete prices row0 rest Hvals Hnz) as Hall.
  destruct prices as [cols vals]. simpl in Hvals. subst vals.
  unfold pd.dropna. cbn [values].
  rewrite pct_change_rows. cbn [filter].
  fold (complete (zip_with (fun (p : R) (b : float) => sub (div (Num p) b) (Num 1))
                    row0 (repeat NaN (length cols)))).
  rewrite first_row_incomplete.
  - apply filter_all. exact Hall.
  - unfold rectangular in Hrect. apply Forall_cons_iff in Hrect as [H0 _].
    exact H0.
  - exact Hn.
Qed.

Lemma two_zero_prices_returns :
  calculate_daily_returns two_zero_prices = Returns (mkFrame ["A"%string] []).
Proof.
  unfold calculate_daily_returns, pd.dropna, two_zero_prices. f_equal.
  cbn [values]. rewrite pct_change_rows. f_equal.
  cbn [pairwise zip_with length repeat filter forallb].
  fold (pct 0 0). rewrite (pct_undefined 0 0 eq_refl eq_refl). reflexivity.
Qed.

(** C6 as it is written fails on the two zero prices: no row is left
    where one is expected. *)
Lemma C6_zero_prices_lose_a_row : ~ daily_returns_one_row_fewer.
Proof.
  intros H.
  destruct (H two_zero_prices (mkFrame ["A"%string] [])) as [Hrows _].
  - repeat constructor.
  - unfold shape0. simpl. lia.
  - exact two_zero_prices_returns.
  - discriminate Hrows.
Qed.

(** A table without columns keeps all its rows: no row has an undefined
    cell. *)
Lemma daily_returns_no_columns :
  calculate_daily_returns (mkFrame [] [[]; []])
  = Returns (mkFrame [] [[]; []]).
Proof. reflexivity. Qed.

(** C6 (amended).  For every price table with at least one asset, at
    least 2 rows, no undefined entry and no zero price followed by a zero
    price of the same asset, [calculate_daily_returns] has exactly one row
    fewer than the input and no undefined value; entry (t, i) is
    price(t+1,i)/price(t,i) - 1 where price(t,i) is not zero, and is
    infinite where it is. *)
Theorem C6_daily_returns_shape_and_entries (prices : DataFrame R) :
  rectangular prices ->
  (1 <= shape1 prices)%nat ->
  (2 <= shape0 prices)%nat ->
  no_zero_after_zero prices ->
  exists out : DataFrame float,
    calculate_daily_returns prices = Returns out
    /\ shape0 out = (shape0 prices - 1)%nat
    /\ (forall t i v, cell out t i = Some v -> isna v = false)
    /\ (forall t i p q,
          cell prices (S t) i = Some p -> cell prices t i = Some q ->
          (q <> 0 -> cell out t i = Some (Num (p / q - 1)))
          /\ (q = 0 -> exists s, cell out t i = Some (Inf s))).
Proof.
  intros Hrect Hn Ht Hnz. eexists. split; [reflexivity|].
  destruct (values prices) as [|row0 rest] eqn:Hvals.
  { unfold shape0 in Ht. rewrite Hvals in Ht. simpl in Ht. lia. }
  pose proof (daily_returns_rows prices row0 rest Hvals Hrect Hn Hnz) as Hrows.
  assert (Hcell : forall t i p q,
             cell prices (S t) i = Some p -> cell prices t i = Some q ->
             cell (pd.dropna (pd.pct_change prices)) t i = Some (pct p q)).
  { intros t i p q Hp Hq. unfold cell in *. rewrite Hrows, nth_error_pairwise.
    rewrite Hvals in Hp, Hq. simpl in Hp.
    destruct (nth_error rest t) as [r|]; [|discriminate].
    destruct (nth_error (row0 :: rest) t) as [r'|]; [|discriminate].
    rewrite nth_error_zip_with, Hp, Hq. reflexivity. }
  split; [|split].
  - unfold shape0. rewrite Hrows, Hvals, length_pairwise. simpl. lia.
  - intros t i v Hv. unfold cell in Hv. rewrite Hrows in Hv.
    destruct (nth_error (pairwise (zip_with pct) row0 rest) t) as [row|] eqn:Erow;
      [|discriminate].
    pose proof (changes_complete prices row0 rest Hvals Hnz) as Hall.
    rewrite Forall_forall in Hall.
    specialize (Hall row (nth_error_In _ _ Erow)).
    unfold complete in Hall. rewrite forallb_forall in Hall.
    specialize (Hall v (nth_error_In _ _ Hv)).
    destruct (isna v); [discriminate | reflexivity].
  - intros t i p q Hp Hq. rewrite (Hcell t i p q Hp Hq). split.
    + intros Hq0. rewrite pct_finite by exact Hq0. reflexivity.
    + intros Hq0. exists (Rnegb p). rewrite pct_infinite; [reflexivity | exact Hq0 |].
      intros Hp0. subst p q. exact (Hnz t i Hq Hp).
Qed.

Lemma example_prices_no_zero_after_zero : no_zero_after_zero example_prices.
Proof.
  intros t i H.
  destruct t as [|[|[|t]]]; destruct i as [|[|i]];
    unfold cell, example_prices in H; simpl in H;
    try (destruct i; discriminate); try discriminate;
    injection H as H; lra.
Qed.

Lemma C6_daily_returns_shape_and_entries_witness :
  exists out : DataFrame float,
    calculate_daily_returns example_prices = Returns out
    /\ shape0 out = (shape0 example_prices - 1)%nat
    /\ (forall t i v, cell out t i = Some v -> isna v = false)
    /\ (forall t i p q,
          cell example_prices (S t) i = Some p ->
          cell example_prices t i = Some q ->
          (q <> 0 -> cell out t i = Some (Num (p / q - 1)))
          /\ (q = 0 -> exists s, cell out t i = Some (Inf s))).
Proof.
  apply (C6_daily_returns_shape_and_entries example_prices).
  - unfold rectangular, example_prices, shape1. simpl. repeat constructor.
  - unfold shape1. simpl. lia.
  - unfold shape0. simpl. lia.
  - exact example_prices_no_zero_after_zero.
Defined.

(** C7 as it is written fails.  One asset with a single price: the call
    returns a table without rows. *)
Lemma C7_single_price_returns : ~ short_prices_fail.
Proof.
  intros H.
  destruct (H (mkFrame ["A"%string] [[100]])) as (e & He & _).
  - repeat constructor.
  - unfold shape0. simpl. lia.
  - discriminate He.
Qed.

(** C7 (amended).  [calculate_daily_returns] never fails; for a price
    table with at least one asset and fewer than 2 rows it returns a table
    without rows. *)
Theorem C7_short_prices_give_no_rows (prices : DataFrame R) :
  exists out : DataFrame float,
    calculate_daily_returns prices = Returns out
    /\ (rectangular prices -> (1 <= shape1 prices)%nat ->
        (shape0 prices < 2)%nat -> shape0 out = 0%nat).
Proof.
  eexists. split; [reflexivity|].
  intros Hrect Hn Ht. unfold shape0 in *.
  destruct prices as [cols vals]. cbn [values] in Ht.
  destruct vals as [|row0 [|row1 rest]]; [reflexivity | | simpl in Ht; lia].
  unfold pd.dropna. cbn [values]. rewrite pct_change_rows.
  cbn [pairwise filter].
  fold (complete (zip_with (fun (p : R) (b : float) => sub (div (Num p) b) (Num 1))
                    row0 (repeat NaN (length cols)))).
  rewrite first_row_incomplete; [reflexivity | | exact Hn].
  unfold rectangular in Hrect. apply Forall_cons_iff in Hrect as [H0 _]. exact H0.
Qed.

Lemma C7_short_prices_give_no_rows_witness :
  exists out : DataFrame float,
    calculate_daily_returns (mkFrame ["A"%string] [[100]]) = Returns out
    /\ shape0 out = 0%nat.
Proof.
  destruct (C7_short_prices_give_no_rows (mkFrame ["A"%string] [[100]]))
    as (out & Hout & Hrows).
  exists out. split; [exact Hout|].
  apply Hrows.
  - repeat constructor.
  - unfold shape1. simpl. lia.
  - unfold shape0. simpl. lia.
Defined.

(* ------------------------------------------------------------------ *)
(** ** The objective selector *)

(** C3.  For every returns table of the design document, that is, with
    at least one asset column, and every selector other than "sharpe"
    and "min_vol", [optimize_portfolio] raises the [ValueError] for an
    invalid method, whatever the solver is, and neither calls the solver
    nor evaluates the portfolio performance: the trace of numerical work
    is empty. *)
Theorem C3_invalid_selector_rejected
    (minimize : solver) (returns : DataFrame R) (method : string) :
  (1 <= shape1 returns)%nat ->
  method <> "sharpe"%string ->
  method <> "min_vol"%string ->
  optimize_portfolio minimize returns method
  = ([], Raises ValueError_invalid_method)
  /\ kind_of ValueError_invalid_method = Some InvalidObjectiveError.
Proof.
  intros Hn Hs Hm. split; [|reflexivity].
  unfold optimize_portfolio, objective_for, py_div_one.
  destruct (shape1 returns) as [|n]; [lia|].
  apply String.eqb_neq in Hs, Hm. rewrite Hs, Hm. reflexivity.
Qed.

Lemma C3_invalid_selector_rejected_witness :
  optimize_portfolio uniform_solver example_returns "foo"
  = ([], Raises ValueError_invalid_method)
  /\ kind_of ValueError_invalid_method = Some InvalidObjectiveError.
Proof.
  apply (C3_invalid_selector_rejected uniform_solver example_returns "foo").
  - unfold shape1. simpl. lia.
  - discriminate.
  - discriminate.
Defined.

(** A selector that is supported reaches the solver. *)
Lemma supported_selector_calls_solver (returns : DataFrame R) :
  (1 <= shape1 returns)%nat ->
  exists x0 rest result,
    optimize_portfolio uniform_solver returns "sharpe"
    = (Solver_called x0 :: rest, result).
Proof.
  intros Hn. unfold optimize_portfolio, objective_for, py_div_one, uniform_solver.
  destruct (shape1 returns) as [|n]; [lia|].
  cbn [String.eqb Ascii.eqb Bool.eqb pure doing tbind].
  destruct (get_portfolio_performance _ returns) as [[[ret vol] sharpe]|e];
    cbn; eauto.
Qed.

(* ------------------------------------------------------------------ *)
(** ** Means and standard deviations *)

Lemma INR_S_neq_0 (n : nat) : INR (S n) <> 0.
Proof. apply not_0_INR. discriminate. Qed.

Lemma total_squares_nonneg (f : R -> R) (xs : list R) :
  0 <= Spec.total (map (fun x => f x * f x) xs).
Proof.
  induction xs as [|x xs IH]; simpl; [lra|].
  pose proof (Rle_0_sqr (f x)) as H. unfold Rsqr in H. lra.
Qed.

Lemma np_sqrt_252 : np.sqrt (Num 252) = Num (sqrt 252).
Proof. unfold np.sqrt. rewrite Rnegb_false by lra. reflexivity. Qed.

Lemma np_mean_spec (a : list R) : np.mean a = Spec.mean a.
Proof.
  unfold np.mean, Spec.mean, div. destruct a as [|x a].
  - simpl. rewrite Rzerob_true by reflexivity.
    rewrite Rzerob_true by reflexivity. reflexivity.
  - rewrite Rzerob_false by apply INR_S_neq_0. rewrite Rsum_total. reflexivity.
Qed.

Lemma np_std_spec (a : list R) : np.std a = Spec.population_std a.
Proof.
  unfold np.std, np.var. rewrite np_mean_spec.
  unfold Spec.mean, Spec.population_std. destruct a as [|x a]; [reflexivity|].
  set (xs := x :: a). set (n := INR (length xs)).
  assert (Hn : 0 < n).
  { unfold n, xs. apply lt_0_INR. simpl. lia. }
  unfold div. rewrite Rzerob_false by lra.
  rewrite Rsum_total. unfold np.sqrt.
  pose proof (total_squares_nonneg (fun v => v - Spec.total xs / n) xs) as Hsq.
  rewrite Rnegb_false.
  - rewrite (map_ext _ (fun v => (v - Spec.total xs / n) ^ 2));
      [reflexivity | intros v; ring].
  - apply Rmult_le_pos; [exact Hsq|]. apply Rlt_le, Rinv_0_lt_compat, Hn.
Qed.

Lemma pd_mean_spec (s : list R) : pd.mean s = Spec.mean s.
Proof.
  unfold pd.mean, Spec.mean. destruct s; [reflexivity|].
  rewrite Rsum_total. reflexivity.
Qed.

(** [series.std()] is the sample standard deviation, and is undefined on
    fewer than two items. *)
Lemma pd_std_sample (s : list R) :
  (2 <= length s)%nat -> pd.std s = Num (sqrt (sample_variance s)).
Proof.
  intros Hlen. unfold pd.std.
  destruct (Nat.leb_spec (length s) 1) as [H|H]; [lia|].
  unfold np.sqrt, sample_variance. rewrite !Rsum_total.
  pose proof (total_squares_nonneg (fun v => Spec.total s / INR (length s) - v) s)
    as Hsq.
  rewrite Rnegb_false.
  - rewrite (map_ext _ (fun v => (v - Spec.total s / INR (length s)) ^ 2));
      [reflexivity | intros v; ring].
  - apply Rmult_le_pos; [exact Hsq|].
    apply Rlt_le, Rinv_0_lt_compat, lt_0_INR. lia.
Qed.

Lemma pd_std_short (s : list R) : (length s < 2)%nat -> pd.std s = NaN.
Proof.
  intros Hlen. unfold pd.std.
  destruct (Nat.leb_spec (length s) 1) as [H|H]; [reflexivity | lia].
Qed.

Lemma np_volatility_spec (ptf : list R) : np_volatility ptf = Spec.Volatility ptf.
Proof.
  unfold np_volatility, Spec.Volatility, Spec.TRADING_DAYS.
  rewrite np_std_spec, np_sqrt_252. reflexivity.
Qed.

Lemma performance_matching (returns : DataFrame R) (weights : list R) :
  length weights = shape1 returns ->
  let ptf := Spec.portfolioReturn returns weights in
  get_portfolio_performance weights returns
  = Returns (Spec.AnnualReturn ptf, np_volatility ptf,
             guarded_sharpe (Spec.AnnualReturn ptf) (np_volatility ptf)).
Proof.
  intros Hlen ptf. unfold get_portfolio_performance.
  rewrite (np_dot_matching returns weights Hlen). cbn [bind].
  rewrite np_mean_spec. reflexivity.
Qed.

Lemma risk_metrics_matching (daily_returns : DataFrame R) (weights : list R) :
  length weights = shape1 daily_returns ->
  let ptf := Spec.portfolioReturn daily_returns weights in
  calculate_risk_metrics daily_returns weights
  = Returns (mkRiskMetrics
               (round (Spec.AnnualReturn ptf))
               (round (pd_volatility ptf))
               (round (guarded_sharpe (Spec.AnnualReturn ptf) (pd_volatility ptf)))).
Proof.
  intros Hlen ptf. unfold calculate_risk_metrics.
  rewrite (portfolio_return_matching daily_returns weights Hlen). cbn [bind].
  rewrite pd_mean_spec. reflexivity.
Qed.

Lemma sqrt_lower (a x : R) : 0 <= a -> a * a <= x -> a <= sqrt x.
Proof.
  intros Ha H. rewrite <- (sqrt_square a Ha). apply sqrt_le_1_alt. exact H.
Qed.

Lemma sqrt_upper (a x : R) : 0 <= a -> x <= a * a -> sqrt x <= a.
Proof.
  intros Ha H. rewrite <- (sqrt_square a Ha). apply sqrt_le_1_alt. exact H.
Qed.

Lemma sqrt_252_bounds : 15 <= sqrt 252 <= 16.
Proof. split; [apply sqrt_lower | apply sqrt_upper]; lra. Qed.

(* ------------------------------------------------------------------ *)
(** ** Risk metrics *)

Lemma two_day_series :
  Spec.portfolioReturn two_day_returns [1] = [1 / 100 * 1 + 0; 3 / 100 * 1 + 0].
Proof. reflexivity. Qed.

(** On these two days the population deviation is 0.01 and the sample
    deviation is the square root of 0.0002. *)
Lemma two_day_np_volatility :
  np_volatility (Spec.portfolioReturn two_day_returns [1])
  = Num (1 / 100 * sqrt 252).
Proof.
  rewrite np_volatility_spec, two_day_series.
  unfold Spec.Volatility, Spec.population_std, Spec.TRADING_DAYS.
  cbn [mul map Spec.total length INR]. do 2 f_equal.
  match goal with
  | |- sqrt ?e = _ => replace e with (1 / 100 * (1 / 100)) by (simpl; field)
  end.
  apply sqrt_square. lra.
Qed.

Lemma two_day_pd_volatility :
  pd_volatility (Spec.portfolioReturn two_day_returns [1])
  = Num (sqrt (2 / 10000) * sqrt 252).
Proof.
  unfold pd_volatility. rewrite two_day_series, np_sqrt_252.
  rewrite pd_std_sample by (simpl; lia).
  cbn [mul]. do 3 f_equal. unfold sample_variance. simpl. field.
Qed.

(** C1 as it is written fails.  On the two days [calculate_risk_metrics]
    reports a volatility of about 0.22 where the design document's formula
    gives about 0.16. *)
Lemma C1_risk_metrics_differ : ~ both_implementations_return_design_metrics.
Proof.
  intros H.
  destruct (H two_day_returns [1] eq_refl) as [_ (m & Hm & _ & Hvol & _)].
  rewrite risk_metrics_matching in Hm by reflexivity.
  injection Hm as <-. cbn [data_handler.Volatility] in Hvol.
  rewrite <- np_volatility_spec, two_day_np_volatility, two_day_pd_volatility in Hvol.
  cbn [round] in Hvol. injection Hvol as Hvol.
  pose proof (round4_near (sqrt (2 / 10000) * sqrt 252)) as Hnear.
  apply Rabs_le_inv in Hnear.
  pose proof sqrt_252_bounds as [Hlo Hhi].
  assert (Hs : 14 / 1000 <= sqrt (2 / 10000)) by (apply sqrt_lower; lra).
  nra.
Qed.

(** C1 (amended).  For every daily-returns table and weights of matching
    length, [get_portfolio_performance] returns the mean of the portfolio
    return series times 252, the population standard deviation of the
    series times the square root of 252, and their quotient when the
    volatility is not zero (0 when it is).  [calculate_risk_metrics]
    returns the same annual return rounded to 4 decimals, the rounding of
    its own volatility [vol'], and the rounded quotient of the unrounded
    annual return and [vol'] (0 when [vol'] is zero). *)
Theorem C1_risk_metrics_formulas (returns : DataFrame R) (weights : list R) :
  length weights = shape1 returns ->
  let ptf := Spec.portfolioReturn returns weights in
  let ar := Spec.AnnualReturn ptf in
  let vol := Spec.Volatility ptf in
  (exists sharpe,
      get_portfolio_performance weights returns = Returns (ar, vol, sharpe)
      /\ (nonzero vol = true -> sharpe = div ar vol)
      /\ (nonzero vol = false -> sharpe = Num 0))
  /\
  (let vol' := pd_volatility ptf in
   exists m,
      calculate_risk_metrics returns weights = Returns m
      /\ data_handler.Annual_Return m = round ar
      /\ data_handler.Volatility m = round vol'
      /\ (nonzero vol' = true -> data_handler.Sharpe_Ratio m = round (div ar vol'))
      /\ (nonzero vol' = false -> data_handler.Sharpe_Ratio m = Num 0)).
Proof.
  intros Hlen ptf ar vol. split.
  - exists (guarded_sharpe ar vol).
    pose proof (performance_matching returns weights Hlen) as H. cbn zeta in H.
    rewrite np_volatility_spec in H.
    split; [exact H|]. unfold guarded_sharpe.
    split; intros ->; reflexivity.
  - pose proof (risk_metrics_matching returns weights Hlen) as H. cbn zeta in H.
    fold ptf in H. fold ar in H.
    intros vol'. eexists.
    split; [exact H|]. unfold vol'.
    cbn [data_handler.Annual_Return data_handler.Volatility
         data_handler.Sharpe_Ratio].
    unfold guarded_sharpe. repeat split; try reflexivity.
    + intros ->. reflexivity.
    + intros ->. cbn [round]. rewrite round4_0. reflexivity.
Qed.

Lemma C1_risk_metrics_formulas_witness :
  let ptf := Spec.portfolioReturn example_returns [1 / 2; 1 / 2] in
  let ar := Spec.AnnualReturn ptf in
  let vol := Spec.Volatility ptf in
  (exists sharpe,
      get_portfolio_performance [1 / 2; 1 / 2] example_returns
      = Returns (ar, vol, sharpe)
      /\ (nonzero vol = true -> sharpe = div ar vol)
      /\ (nonzero vol = false -> sharpe = Num 0))
  /\
  (let vol' := pd_volatility ptf in
   exists m,
      calculate_risk_metrics example_returns [1 / 2; 1 / 2] = Returns m
      /\ data_handler.Annual_Return m = round ar
      /\ data_handler.Volatility m = round vol'
      /\ (nonzero vol' = true -> data_handler.Sharpe_Ratio m = round (div ar vol'))
      /\ (nonzero vol' = false -> data_handler.Sharpe_Ratio m = Num 0)).
Proof.
  apply (C1_risk_metrics_formulas example_returns [1 / 2; 1 / 2]).
  reflexivity.
Defined.

(** The annual return of the design document's example is 1.68. *)
Lemma example_annual_return :
  Spec.AnnualReturn (Spec.portfolioReturn example_returns [1 / 2; 1 / 2])
  = Num (168 / 100).
Proof.
  unfold Spec.AnnualReturn, Spec.TRADING_DAYS. simpl. f_equal. field.
Qed.

Lemma flat_np_volatility :
  np_volatility (Spec.portfolioReturn flat_returns [1]) = Num 0.
Proof.
  rewrite np_volatility_spec.
  unfold Spec.Volatility, Spec.population_std, Spec.TRADING_DAYS.
  cbn [Spec.portfolioReturn flat_returns values map Spec.dot_product mul
       Spec.total length INR].
  f_equal.
  match goal with
  | |- sqrt ?e * _ = _ => replace e with 0 by (simpl; field)
  end.
  rewrite sqrt_0. ring.
Qed.



Lemma single_row_volatilities (r : R) :
  np_volatility [r] = Num 0 /\ pd_volatility [r] = NaN.
Proof.
  split.
  - rewrite np_volatility_spec.
    unfold Spec.Volatility, Spec.population_std, Spec.TRADING_DAYS.
    cbn [mul map Spec.total length INR]. f_equal.
    match goal with
    | |- sqrt ?e * _ = _ => replace e with 0 by (simpl; field)
    end.
    rewrite sqrt_0. ring.
  - unfold pd_volatility. rewrite pd_std_short by (simpl; lia). reflexivity.
Qed.




(* ------------------------------------------------------------------ *)
(** ** Rounding of the reported metrics *)

(** Its annual return is 0.00014 and its volatility 0.42. *)
Lemma three_day_annual_return :
  Spec.AnnualReturn (Spec.portfolioReturn three_day_returns [1])
  = Num (14 / 100000).
Proof.
  unfold Spec.AnnualReturn, Spec.TRADING_DAYS. simpl. f_equal. field.
Qed.

Lemma three_day_pd_volatility :
  pd_volatility (Spec.portfolioReturn three_day_returns [1]) = Num (42 / 100).
Proof.
  unfold pd_volatility. rewrite np_sqrt_252.
  rewrite pd_std_sample by (simpl; lia).
  cbn [mul]. f_equal. rewrite <- sqrt_mult_alt.
  - replace (sample_variance (Spec.portfolioReturn three_day_returns [1]) * 252)
      with (42 / 100 * (42 / 100))
      by (unfold sample_variance; simpl; field).
    apply sqrt_square. lra.
  - replace (sample_variance (Spec.portfolioReturn three_day_returns [1]))
      with (7 / 10000)
      by (unfold sample_variance; simpl; field).
    lra.
Qed.

Lemma three_day_risk_metrics :
  calculate_risk_metrics three_day_returns [1]
  = Returns (mkRiskMetrics (Num (1 / 10000)) (Num (42 / 100)) (Num (3 / 10000))).
Proof.
  rewrite risk_metrics_matching by reflexivity.
  rewrite three_day_annual_return, three_day_pd_volatility.
  unfold guarded_sharpe. cbn [nonzero div round].
  rewrite Rzerob_false by lra. cbn [negb round].
  rewrite (round4_eval 1) by lra.
  rewrite (round4_exact 4200) by lra.
  rewrite (round4_eval 3) by lra.
  do 2 f_equal; f_equal; lra.
Qed.

(** C10.  For every daily-returns table and weights of matching length,
    [calculate_risk_metrics] returns its three metrics rounded to 4
    decimals, and the Sharpe ratio is the rounding of the quotient of the
    unrounded annual return and the unrounded volatility; there is an
    input on which the returned Sharpe ratio is not the quotient of the
    returned annual return and the returned volatility. *)
Theorem C10_metrics_rounded_after_quotient :
  (forall (daily_returns : DataFrame R) (weights : list R),
      length weights = shape1 daily_returns ->
      let ptf_returns := Spec.portfolioReturn daily_returns weights in
      let mean_return := mul (Spec.mean ptf_returns) (Num 252) in
      let volatility := pd_volatility ptf_returns in
      let sharpe_ratio :=
        if nonzero volatility then div mean_return volatility else Num 0 in
      exists m,
        calculate_risk_metrics daily_returns weights = Returns m
        /\ data_handler.Annual_Return m = round mean_return
        /\ data_handler.Volatility m = round volatility
        /\ data_handler.Sharpe_Ratio m = round sharpe_ratio
        /\ Spec.rounding_of mean_return (data_handler.Annual_Return m)
        /\ Spec.rounding_of volatility (data_handler.Volatility m)
        /\ Spec.rounding_of sharpe_ratio (data_handler.Sharpe_Ratio m))
  /\
  (exists daily_returns weights m,
      length weights = shape1 daily_returns
      /\ calculate_risk_metrics daily_returns weights = Returns m
      /\ data_handler.Sharpe_Ratio m
         <> div (data_handler.Annual_Return m) (data_handler.Volatility m)).
Proof.
  split.
  - intros daily_returns weights Hlen ptf_returns mean_return volatility sharpe_ratio.
    eexists. split; [apply risk_metrics_matching; exact Hlen|].
    cbn [data_handler.Annual_Return data_handler.Volatility
         data_handler.Sharpe_Ratio].
    repeat split; try reflexivity; apply round_rounding_of.
  - exists three_day_returns, [1]. eexists.
    split; [reflexivity|]. split; [exact three_day_risk_metrics|].
    cbn [data_handler.Annual_Return data_handler.Volatility
         data_handler.Sharpe_Ratio div].
    rewrite Rzerob_false by lra.
    intros H. injection H as H. lra.
Qed.

Lemma C10_metrics_rounded_after_quotient_witness :
  exists m,
    calculate_risk_metrics example_returns [1 / 2; 1 / 2] = Returns m
    /\ data_handler.Annual_Return m = Num (168 / 100).
Proof.
  destruct (proj1 C10_metrics_rounded_after_quotient example_returns
              [1 / 2; 1 / 2] eq_refl)
    as (m & Hm & Har & _).
  exists m. split; [exact Hm|].
  rewrite Har.
  change (mul (Spec.mean (Spec.portfolioReturn example_returns [1 / 2; 1 / 2]))
            (Num 252))
    with (Spec.AnnualReturn (Spec.portfolioReturn example_returns [1 / 2; 1 / 2])).
  rewrite example_annual_return. cbn [round]. f_equal.
  apply (round4_exact 16800). lra.
Defined.

(* ------------------------------------------------------------------ *)
(** ** Feasibility of the returned weights *)

Lemma dict_set_fresh {V : Type} (d : dict V) (k : string) (v : V) :
  ~ In k (map fst d) -> dict_set d k v = d ++ [(k, v)].
Proof.
  induction d as [|[k' v'] d IH]; intros Hk; simpl in *; [reflexivity|].
  destruct (String.eqb_spec k k') as [E|E].
  - exfalso. apply Hk. left. symmetry. exact E.
  - rewrite IH by tauto. reflexivity.
Qed.

Lemma dict_of_distinct_from {V : Type} (items acc : list (string * V)) :
  NoDup (map fst (acc ++ items)) ->
  fold_left (fun d kv => dict_set d (fst kv) (snd kv)) items acc = acc ++ items.
Proof.
  revert acc. induction items as [|[k v] items IH]; intros acc Hnd; simpl.
  - rewrite app_nil_r. reflexivity.
  - assert (Hfresh : ~ In k (map fst acc)).
    { rewrite map_app in Hnd. simpl in Hnd.
      apply NoDup_remove_2 in Hnd. intros Hin. apply Hnd.
      apply in_or_app. left. exact Hin. }
    rewrite dict_set_fresh by exact Hfresh.
    rewrite IH; rewrite <- app_assoc; [reflexivity | exact Hnd].
Qed.

(** With distinct keys the dictionary holds the items as they come. *)
Lemma dict_of_distinct {V : Type} (items : list (string * V)) :
  NoDup (map fst items) -> dict_of items = items.
Proof. intros H. unfold dict_of. rewrite dict_of_distinct_from; [reflexivity | exact H]. Qed.

Lemma zip_fst {A B : Type} (a : list A) (b : list B) :
  length a = length b -> map fst (zip a b) = a.
Proof.
  revert b. induction a as [|x a IH]; intros [|y b] H; simpl in *;
    try reflexivity; try discriminate.
  f_equal. apply IH. lia.
Qed.

Lemma zip_snd {A B : Type} (a : list A) (b : list B) :
  length a = length b -> map snd (zip a b) = b.
Proof.
  revert b. induction a as [|x a IH]; intros [|y b] H; simpl in *;
    try reflexivity; try discriminate.
  f_equal. apply IH. lia.
Qed.

(** The weights of the returned dictionary, for distinct column labels. *)
Lemma weights_of_distinct_labels (labels : list string) (ws : list R) :
  NoDup labels -> length labels = length ws ->
  dict_values (dict_of (zip labels ws)) = ws.
Proof.
  intros Hnd Hlen. unfold dict_values.
  rewrite dict_of_distinct by (rewrite zip_fst; assumption).
  apply zip_snd. exact Hlen.
Qed.

Lemma Rsum_repeat (a : R) (n : nat) : Rsum (repeat a n) = INR n * a.
Proof.
  induction n as [|n IH].
  - simpl. rewrite Rsum_nil. ring.
  - cbn [repeat]. rewrite Rsum_cons, IH, S_INR. ring.
Qed.

(** Rounding every weight moves the sum by at most half a unit of the
    fourth decimal per weight. *)
Lemma Rsum_round_near (ws : list R) :
  Rabs (Rsum (np.round ws) - Rsum ws) <= INR (length ws) * (1 / 20000).
Proof.
  unfold np.round. induction ws as [|w ws IH].
  - simpl. rewrite Rsum_nil. rewrite Rminus_diag, Rabs_R0. lra.
  - cbn [map length]. rewrite !Rsum_cons, S_INR.
    pose proof (round4_near w) as Hw.
    apply Rabs_le_inv in Hw, IH. apply Rabs_le. lra.
Qed.

Lemma round_unit_interval (ws : list R) :
  Forall (fun w => 0 <= w <= 1) ws -> Forall (fun w => 0 <= w <= 1) (np.round ws).
Proof.
  intros H. unfold np.round. apply Forall_map.
  eapply Forall_impl; [|exact H]. intros w. apply round4_unit_interval.
Qed.

(** What [optimize_portfolio] returns when it returns. *)
Lemma optimize_portfolio_returned
    (minimize : solver) (returns : DataFrame R) (method : string)
    (log : list event) (res : OptimizationResult) :
  optimize_portfolio minimize returns method = (log, Returns res) ->
  exists objective r,
    (1 <= shape1 returns)%nat
    /\ minimize objective (repeat (1 / INR (shape1 returns)) (shape1 returns))
         (repeat (0, 1) (shape1 returns)) (fun x => Rsum x - 1) = Returns r
    /\ Optimal_Weights res = dict_of (zip (columns returns) (np.round (x r))).
Proof.
  unfold optimize_portfolio, py_div_one.
  destruct (shape1 returns) as [|n] eqn:En; [discriminate|].
  cbn [pure tbind].
  destruct (objective_for returns method) as [objective|e]; [|discriminate].
  cbn [doing tbind].
  destruct (minimize objective _ _ _) as [r|e] eqn:Emin; [|discriminate].
  destruct (get_portfolio_performance (x r) returns) as [[[ret vol] sharpe]|e];
    [|discriminate].
  cbn. intros H. injection H as _ <-.
  exists objective, r. split; [lia|]. split; [exact Emin | reflexivity].
Qed.

Lemma uniform_on_simplex (n : nat) :
  (1 <= n)%nat -> on_simplex 0 n (repeat (1 / INR n) n).
Proof.
  intros Hn.
  assert (Hpos : 1 <= INR n) by (change 1 with (INR 1); apply le_INR; exact Hn).
  split; [apply repeat_length|]. split.
  - apply Forall_forall. intros w Hw. apply repeat_spec in Hw. subst w.
    split.
    + apply Rlt_le. unfold Rdiv. rewrite Rmult_1_l. apply Rinv_0_lt_compat. lra.
    + apply (Rmult_le_reg_r (INR n)); [lra|]. unfold Rdiv.
      rewrite Rmult_assoc, Rinv_l by lra. lra.
  - rewrite Rsum_repeat. unfold Rdiv. rewrite Rmult_1_l, Rinv_r by lra.
    rewrite Rminus_diag, Rabs_R0. lra.
Qed.

Lemma uniform_solver_keeps_constraints : keeps_constraints 0 uniform_solver.
Proof.
  intros objective n x0 r Hlen Hn H. unfold uniform_solver in H.
  injection H as <-. cbn [x]. rewrite Hlen. apply uniform_on_simplex. exact Hn.
Qed.

Lemma uniform_solver_run (returns : DataFrame R) (method : string) :
  (1 <= shape1 returns)%nat ->
  method = "sharpe"%string \/ method = "min_vol"%string ->
  exists log res,
    optimize_portfolio uniform_solver returns method = (log, Returns res)
    /\ Optimal_Weights res
       = dict_of (zip (columns returns)
                    (np.round (repeat (1 / INR (shape1 returns)) (shape1 returns)))).
Proof.
  intros Hn Hm.
  set (n := shape1 returns) in *.
  assert (Hperf : exists p,
             get_portfolio_performance (repeat (1 / INR n) n) returns = Returns p).
  { eexists. apply performance_matching. apply repeat_length. }
  destruct Hperf as ([[ret vol] sharpe] & Hperf).
  unfold optimize_portfolio, py_div_one, uniform_solver. fold n.
  destruct n as [|k] eqn:En; [lia|]. rewrite <- En in *.
  assert (Hobj : exists objective, objective_for returns method = Returns objective).
  { unfold objective_for. destruct Hm as [-> | ->]; cbn; eauto. }
  destruct Hobj as (objective & ->).
  cbn [pure doing tbind x]. rewrite !repeat_length, Hperf.
  do 2 eexists. split; reflexivity.
Qed.

Lemma round4_one_seventh : round4 (1 / 7) = 1429 / 10000.
Proof. apply (round4_eval 1429). lra. Qed.

(** C4 as it is written fails, even for a solver that keeps the
    constraints exactly.  The equal weighting of seven assets is 0.1429
    each after rounding, and seven times 0.1429 is 1.0003. *)
Lemma C4_seven_equal_weights_sum_to_10003 :
  ~ (forall minimize : solver,
        keeps_constraints 0 minimize -> returned_weights_within_tolerance minimize).
Proof.
  intros H.
  specialize (H uniform_solver uniform_solver_keeps_constraints).
  destruct (uniform_solver_run seven_idle_assets "min_vol") as (log & res & Hrun & Hw).
  - unfold shape1. simpl. lia.
  - right. reflexivity.
  - destruct (H seven_idle_assets "min_vol"%string log res) as [Hsum _].
    + unfold shape1. simpl. lia.
    + right. reflexivity.
    + exact Hrun.
    + rewrite Hw in Hsum.
      rewrite weights_of_distinct_labels in Hsum.
      * unfold np.round, shape1 in Hsum.
        cbn [seven_idle_assets columns length repeat map] in Hsum.
        replace (1 / INR 7) with (1 / 7) in Hsum by (simpl; field).
        rewrite round4_one_seventh in Hsum.
        unfold Rsum in Hsum. cbn [fold_left] in Hsum.
        apply Rabs_le_inv in Hsum. lra.
      * cbn [seven_idle_assets columns].
        repeat (constructor; [simpl; intuition discriminate|]). constructor.
      * unfold np.round. rewrite length_map, repeat_length. reflexivity.
Qed.

(** On the seven idle assets every weighting has volatility 0 and Sharpe
    ratio 0: both objectives are constant, so the equal weighting from
    which the search starts is already a minimiser that meets every
    constraint. *)
Lemma dot_product_zero_row (row weights : list R) :
  Forall (fun r => r = 0) row -> Spec.dot_product row weights = 0.
Proof.
  intros H. revert weights. induction H as [|r row Hr _ IH]; intros [|w weights];
    simpl; try reflexivity.
  rewrite Hr, IH. ring.
Qed.

Lemma idle_assets_performance (weights : list R) :
  length weights = 7%nat ->
  exists ret,
    get_portfolio_performance weights seven_idle_assets
    = Returns (ret, Num 0, Num 0).
Proof.
  intros Hlen. eexists.
  rewrite (performance_matching seven_idle_assets weights Hlen).
  assert (Hptf : Spec.portfolioReturn seven_idle_assets weights = [0; 0]).
  { unfold Spec.portfolioReturn. cbn [seven_idle_assets values map].
    rewrite !dot_product_zero_row by (repeat constructor). reflexivity. }
  rewrite Hptf.
  assert (Hvol : np_volatility [0; 0] = Num 0).
  { rewrite np_volatility_spec.
    unfold Spec.Volatility, Spec.population_std, Spec.TRADING_DAYS.
    cbn [mul map Spec.total length INR]. f_equal.
    match goal with
    | |- sqrt ?e * _ = _ => replace e with 0 by (simpl; field)
    end.
    rewrite sqrt_0. ring. }
  rewrite Hvol. unfold guarded_sharpe. cbn [nonzero].
  rewrite Rzerob_true by reflexivity. reflexivity.
Qed.

(** With a column label that occurs twice the dictionary keeps one entry
    for both columns, and the weights that are returned no longer sum to
    1. *)
Lemma duplicate_labels_share_an_entry :
  dict_values (dict_of (zip ["A"; "A"]%string (np.round [1 / 2; 1 / 2])))
  = [round4 (1 / 2)].
Proof. reflexivity. Qed.

(** C4 (amended).  Let the solver keep the constraints within [eps]: the
    point it hands back has one weight per asset, each in [0,1], and their
    sum misses 1 by at most [eps].  Then, for every returns table with
    N >= 1 distinctly labelled assets, the weights that
    [optimize_portfolio] returns are N numbers, each in [0,1], and their
    sum misses 1 by at most [eps + N * 0.00005]. *)
Theorem C4_returned_weights_feasible
    (minimize : solver) (eps : R) (returns : DataFrame R) (method : string)
    (log : list event) (res : OptimizationResult) :
  keeps_constraints eps minimize ->
  NoDup (columns returns) ->
  optimize_portfolio minimize returns method = (log, Returns res) ->
  let ws := dict_values (Optimal_Weights res) in
  length ws = shape1 returns
  /\ Forall (fun w => 0 <= w <= 1) ws
  /\ Rabs (Rsum ws - 1) <= eps + INR (shape1 returns) * (1 / 20000).
Proof.
  intros Hsolver Hnd Hrun ws.
  destruct (optimize_portfolio_returned minimize returns method log res Hrun)
    as (objective & r & Hn & Hmin & Hw).
  destruct (Hsolver objective (shape1 returns) _ r (repeat_length _ _) Hn Hmin)
    as (Hlen & Hbox & Hsum).
  assert (Hws : ws = np.round (x r)).
  { unfold ws. rewrite Hw. apply weights_of_distinct_labels; [exact Hnd|].
    unfold np.round. rewrite length_map, Hlen. reflexivity. }
  rewrite Hws. split; [|split].
  - unfold np.round. rewrite length_map. exact Hlen.
  - apply round_unit_interval. exact Hbox.
  - pose proof (Rsum_round_near (x r)) as Hnear. rewrite Hlen in Hnear.
    apply Rabs_le_inv in Hnear, Hsum. apply Rabs_le. lra.
Qed.

Lemma C4_returned_weights_feasible_witness :
  exists log res,
    optimize_portfolio uniform_solver example_returns "sharpe" = (log, Returns res)
    /\ length (dict_values (Optimal_Weights res)) = shape1 example_returns
    /\ Forall (fun w => 0 <= w <= 1) (dict_values (Optimal_Weights res))
    /\ Rabs (Rsum (dict_values (Optimal_Weights res)) - 1)
       <= 0 + INR (shape1 example_returns) * (1 / 20000).
Proof.
  destruct (uniform_solver_run example_returns "sharpe") as (log & res & Hrun & _).
  - unfold shape1. simpl. lia.
  - left. reflexivity.
  - exists log, res. split; [exact Hrun|].
    apply (C4_returned_weights_feasible uniform_solver 0 example_returns
             "sharpe" log res).
    + exact uniform_solver_keeps_constraints.
    + cbn [example_returns columns].
      repeat (constructor; [simpl; intuition discriminate|]). constructor.
    + exact Hrun.
Defined.


(* ------------------------------------------------------------------ *)
(** * Further properties *)

(** ** The two metric functions on any table *)

Lemma total_squares_pow_nonneg (f : R -> R) (xs : list R) :
  0 <= Spec.total (map (fun x => f x ^ 2) xs).
Proof.
  rewrite (map_ext _ (fun x => f x * f x)) by (intros; ring).
  apply total_squares_nonneg.
Qed.

Lemma length_portfolioReturn (returns : DataFrame R) (weights : list R) :
  length (Spec.portfolioReturn returns weights) = shape0 returns.
Proof. unfold Spec.portfolioReturn, shape0. apply length_map. Qed.

Lemma performance_mismatch (returns : DataFrame R) (weights : list R) :
  length weights <> shape1 returns ->
  get_portfolio_performance weights returns
  = Raises (ValueError_not_aligned (shape0 returns) (shape1 returns) (length weights)).
Proof.
  intros H. unfold get_portfolio_performance, np.dot.
  destruct (Nat.eqb_spec (length weights) (shape1 returns)); [contradiction|].
  reflexivity.
Qed.

Lemma risk_metrics_mismatch (daily_returns : DataFrame R) (weights : list R) :
  length weights <> shape1 daily_returns ->
  calculate_risk_metrics daily_returns weights
  = Raises (ValueError_coerce (shape1 daily_returns) (length weights)).
Proof.
  intros H. unfold calculate_risk_metrics.
  rewrite portfolio_return_mismatch by exact H. reflexivity.
Qed.

(** X1.  The two metric functions accept the same inputs: with as many
    weights as columns both return, and with any other number of weights
    both fail with a dimension mismatch, [get_portfolio_performance] from
    [np.dot] and [calculate_risk_metrics] from the pandas product. *)
Theorem metric_functions_accept_matching_weights
    (returns : DataFrame R) (weights : list R) :
  (length weights = shape1 returns ->
   (exists p, get_portfolio_performance weights returns = Returns p)
   /\ (exists m, calculate_risk_metrics returns weights = Returns m))
  /\
  (length weights <> shape1 returns ->
   fails_with (get_portfolio_performance weights returns) DimensionMismatchError
   /\ fails_with (calculate_risk_metrics returns weights) DimensionMismatchError).
Proof.
  split; intros H.
  - split; eexists.
    + apply performance_matching. exact H.
    + apply risk_metrics_matching. exact H.
  - split; eexists.
    + split; [apply performance_mismatch; exact H | reflexivity].
    + split; [apply risk_metrics_mismatch; exact H | reflexivity].
Qed.

Lemma metric_functions_accept_matching_weights_witness :
  ((exists p, get_portfolio_performance [1 / 2; 1 / 2] example_returns = Returns p)
   /\ (exists m, calculate_risk_metrics example_returns [1 / 2; 1 / 2] = Returns m))
  /\ fails_with (get_portfolio_performance [1] example_returns)
       DimensionMismatchError
  /\ fails_with (calculate_risk_metrics example_returns [1]) DimensionMismatchError.
Proof.
  split.
  - apply (proj1 (metric_functions_accept_matching_weights example_returns
                    [1 / 2; 1 / 2])).
    reflexivity.
  - apply (proj2 (metric_functions_accept_matching_weights example_returns [1])).
    unfold shape1. simpl. lia.
Defined.


Lemma population_std_nonempty (xs : list R) :
  xs <> [] ->
  Spec.population_std xs
  = Num (sqrt (Spec.total
                 (map (fun x => (x - Spec.total xs / INR (length xs)) ^ 2) xs)
               / INR (length xs))).
Proof. destruct xs; [contradiction | reflexivity]. Qed.

(** On a series of at least two items the sample volatility is at least
    the population volatility: both are numbers, and their squares are in
    the ratio of [n] to [n - 1]. *)
Lemma sample_volatility_of_series (s : list R) :
  (2 <= length s)%nat ->
  exists p q,
    np_volatility s = Num p
    /\ pd_volatility s = Num q
    /\ 0 <= p <= q
    /\ q * q * INR (length s - 1) = p * p * INR (length s).
Proof.
  intros Hlen.
  rewrite np_volatility_spec.
  unfold pd_volatility, Spec.Volatility, Spec.TRADING_DAYS.
  rewrite np_sqrt_252, (pd_std_sample s Hlen).
  assert (Hs : s <> []) by (destruct s; [simpl in Hlen; lia | discriminate]).
  rewrite (population_std_nonempty s Hs). unfold sample_variance. cbn [mul].
  set (sq := Spec.total
               (map (fun v => (v - Spec.total s / INR (length s)) ^ 2) s)).
  assert (Hsq : 0 <= sq) by apply total_squares_pow_nonneg.
  assert (Hn : 1 < INR (length s)).
  { change 1 with (INR 1). apply lt_INR. lia. }
  assert (Hn1 : INR (length s - 1) = INR (length s) - 1).
  { rewrite minus_INR by lia. reflexivity. }
  rewrite Hn1.
  do 2 eexists. split; [reflexivity|]. split; [reflexivity|].
  assert (Hp : 0 <= sq / INR (length s)).
  { apply Rmult_le_pos; [exact Hsq|]. apply Rlt_le, Rinv_0_lt_compat. lra. }
  assert (Hq : 0 <= sq / (INR (length s) - 1)).
  { apply Rmult_le_pos; [exact Hsq|]. apply Rlt_le, Rinv_0_lt_compat. lra. }
  assert (Hle : sq / INR (length s) <= sq / (INR (length s) - 1)).
  { apply Rmult_le_compat_l; [exact Hsq|].
    apply Rinv_le_contravar; lra. }
  pose proof (sqrt_pos 252) as H252.
  pose proof (sqrt_pos (sq / INR (length s))) as Hsp.
  pose proof (sqrt_le_1_alt _ _ Hle) as Hmono.
  split.
  - split; [apply Rmult_le_pos; assumption|].
    apply Rmult_le_compat_r; assumption.
  - pose proof (sqrt_sqrt 252 ltac:(lra)) as E252.
    pose proof (sqrt_sqrt _ Hp) as Ep.
    pose proof (sqrt_sqrt _ Hq) as Eq.
    set (a := sqrt (sq / INR (length s))) in *.
    set (b := sqrt (sq / (INR (length s) - 1))) in *.
    set (c := sqrt 252) in *.
    replace (b * c * (b * c) * (INR (length s) - 1))
      with ((b * b) * (c * c) * (INR (length s) - 1)) by ring.
    replace (a * c * (a * c) * INR (length s))
      with ((a * a) * (c * c) * INR (length s)) by ring.
    rewrite Ep, Eq, E252. field. lra.
Qed.

(** X5.  On a table of [T >= 2] rows and weights of matching length, the
    volatility that [calculate_risk_metrics] reports is the rounding of a
    number [q] that is at least the volatility [p] that
    [get_portfolio_performance] returns: [q * q * (T - 1) = p * p * T].
    The two functions do not compute the same volatility. *)
Theorem sample_volatility_exceeds_population
    (returns : DataFrame R) (weights : list R) :
  length weights = shape1 returns ->
  (2 <= shape0 returns)%nat ->
  exists ar sharpe m p q,
    get_portfolio_performance weights returns = Returns (ar, Num p, sharpe)
    /\ calculate_risk_metrics returns weights = Returns m
    /\ data_handler.Volatility m = Num (round4 q)
    /\ 0 <= p <= q
    /\ q * q * INR (shape0 returns - 1) = p * p * INR (shape0 returns).
Proof.
  intros Hlen Hrows.
  pose proof (performance_matching returns weights Hlen) as Hnp.
  pose proof (risk_metrics_matching returns weights Hlen) as Hpd.
  cbn zeta in Hnp, Hpd.
  pose proof (length_portfolioReturn returns weights) as Hl.
  destruct (sample_volatility_of_series (Spec.portfolioReturn returns weights))
    as (p & q & Hp & Hq & Hle & Hsq); [lia|].
  rewrite Hp in Hnp. rewrite Hq in Hpd. rewrite Hl in Hsq.
  do 3 eexists. exists p, q.
  split; [exact Hnp|]. split; [exact Hpd|]. split; [reflexivity|].
  split; [exact Hle | exact Hsq].
Qed.

Lemma sample_volatility_exceeds_population_witness :
  exists ar sharpe m p q,
    get_portfolio_performance [1] two_day_returns = Returns (ar, Num p, sharpe)
    /\ calculate_risk_metrics two_day_returns [1] = Returns m
    /\ data_handler.Volatility m = Num (round4 q)
    /\ 0 <= p <= q
    /\ q * q * INR (shape0 two_day_returns - 1)
       = p * p * INR (shape0 two_day_returns).
Proof.
  apply (sample_volatility_exceeds_population two_day_returns [1]).
  - reflexivity.
  - unfold shape0. simpl. lia.
Defined.

(** X6.  On a table with exactly one row and weights of matching length,
    [get_portfolio_performance] returns volatility 0 and Sharpe ratio 0,
    while [calculate_risk_metrics] returns NaN for both: the sample
    deviation of a single item is undefined, and NaN passes the test
    [volatility != 0]. *)
Theorem single_row_metrics_disagree (returns : DataFrame R) (weights : list R) :
  length weights = shape1 returns ->
  shape0 returns = 1%nat ->
  exists a,
    get_portfolio_performance weights returns = Returns (Num a, Num 0, Num 0)
    /\ calculate_risk_metrics returns weights
       = Returns (mkRiskMetrics (round (Num a)) NaN NaN).
Proof.
  intros Hlen Hrows.
  pose proof (performance_matching returns weights Hlen) as Hnp.
  pose proof (risk_metrics_matching returns weights Hlen) as Hpd.
  cbn zeta in Hnp, Hpd.
  pose proof (length_portfolioReturn returns weights) as Hl. rewrite Hrows in Hl.
  destruct (Spec.portfolioReturn returns weights) as [|r [|r' rest]];
    try discriminate Hl.
  destruct (single_row_volatilities r) as [H0 Hnan].
  rewrite H0 in Hnp. rewrite Hnan in Hpd.
  eexists. split.
  - rewrite Hnp. unfold guarded_sharpe, Spec.AnnualReturn, Spec.mean.
    cbn [mul nonzero]. rewrite Rzerob_true by reflexivity. reflexivity.
  - rewrite Hpd. reflexivity.
Qed.

Lemma single_row_metrics_disagree_witness :
  exists a,
    get_portfolio_performance [1] (mkFrame ["A"%string] [[1 / 100]])
    = Returns (Num a, Num 0, Num 0)
    /\ calculate_risk_metrics (mkFrame ["A"%string] [[1 / 100]]) [1]
       = Returns (mkRiskMetrics (round (Num a)) NaN NaN).
Proof.
  apply (single_row_metrics_disagree (mkFrame ["A"%string] [[1 / 100]]) [1]);
    reflexivity.
Defined.

(** ** The metrics of the allocation as entered (app.py) *)

Lemma Series_std_population (s : list R) : Series_std 0 s = Spec.population_std s.
Proof.
  unfold Series_std. destruct s as [|x xs]; [reflexivity|].
  set (s := x :: xs).
  assert (Hs : s <> []) by discriminate.
  rewrite (population_std_nonempty s Hs).
  change (Nat.leb (length s) 0) with false. cbv iota.
  rewrite Nat.sub_0_r, !Rsum_total. unfold np.sqrt.
  assert (Hn : 0 < INR (length s)) by (apply lt_0_INR; simpl; lia).
  pose proof (total_squares_nonneg (fun v => Spec.total s / INR (length s) - v) s)
    as Hsq.
  rewrite Rnegb_false.
  - rewrite (map_ext _ (fun v => (v - Spec.total s / INR (length s)) ^ 2));
      [reflexivity | intros v; ring].
  - apply Rmult_le_pos; [exact Hsq|]. apply Rlt_le, Rinv_0_lt_compat, Hn.
Qed.

Lemma Series_std_sample (s : list R) : Series_std 1 s = pd.std s.
Proof. reflexivity. Qed.

Lemma original_allocation_matching (daily_returns : DataFrame R) (weights : list R) :
  length weights = shape1 daily_returns ->
  let ptf := Spec.portfolioReturn daily_returns weights in
  app.original_allocation daily_returns weights
  = Returns (Spec.AnnualReturn ptf, Spec.Volatility ptf,
             div (Spec.AnnualReturn ptf) (Spec.Volatility ptf)).
Proof.
  intros Hlen ptf.
  pose proof (portfolio_return_matching daily_returns weights Hlen) as H.
  unfold calculate_portfolio_return in H. unfold app.original_allocation.
  destruct (pd.mul daily_returns weights) as [weighted|e]; [|discriminate].
  cbn [bind] in *. injection H as H. rewrite H. fold ptf.
  rewrite pd_mean_spec, Series_std_population, np_sqrt_252. reflexivity.
Qed.

(** X7.  For weights of matching length the script computes, for the
    allocation as entered, the annual return and the volatility that
    [get_portfolio_performance] returns; its Sharpe ratio is their
    quotient without a guard, so it agrees with the function's when the
    volatility is not zero, and when the volatility is 0 it is NaN or
    infinite where the function returns 0. *)
Theorem original_allocation_sharpe_unguarded
    (daily_returns : DataFrame R) (weights : list R) :
  length weights = shape1 daily_returns ->
  exists ar vol sharpe,
    get_portfolio_performance weights daily_returns = Returns (ar, vol, sharpe)
    /\ app.original_allocation daily_returns weights
       = Returns (ar, vol, div ar vol)
    /\ (nonzero vol = true -> div ar vol = sharpe)
    /\ (vol = Num 0 ->
        sharpe = Num 0 /\ (div ar vol = NaN \/ exists s, div ar vol = Inf s)).
Proof.
  intros Hlen.
  pose proof (performance_matching daily_returns weights Hlen) as Hnp.
  pose proof (original_allocation_matching daily_returns weights Hlen) as Happ.
  cbn zeta in Hnp, Happ. rewrite np_volatility_spec in Hnp.
  do 3 eexists. split; [exact Hnp|]. split; [exact Happ|].
  unfold guarded_sharpe. split.
  - intros ->. reflexivity.
  - intros Hv. rewrite Hv. cbn [nonzero]. rewrite Rzerob_true by reflexivity.
    split; [reflexivity|].
    destruct (Spec.AnnualReturn (Spec.portfolioReturn daily_returns weights))
      as [a|s|]; cbn [div].
    + rewrite Rzerob_true by reflexivity.
      destruct (Rzerob a); [left; reflexivity | right; eexists; reflexivity].
    + right. eexists. reflexivity.
    + left. reflexivity.
Qed.

Lemma original_allocation_sharpe_unguarded_witness :
  exists ar vol sharpe,
    get_portfolio_performance [1] flat_returns = Returns (ar, vol, sharpe)
    /\ app.original_allocation flat_returns [1] = Returns (ar, vol, div ar vol)
    /\ (nonzero vol = true -> div ar vol = sharpe)
    /\ (vol = Num 0 ->
        sharpe = Num 0 /\ (div ar vol = NaN \/ exists s, div ar vol = Inf s)).
Proof.
  apply (original_allocation_sharpe_unguarded flat_returns [1]). reflexivity.
Defined.

(** On the flat returns the allocation as entered has an infinite Sharpe
    ratio. *)
Lemma flat_returns_original_sharpe :
  exists ar, app.original_allocation flat_returns [1]
             = Returns (ar, Num 0, Inf false).
Proof.
  rewrite original_allocation_matching by reflexivity.
  rewrite <- np_volatility_spec, flat_np_volatility.
  unfold Spec.AnnualReturn, Spec.TRADING_DAYS.
  cbn [Spec.portfolioReturn flat_returns values map Spec.dot_product Spec.mean
       Spec.total length INR mul div].
  rewrite Rzerob_true by reflexivity.
  rewrite Rzerob_false, Rnegb_false by lra.
  eexists. reflexivity.
Qed.

(** ** Weights as vectors *)

Lemma dot_product_one_hot (row : list R) (i from : nat) :
  Spec.dot_product row
    (map (fun j => if Nat.eqb j i then 1 else 0) (seq from (length row)))
  = if Nat.leb from i then nth (i - from) row 0 else 0.
Proof.
  revert from. induction row as [|r row IH]; intros from.
  - simpl. destruct (Nat.leb from i); [destruct (i - from)%nat|]; reflexivity.
  - cbn [length seq map Spec.dot_product]. rewrite IH.
    destruct (Nat.eqb_spec from i) as [E|E].
    + subst i. rewrite Nat.leb_refl, Nat.sub_diag.
      destruct (Nat.leb_spec (S from) from) as [H|H]; [lia|]. simpl. ring.
    + destruct (Nat.leb_spec from i) as [H|H].
      * destruct (Nat.leb_spec (S from) i) as [H'|H']; [|lia].
        replace (i - from)%nat with (S (i - S from)) by lia. simpl. ring.
      * destruct (Nat.leb_spec (S from) i) as [H'|H']; [lia|]. ring.
Qed.

(** X9.  Holding one asset alone: with weight 1 on asset [i] and 0 on the
    others, the portfolio return series is column [i] of the table. *)
Theorem portfolio_return_of_single_asset (daily_returns : DataFrame R) (i : nat) :
  rectangular daily_returns ->
  (i < shape1 daily_returns)%nat ->
  calculate_portfolio_return daily_returns (one_hot (shape1 daily_returns) i)
  = Returns (column daily_returns i 0).
Proof.
  intros Hrect Hi.
  rewrite portfolio_return_matching
    by (unfold one_hot; rewrite length_map, length_seq; reflexivity).
  f_equal. unfold Spec.portfolioReturn, column.
  apply map_ext_in. intros row Hrow.
  unfold rectangular in Hrect. rewrite Forall_forall in Hrect.
  unfold one_hot. rewrite <- (Hrect row Hrow), dot_product_one_hot.
  simpl. rewrite Nat.sub_0_r. reflexivity.
Qed.

Lemma portfolio_return_of_single_asset_witness :
  calculate_portfolio_return example_returns (one_hot (shape1 example_returns) 1)
  = Returns (column example_returns 1 0).
Proof.
  apply (portfolio_return_of_single_asset example_returns 1).
  - unfold rectangular, example_returns, shape1. simpl. repeat constructor.
  - unfold shape1. simpl. lia.
Defined.

(** ** Daily returns of any price table *)

Lemma pairwise_lengths {A B : Type} (f : A -> A -> B) (n : nat) (prev : list A)
    (rows : list (list A)) :
  length prev = n ->
  Forall (fun row => length row = n) rows ->
  Forall (fun row => length row = n) (pairwise (zip_with f) prev rows).
Proof.
  revert prev. induction rows as [|r rows IH]; intros prev Hp Hrows; simpl.
  - constructor.
  - apply Forall_cons_iff in Hrows as [Hr Hrest]. constructor.
    + rewrite length_zip_with, Hr, Hp. apply Nat.min_id.
    + apply IH; assumption.
Qed.

Lemma pct_change_rectangular (prices : DataFrame R) :
  rectangular prices -> rectangular (pd.pct_change prices).
Proof.
  intros Hrect. destruct prices as [cols vals]. unfold rectangular in *.
  destruct vals as [|row0 rest]; [constructor|].
  rewrite pct_change_rows.
  change (shape1 (pd.pct_change (mkFrame cols (row0 :: rest)))) with (length cols).
  change (shape1 (mkFrame cols (row0 :: rest))) with (length cols) in Hrect.
  apply Forall_cons_iff in Hrect as [H0 Hrest]. cbn [values] in *.
  constructor.
  - rewrite length_zip_with, repeat_length, H0. apply Nat.min_id.
  - apply pairwise_lengths; assumption.
Qed.

Lemma Forall_filter {A : Type} (P : A -> Prop) (f : A -> bool) (l : list A) :
  Forall P l -> Forall P (filter f l).
Proof.
  intros H. apply Forall_forall. intros a Ha. apply filter_In in Ha as [Ha _].
  rewrite Forall_forall in H. apply H. exact Ha.
Qed.

Lemma dropna_no_nan (df : DataFrame float) (t i : nat) (v : float) :
  cell (pd.dropna df) t i = Some v -> isna v = false.
Proof.
  unfold cell, pd.dropna. cbn [values]. intros H.
  destruct (nth_error (filter _ (values df)) t) as [row|] eqn:Erow; [|discriminate].
  apply nth_error_In in Erow. apply filter_In in Erow as [_ Hrow].
  rewrite forallb_forall in Hrow.
  specialize (Hrow v (nth_error_In _ _ H)).
  destruct (isna v); [discriminate | reflexivity].
Qed.

(** X10.  For every price table, [calculate_daily_returns] returns a table
    with the columns of the input and without any NaN; the table is
    rectangular when the input is, and with at least one asset it is at
    least one row shorter than the input: of [T >= 1] rows of prices at
    most [T - 1] rows of returns are left, and fewer when a row of
    changes holds a NaN. *)
Theorem daily_returns_clean (prices : DataFrame R) :
  exists out : DataFrame float,
    calculate_daily_returns prices = Returns out
    /\ columns out = columns prices
    /\ (forall t i v, cell out t i = Some v -> isna v = false)
    /\ (rectangular prices -> rectangular out)
    /\ (rectangular prices -> (1 <= shape1 prices)%nat ->
        (shape0 out <= shape0 prices - 1)%nat).
Proof.
  eexists. split; [reflexivity|]. split; [reflexivity|]. split; [|split].
  - intros t i v. apply dropna_no_nan.
  - intros Hrect. apply pct_change_rectangular in Hrect.
    unfold rectangular in *. unfold pd.dropna. cbn [values].
    apply Forall_filter. exact Hrect.
  - intros Hrect Hn. unfold shape0. destruct prices as [cols vals].
    destruct vals as [|row0 rest]; [simpl; lia|].
    unfold pd.dropna. cbn [values]. rewrite pct_change_rows. cbn [filter].
    fold (complete (zip_with (fun (p : R) (b : float) => sub (div (Num p) b) (Num 1))
                      row0 (repeat NaN (length cols)))).
    rewrite first_row_incomplete.
    + etransitivity; [apply filter_length_le|].
      rewrite length_pairwise. simpl. lia.
    + unfold rectangular in Hrect. apply Forall_cons_iff in Hrect as [H0 _].
      exact H0.
    + exact Hn.
Qed.

Lemma daily_returns_clean_witness :
  exists out : DataFrame float,
    calculate_daily_returns two_zero_prices = Returns out
    /\ columns out = columns two_zero_prices
    /\ (forall t i v, cell out t i = Some v -> isna v = false)
    /\ rectangular out
    /\ (shape0 out <= shape0 two_zero_prices - 1)%nat.
Proof.
  destruct (daily_returns_clean two_zero_prices)
    as (out & Hout & Hcols & Hnan & Hrect & Hrows).
  assert (Hr : rectangular two_zero_prices) by (repeat constructor).
  exists out. split; [exact Hout|]. split; [exact Hcols|].
  split; [exact Hnan|]. split; [exact (Hrect Hr)|].
  apply Hrows; [exact Hr|]. unfold shape1. simpl. lia.
Defined.

(** ** Bounds on cumulative returns *)

Lemma zip_with_mult_nonneg (u v : list R) :
  Forall (fun a => 0 <= a) u -> Forall (fun a => 0 <= a) v ->
  Forall (fun a => 0 <= a) (zip_with Rmult u v).
Proof.
  intros Hu. revert v. induction Hu as [|a u Ha _ IH]; intros v Hv; simpl;
    [constructor|].
  destruct Hv as [|b v Hb Hv]; constructor.
  - apply Rmult_le_pos; assumption.
  - apply IH. exact Hv.
Qed.

Lemma cumprod_from_nonneg (acc : list R) (rows : list (list R)) :
  Forall (fun a => 0 <= a) acc ->
  Forall (Forall (fun a => 0 <= a)) rows ->
  Forall (Forall (fun a => 0 <= a)) (pd.cumprod_from acc rows).
Proof.
  revert acc. induction rows as [|r rows IH]; intros acc Hacc Hrows; simpl;
    [constructor|].
  apply Forall_cons_iff in Hrows as [Hr Hrest].
  pose proof (zip_with_mult_nonneg acc r Hacc Hr) as Hnew.
  constructor; [exact Hnew|]. apply IH; assumption.
Qed.

(** X12.  The value of one unit of money never goes below zero: when no
    daily return is below -1 (a total loss), no cumulative return is
    below -1.  The table returned has the columns and the number of rows
    of the input. *)
Theorem cumulative_return_bounded_below (daily_returns : DataFrame R) :
  Forall (Forall (fun d => -1 <= d)) (values daily_returns) ->
  exists c : DataFrame R,
    calculate_cumulative_returns daily_returns = Returns c
    /\ columns c = columns daily_returns
    /\ shape0 c = shape0 daily_returns
    /\ Forall (Forall (fun v => -1 <= v)) (values c).
Proof.
  intros H. eexists. split; [reflexivity|]. split; [reflexivity|]. split.
  - unfold shape0, frame_map. cbn [values]. rewrite length_map.
    change (shape0 (pd.cumprod (frame_map (fun r => 1 + r) daily_returns))
            = shape0 daily_returns).
    rewrite shape0_cumprod. unfold shape0, frame_map. cbn [values].
    apply length_map.
  - unfold frame_map, pd.cumprod. cbn [values columns].
    assert (Hg : Forall (Forall (fun a => 0 <= a))
                   (map (map (fun r => 1 + r)) (values daily_returns))).
    { apply Forall_map. eapply Forall_impl; [|exact H].
      intros row Hrow. apply Forall_map. eapply Forall_impl; [|exact Hrow].
      intros d Hd. simpl in Hd |- *. lra. }
    apply Forall_map.
    assert (Hc : Forall (Forall (fun a => 0 <= a))
                   match map (map (fun r => 1 + r)) (values daily_returns) with
                   | [] => []
                   | row :: rest => row :: pd.cumprod_from row rest
                   end).
    { destruct (map (map (fun r => 1 + r)) (values daily_returns)) as [|row rest];
        [constructor|].
      apply Forall_cons_iff in Hg as [Hrow Hrest].
      constructor; [exact Hrow|]. apply cumprod_from_nonneg; assumption. }
    eapply Forall_impl; [|exact Hc].
    intros row Hrow. apply Forall_map. eapply Forall_impl; [|exact Hrow].
    intros a Ha. simpl in Ha |- *. lra.
Qed.

Lemma cumulative_return_bounded_below_witness :
  exists c : DataFrame R,
    calculate_cumulative_returns example_returns = Returns c
    /\ columns c = columns example_returns
    /\ shape0 c = shape0 example_returns
    /\ Forall (Forall (fun v => -1 <= v)) (values c).
Proof.
  apply (cumulative_return_bounded_below example_returns).
  unfold example_returns. cbn [values].
  repeat (constructor; [repeat (constructor; [lra|]); constructor|]).
  constructor.
Defined.

(** ** The course of an optimisation *)

(** What [optimize_portfolio] has done when it returns: the solver gave
    [r], the performance at [x r] was [p], and the result is made of
    their roundings. *)
Lemma optimize_portfolio_returned_from
    (minimize : solver) (returns : DataFrame R) (method : string)
    (log : list event) (res : OptimizationResult) :
  optimize_portfolio minimize returns method = (log, Returns res) ->
  exists objective r ret vol sharpe,
    minimize objective (repeat (1 / INR (shape1 returns)) (shape1 returns))
      (repeat (0, 1) (shape1 returns)) (fun x => Rsum x - 1) = Returns r
    /\ get_portfolio_performance (x r) returns = Returns (ret, vol, sharpe)
    /\ res = mkOptimizationResult
               (dict_of (zip (columns returns) (np.round (x r))))
               (round ret) (round vol) (round sharpe).
Proof.
  unfold optimize_portfolio, py_div_one.
  destruct (shape1 returns) as [|n] eqn:En; [discriminate|].
  cbn [pure tbind].
  destruct (objective_for returns method) as [objective|e]; [|discriminate].
  cbn [doing tbind].
  destruct (minimize objective _ _ _) as [r|e] eqn:Emin; [|discriminate].
  destruct (get_portfolio_performance (x r) returns) as [[[ret vol] sharpe]|e]
    eqn:Eperf; [|discriminate].
  cbn. intros H. injection H as _ <-.
  exists objective, r, ret, vol, sharpe. auto.
Qed.



(** X14.  When [optimize_portfolio] returns and the column labels are
    distinct, the returned dictionary has the column labels as its keys,
    in the order of the columns, and its values can be used as weights on
    the same table: [calculate_portfolio_return] accepts them.  This needs
    no assumption on the solver, because a point of the wrong size makes
    the performance evaluation fail. *)
Theorem optimal_weights_fit_the_table
    (minimize : solver) (returns : DataFrame R) (method : string)
    (log : list event) (res : OptimizationResult) :
  NoDup (columns returns) ->
  optimize_portfolio minimize returns method = (log, Returns res) ->
  app.keys (Optimal_Weights res) = columns returns
  /\ length (dict_values (Optimal_Weights res)) = shape1 returns
  /\ exists ptf,
       calculate_portfolio_return returns (dict_values (Optimal_Weights res))
       = Returns ptf.
Proof.
  intros Hnd Hrun.
  destruct (optimize_portfolio_returned_from minimize returns method log res Hrun)
    as (objective & r & ret & vol & sharpe & _ & Hperf & ->).
  assert (Hlen : length (x r) = shape1 returns).
  { destruct (Nat.eq_dec (length (x r)) (shape1 returns)) as [E|E]; [exact E|].
    rewrite performance_mismatch in Hperf by exact E. discriminate. }
  assert (Hzip : length (columns returns) = length (np.round (x r))).
  { unfold np.round. rewrite length_map, Hlen. reflexivity. }
  cbn [Optimal_Weights]. unfold app.keys.
  rewrite dict_of_distinct by (rewrite zip_fst; assumption).
  rewrite zip_fst by exact Hzip. split; [reflexivity|].
  unfold dict_values. rewrite zip_snd by exact Hzip.
  split; [symmetry; exact Hzip|].
  eexists. apply portfolio_return_matching. symmetry. exact Hzip.
Qed.

Lemma optimal_weights_fit_the_table_witness :
  exists log res,
    optimize_portfolio uniform_solver example_returns "min_vol"
    = (log, Returns res)
    /\ app.keys (Optimal_Weights res) = columns example_returns
    /\ length (dict_values (Optimal_Weights res)) = shape1 example_returns
    /\ exists ptf,
         calculate_portfolio_return example_returns
           (dict_values (Optimal_Weights res))
         = Returns ptf.
Proof.
  destruct (uniform_solver_run example_returns "min_vol") as (log & res & Hrun & _).
  - unfold shape1. simpl. lia.
  - right. reflexivity.
  - exists log, res. split; [exact Hrun|].
    apply (optimal_weights_fit_the_table uniform_solver example_returns
             "min_vol" log res); [|exact Hrun].
    cbn [example_returns columns].
    repeat (constructor; [simpl; intuition discriminate|]). constructor.
Defined.

(** X15.  Failures of [optimize_portfolio], for every solver: a table
    without columns makes it raise [ZeroDivisionError] whatever the
    selector is; with at least one column and a supported selector, an
    exception of the solver is passed on, and a point whose size is not
    the number of columns makes it raise the shape error of [np.dot].  In
    no case is a result returned. *)
Theorem optimize_portfolio_failures
    (minimize : solver) (returns : DataFrame R) (method : string) :
  let n := shape1 returns in
  let x0 := repeat (1 / INR n) n in
  (n = 0%nat ->
   optimize_portfolio minimize returns method = ([], Raises ZeroDivisionError))
  /\
  ((1 <= n)%nat ->
   method = "sharpe"%string \/ method = "min_vol"%string ->
   (forall e,
       (forall objective,
           minimize objective x0 (repeat (0, 1) n) (fun x => Rsum x - 1)
           = Raises e) ->
       optimize_portfolio minimize returns method
       = ([Solver_called x0], Raises e))
   /\
   (forall r,
       (forall objective,
           minimize objective x0 (repeat (0, 1) n) (fun x => Rsum x - 1)
           = Returns r) ->
       length (x r) <> n ->
       optimize_portfolio minimize returns method
       = ([Solver_called x0; Performance_evaluated (x r)],
          Raises (ValueError_not_aligned (shape0 returns) n (length (x r)))))).
Proof.
  intros n x0. split.
  - intros E0. unfold optimize_portfolio. fold n. rewrite E0. reflexivity.
  - intros Hn Hm.
    assert (Hdiv : py_div_one n = Returns (1 / INR n)).
    { unfold py_div_one. destruct n; [lia | reflexivity]. }
    assert (Hobj : exists objective, objective_for returns method = Returns objective).
    { unfold objective_for. destruct Hm as [-> | ->]; cbn; eauto. }
    destruct Hobj as (objective & Hobj).
    split.
    + intros e He. unfold optimize_portfolio. fold n. rewrite Hdiv.
      cbn [pure tbind]. rewrite Hobj. cbn [doing tbind]. fold x0.
      rewrite He. reflexivity.
    + intros r Hr Hlen. unfold optimize_portfolio. fold n. rewrite Hdiv.
      cbn [pure tbind]. rewrite Hobj. cbn [doing tbind]. fold x0.
      rewrite Hr. rewrite performance_mismatch by exact Hlen. reflexivity.
Qed.

Lemma optimize_portfolio_failures_witness :
  optimize_portfolio uniform_solver (mkFrame [] [[]; []]) "sharpe"
  = ([], Raises ZeroDivisionError)
  /\ optimize_portfolio (failing_solver ZeroDivisionError) example_returns "sharpe"
     = ([Solver_called (repeat (1 / INR 2) 2)], Raises ZeroDivisionError)
  /\ optimize_portfolio short_solver example_returns "min_vol"
     = ([Solver_called (repeat (1 / INR 2) 2); Performance_evaluated []],
        Raises (ValueError_not_aligned 3 2 0)).
Proof.
  split.
  - apply (proj1 (optimize_portfolio_failures uniform_solver
                    (mkFrame [] [[]; []]) "sharpe")).
    reflexivity.
  - destruct (proj2 (optimize_portfolio_failures
                       (failing_solver ZeroDivisionError) example_returns "sharpe"))
      as [Hraise _].
    + unfold shape1. simpl. lia.
    + left. reflexivity.
    + destruct (proj2 (optimize_portfolio_failures short_solver example_returns
                         "min_vol")) as [_ Hshort].
      * unfold shape1. simpl. lia.
      * right. reflexivity.
      * split.
        -- apply Hraise. reflexivity.
        -- apply (Hshort (mkOptimizeResult [] true)); [reflexivity|].
           unfold shape1. simpl. lia.
Defined.

(** X16.  A single asset: with a solver that keeps the bounds and meets
    the constraint within less than 0.00005, the only weight that
    [optimize_portfolio] returns is exactly 1. *)
Theorem single_asset_weight_is_one
    (minimize : solver) (eps : R) (returns : DataFrame R) (method : string)
    (log : list event) (res : OptimizationResult) :
  keeps_constraints eps minimize ->
  eps < 1 / 20000 ->
  shape1 returns = 1%nat ->
  optimize_portfolio minimize returns method = (log, Returns res) ->
  dict_values (Optimal_Weights res) = [1].
Proof.
  intros Hsolver Heps Hn Hrun.
  destruct (optimize_portfolio_returned minimize returns method log res Hrun)
    as (objective & r & _ & Hmin & Hw).
  destruct (Hsolver objective (shape1 returns) _ r (repeat_length _ _)
              ltac:(lia) Hmin) as (Hlen & Hbox & Hsum).
  rewrite Hn in Hlen.
  destruct (x r) as [|w [|w' rest]] eqn:Ex; try discriminate Hlen.
  unfold shape1 in Hn.
  destruct (columns returns) as [|label [|label' labels]] eqn:Ecols;
    try discriminate Hn.
  rewrite Hw. cbn [np.round map zip zip_with dict_of fold_left dict_set
                   dict_values fst snd].
  f_equal.
  apply Forall_cons_iff in Hbox as [[Hw0 Hw1] _].
  rewrite Rsum_cons, Rsum_nil in Hsum. apply Rabs_le_inv in Hsum.
  rewrite (round4_eval 10000) by lra. lra.
Qed.

Lemma single_asset_weight_is_one_witness :
  exists log res,
    optimize_portfolio uniform_solver flat_returns "sharpe" = (log, Returns res)
    /\ dict_values (Optimal_Weights res) = [1].
Proof.
  destruct (uniform_solver_run flat_returns "sharpe") as (log & res & Hrun & _).
  - unfold shape1. simpl. lia.
  - left. reflexivity.
  - exists log, res. split; [exact Hrun|].
    apply (single_asset_weight_is_one uniform_solver 0 flat_returns "sharpe"
             log res).
    + exact uniform_solver_keeps_constraints.
    + lra.
    + reflexivity.
    + exact Hrun.
Defined.

(** ** The price loader *)

Lemma Reqb_refl (a : R) : Reqb a a = true.
Proof. unfold Reqb. destruct (Req_dec_T a a); [reflexivity | contradiction]. Qed.

Lemma float_eqb_refl (a : float) : float_eqb a a = true.
Proof. destruct a as [r|[|]|]; simpl; auto using Reqb_refl. Qed.

Lemma list_eqb_refl {A : Type} (eqb : A -> A -> bool) (l : list A) :
  (forall a, eqb a a = true) -> list_eqb eqb l l = true.
Proof.
  intros H. induction l as [|a l IH]; simpl; [reflexivity|].
  rewrite H, IH. reflexivity.
Qed.

Lemma label_eqb_spec (a b : string * string) : reflect (a = b) (loader.label_eqb a b).
Proof.
  destruct a as [a1 a2], b as [b1 b2]. unfold loader.label_eqb. cbn [fst snd].
  destruct (String.eqb_spec a1 b1) as [E1|E1];
    destruct (String.eqb_spec a2 b2) as [E2|E2]; cbn;
    constructor; congruence.
Qed.

(** Duplicates of the first item, and nothing else, leave one item. *)
Lemma drop_duplicates_constant {A : Type} (eqb : A -> A -> bool) (a : A)
    (rest : list A) :
  Forall (fun b => eqb b a = true) rest ->
  drop_duplicates eqb (a :: rest) = [a].
Proof.
  intros H. unfold drop_duplicates. cbn [fold_left existsb].
  assert (Hfold : fold_left
                    (fun kept b => if existsb (eqb b) kept then kept else b :: kept)
                    rest [a] = [a]).
  { induction H as [|b rest Hb _ IH]; [reflexivity|].
    cbn [fold_left existsb]. rewrite Hb. cbn [orb]. exact IH. }
  rewrite Hfold. reflexivity.
Qed.

Lemma filter_idempotent {A : Type} (f : A -> bool) (l : list A) :
  filter f (filter f l) = filter f l.
Proof.
  apply filter_all. apply Forall_forall. intros a Ha.
  apply filter_In in Ha as [_ Ha]. exact Ha.
Qed.

(** [dropna] twice is [dropna] once. *)
Lemma dropna_idempotent (df : DataFrame float) :
  pd.dropna (pd.dropna df) = pd.dropna df.
Proof. unfold pd.dropna. cbn [columns values]. rewrite filter_idempotent. reflexivity. Qed.

Lemma positions_shift {A : Type} (p : A -> bool) (l : list A) (from : nat) :
  positions p l (S from) = map S (positions p l from).
Proof.
  revert from. induction l as [|a l IH]; intros from; simpl; [reflexivity|].
  destruct (p a); simpl; rewrite IH; reflexivity.
Qed.

Lemma positions_filter {A : Type} (p : A -> bool) (l : list A) (d : A) :
  map (fun i => nth i l d) (positions p l 0) = filter p l.
Proof.
  induction l as [|a l IH]; [reflexivity|].
  cbn [positions filter]. rewrite positions_shift.
  destruct (p a); cbn [map]; rewrite map_map; cbn [nth]; rewrite IH; reflexivity.
Qed.

Lemma filter_none {A : Type} (f : A -> bool) (l : list A) :
  (forall a, In a l -> f a = false) -> filter f l = [].
Proof.
  induction l as [|a l IH]; intros H; [reflexivity|].
  cbn [filter]. rewrite (H a (or_introl eq_refl)).
  apply IH. intros b Hb. apply H. right. exact Hb.
Qed.

Lemma filter_label_present (k : string * string) (l : list (string * string)) :
  NoDup l -> In k l -> filter (loader.label_eqb k) l = [k].
Proof.
  intros Hnd Hin. induction Hnd as [|a l Ha Hnd IH]; [contradiction|].
  cbn [filter]. destruct (label_eqb_spec k a) as [E|E].
  - subst a. f_equal. apply filter_none. intros b Hb.
    destruct (label_eqb_spec k b) as [E'|E']; [subst b; contradiction|reflexivity].
  - apply IH. destruct Hin as [Hin|Hin]; [congruence | exact Hin].
Qed.

Lemma map_flat_map {A B C : Type} (f : B -> C) (g : A -> list B) (l : list A) :
  map f (flat_map g l) = flat_map (fun a => map f (g a)) l.
Proof.
  induction l as [|a l IH]; [reflexivity|].
  cbn [flat_map]. rewrite map_app, IH. reflexivity.
Qed.

Lemma select_present (keys : list (string * string)) (data d : loader.Download) :
  loader.select keys data = inr d ->
  (forall k, In k keys -> In k (loader.labels data))
  /\ loader.labels d
     = flat_map (fun k => filter (loader.label_eqb k) (loader.labels data)) keys.
Proof.
  unfold loader.select.
  destruct (filter _ keys) as [|m ms] eqn:Emiss; [|discriminate].
  intros H. injection H as <-. cbn [loader.labels]. split.
  - intros k Hk.
    destruct (existsb (loader.label_eqb k) (loader.labels data)) eqn:Ex.
    + apply existsb_exists in Ex as (l & Hl & Heq).
      destruct (label_eqb_spec k l); [subst; exact Hl | discriminate].
    + assert (Hin : In k (filter (fun k => negb (existsb (loader.label_eqb k)
                                                   (loader.labels data))) keys)).
      { apply filter_In. split; [exact Hk|]. rewrite Ex. reflexivity. }
      rewrite Emiss in Hin. contradiction.
  - rewrite map_flat_map. apply flat_map_ext. intros k. apply positions_filter.
Qed.

Lemma select_missing (keys : list (string * string)) (data : loader.Download)
    (k : string * string) :
  In k keys -> ~ In k (loader.labels data) ->
  exists missing, loader.select keys data = inl (loader.KeyError missing)
                  /\ In k missing.
Proof.
  intros Hk Hnot. unfold loader.select.
  assert (Hin : In k (filter (fun k => negb (existsb (loader.label_eqb k)
                                                 (loader.labels data))) keys)).
  { apply filter_In. split; [exact Hk|].
    destruct (existsb (loader.label_eqb k) (loader.labels data)) eqn:Ex;
      [|reflexivity].
    apply existsb_exists in Ex as (l & Hl & Heq).
    destruct (label_eqb_spec k l); [subst; contradiction | discriminate]. }
  destruct (filter _ keys) as [|m ms]; [contradiction|].
  eexists. split; [reflexivity | exact Hin].
Qed.

Lemma closing_columns (tickers : list string) (download : loader.Download)
    (data : DataFrame float) :
  closing_of tickers download = Some data ->
  NoDup (loader.labels download) ->
  columns data = tickers.
Proof.
  unfold closing_of. intros H Hnd.
  destruct (loader.select _ download) as [e|d] eqn:Esel; [discriminate|].
  injection H as <-.
  destruct (select_present _ _ _ Esel) as [Hpres Hlabels].
  unfold loader.droplevel. cbn [columns]. rewrite Hlabels. clear Hlabels Esel.
  induction tickers as [|t tickers IH]; [reflexivity|].
  cbn [map flat_map].
  rewrite filter_label_present; [|exact Hnd | apply Hpres; left; reflexivity].
  cbn [app map snd]. f_equal. apply IH.
  intros k Hk. apply Hpres. right. exact Hk.
Qed.

(** What [load_prices] does once the closing prices are selected. *)
Lemma load_prices_checked (yf_download : list string -> string -> loader.Download)
    (tickers : list string) (start_date : string) (data : DataFrame float) :
  closing_of tickers (yf_download tickers start_date) = Some data ->
  loader.load_prices yf_download tickers start_date
  = match missing_prices_of data with
    | [] => inr (pd.dropna (pd.dropna data))
    | _ :: _ => inl (loader.AssertionError (missing_prices_of data))
    end.
Proof.
  unfold closing_of, loader.load_prices. intros H.
  destruct (loader.select _ (yf_download tickers start_date)) as [e|d];
    [discriminate|].
  injection H as <-. reflexivity.
Qed.

(** X17.  When [load_prices] returns a table, the table is the closing
    prices without the rows that have a missing price: it has no NaN, a
    further [dropna] changes nothing (the second [dropna] of the function
    is redundant), and, the labels of the download being distinct, its
    columns are the tickers in the order asked for. *)
Theorem load_prices_returns_clean_table
    (yf_download : list string -> string -> loader.Download)
    (tickers : list string) (start_date : string) (df : DataFrame float) :
  loader.load_prices yf_download tickers start_date = inr df ->
  exists data,
    closing_of tickers (yf_download tickers start_date) = Some data
    /\ df = pd.dropna data
    /\ (forall t i v, cell df t i = Some v -> isna v = false)
    /\ pd.dropna df = df
    /\ (NoDup (loader.labels (yf_download tickers start_date)) ->
        columns df = tickers).
Proof.
  intros H.
  destruct (closing_of tickers (yf_download tickers start_date)) as [data|] eqn:Ec.
  - rewrite (load_prices_checked _ _ _ data Ec) in H.
    destruct (missing_prices_of data); [|discriminate].
    injection H as <-. rewrite dropna_idempotent.
    exists data. split; [reflexivity|]. split; [reflexivity|].
    split; [intros t i v; apply dropna_no_nan|].
    split; [apply dropna_idempotent|].
    intros Hnd. apply (closing_columns tickers _ data Ec Hnd).
  - unfold closing_of in Ec. unfold loader.load_prices in H.
    destruct (loader.select _ (yf_download tickers start_date)); discriminate.
Qed.

Ltac decide_Reqb :=
  unfold Reqb;
  repeat (match goal with
          | |- context [Req_dec_T ?a ?b] =>
              destruct (Req_dec_T a b) as [?|?];
              [try (exfalso; lra) | try (exfalso; lra)]
          end; cbn).

Lemma gappy_download_loaded :
  loader.load_prices (fun _ _ => gappy_download) ["A"; "B"]%string "2019-01-01"
  = inr (mkFrame ["A"; "B"]%string [ [Num 100; Num 50]; [Num 99; Num 55] ]).
Proof.
  unfold loader.load_prices, loader.select, gappy_download, loader.droplevel,
    getitem, drop_duplicates, pick.
  cbn. decide_Reqb. reflexivity.
Qed.

Lemma load_prices_returns_clean_table_witness :
  exists df data,
    loader.load_prices (fun _ _ => gappy_download) ["A"; "B"]%string "2019-01-01"
    = inr df
    /\ closing_of ["A"; "B"]%string gappy_download = Some data
    /\ df = pd.dropna data
    /\ (forall t i v, cell df t i = Some v -> isna v = false)
    /\ pd.dropna df = df
    /\ columns df = ["A"; "B"]%string.
Proof.
  destruct (load_prices_returns_clean_table (fun _ _ => gappy_download)
              ["A"; "B"]%string "2019-01-01" _ gappy_download_loaded)
    as (data & Hc & Hdf & Hnan & Hidem & Hcols).
  do 2 eexists. split; [exact gappy_download_loaded|].
  split; [exact Hc|]. split; [exact Hdf|]. split; [exact Hnan|].
  split; [exact Hidem|]. reflexivity.
Defined.

(** X18.  A column that holds the same value on every row is reported as
    having no prices: [load_prices] fails with the assertion error and
    names the column, whether the value is NaN on every row (no prices
    found) or a price that never moved. *)
Theorem constant_column_is_reported
    (yf_download : list string -> string -> loader.Download)
    (tickers : list string) (start_date : string) (data : DataFrame float)
    (col : string) (first : list float) (rest : list (list float)) :
  closing_of tickers (yf_download tickers start_date) = Some data ->
  In col (columns data) ->
  getitem col data = first :: rest ->
  Forall (fun row => row = first) rest ->
  exists missing,
    loader.load_prices yf_download tickers start_date
    = inl (loader.AssertionError missing)
    /\ In col missing.
Proof.
  intros Hc Hcol Hitem Hconst.
  rewrite (load_prices_checked _ _ _ data Hc).
  assert (Hin : In col (missing_prices_of data)).
  { unfold missing_prices_of. apply filter_In. split; [exact Hcol|].
    rewrite Hitem, drop_duplicates_constant; [reflexivity|].
    eapply Forall_impl; [|exact Hconst]. intros row ->.
    apply list_eqb_refl. apply float_eqb_refl. }
  destruct (missing_prices_of data) as [|m ms]; [contradiction|].
  eexists. split; [reflexivity | exact Hin].
Qed.

Lemma constant_column_is_reported_witness :
  exists missing,
    loader.load_prices (fun _ _ => example_download) ["A"; "B"]%string "2019-01-01"
    = inl (loader.AssertionError missing)
    /\ In "B"%string missing.
Proof.
  apply (constant_column_is_reported (fun _ _ => example_download)
           ["A"; "B"]%string "2019-01-01"
           (mkFrame ["A"; "B"]%string
              [ [Num 100; NaN]; [Num 110; NaN]; [Num 99; NaN] ])
           "B"%string [NaN] [[NaN]; [NaN]]).
  - reflexivity.
  - right. left. reflexivity.
  - reflexivity.
  - repeat constructor.
Defined.

Lemma getitem_no_rows (col : string) (data : DataFrame float) :
  values data = [] -> getitem col data = [].
Proof. unfold getitem. intros ->. reflexivity. Qed.

(** X19.  The check for missing prices counts distinct values, so it
    depends on the number of rows: closing prices of a single day are
    always rejected, every ticker being reported, and closing prices
    without any row are always accepted and returned as they are. *)
Theorem load_prices_on_short_downloads
    (yf_download : list string -> string -> loader.Download)
    (tickers : list string) (start_date : string) (data : DataFrame float) :
  closing_of tickers (yf_download tickers start_date) = Some data ->
  (values data = [] ->
   loader.load_prices yf_download tickers start_date
   = inr (mkFrame (columns data) []))
  /\
  (forall row, values data = [row] -> columns data <> [] ->
   loader.load_prices yf_download tickers start_date
   = inl (loader.AssertionError (columns data))).
Proof.
  intros Hc. rewrite (load_prices_checked _ _ _ data Hc). split.
  - intros Hv.
    assert (Hm : missing_prices_of data = []).
    { unfold missing_prices_of. apply filter_none. intros col _.
      rewrite (getitem_no_rows col data Hv). reflexivity. }
    rewrite Hm. unfold pd.dropna. cbn [values columns]. rewrite Hv. reflexivity.
  - intros row Hv Hcols.
    assert (Hm : missing_prices_of data = columns data).
    { unfold missing_prices_of. apply filter_all. apply Forall_forall.
      intros col _. unfold getitem. rewrite Hv. reflexivity. }
    rewrite Hm. destruct (columns data); [contradiction | reflexivity].
Qed.

Lemma load_prices_on_short_downloads_witness :
  loader.load_prices (fun _ _ => empty_download) ["A"; "B"]%string "2019-01-01"
  = inr (mkFrame ["A"; "B"]%string [])
  /\ loader.load_prices (fun _ _ => one_day_download) ["A"; "B"]%string "2019-01-01"
     = inl (loader.AssertionError ["A"; "B"]%string).
Proof.
  split.
  - apply (proj1 (load_prices_on_short_downloads (fun _ _ => empty_download)
                    ["A"; "B"]%string "2019-01-01"
                    (mkFrame ["A"; "B"]%string []) eq_refl)).
    reflexivity.
  - apply (proj2 (load_prices_on_short_downloads (fun _ _ => one_day_download)
                    ["A"; "B"]%string "2019-01-01"
                    (mkFrame ["A"; "B"]%string [[Num 100; Num 50]]) eq_refl)
             [Num 100; Num 50]).
    + reflexivity.
    + discriminate.
Defined.

(** X20.  A ticker for which the download has no "Close" column makes
    [load_prices] fail with [KeyError], which names the label; nothing
    is returned for the other tickers. *)
Theorem load_prices_missing_column
    (yf_download : list string -> string -> loader.Download)
    (tickers : list string) (start_date : string) (ticker : string) :
  In ticker tickers ->
  ~ In ("Close"%string, ticker) (loader.labels (yf_download tickers start_date)) ->
  exists missing,
    loader.load_prices yf_download tickers start_date
    = inl (loader.KeyError missing)
    /\ In ("Close"%string, ticker) missing.
Proof.
  intros Ht Hnot. unfold loader.load_prices.
  destruct (select_missing (map (fun t => ("Close"%string, t)) tickers)
              (yf_download tickers start_date) ("Close"%string, ticker))
    as (missing & Hsel & Hin).
  - apply in_map_iff. exists ticker. split; [reflexivity | exact Ht].
  - exact Hnot.
  - rewrite Hsel. eexists. split; [reflexivity | exact Hin].
Qed.

Lemma load_prices_missing_column_witness :
  exists missing,
    loader.load_prices (fun _ _ => example_download) ["A"; "C"]%string "2019-01-01"
    = inl (loader.KeyError missing)
    /\ In ("Close"%string, "C"%string) missing.
Proof.
  apply (load_prices_missing_column (fun _ _ => example_download)
           ["A"; "C"]%string "2019-01-01" "C"%string).
  - right. left. reflexivity.
  - cbn. intros [H|[H|[H|[]]]]; discriminate H.
Defined.

(** ** Dictionaries built from pairs *)

Lemma keys_dict_set {V : Type} (d : dict V) (k : string) (v : V) :
  app.keys (dict_set d k v)
  = if existsb (String.eqb k) (app.keys d) then app.keys d else app.keys d ++ [k].
Proof.
  unfold app.keys. induction d as [|[k' v'] d IH]; [reflexivity|].
  cbn [dict_set map fst existsb].
  destruct (String.eqb k k') eqn:E; cbn [orb map fst]; [reflexivity|].
  rewrite IH. destruct (existsb (String.eqb k) (map fst d)); reflexivity.
Qed.

Lemma existsb_eqb_in (k : string) (ks : list string) :
  existsb (String.eqb k) ks = true <-> In k ks.
Proof.
  rewrite existsb_exists. split.
  - intros (x & Hx & E). apply String.eqb_eq in E. subst. exact Hx.
  - intros H. exists k. split; [exact H | apply String.eqb_refl].
Qed.

Lemma dict_set_keys_nodup {V : Type} (d : dict V) (k : string) (v : V) :
  NoDup (app.keys d) -> NoDup (app.keys (dict_set d k v)).
Proof.
  intros H. rewrite keys_dict_set.
  destruct (existsb (String.eqb k) (app.keys d)) eqn:E; [exact H|].
  apply NoDup_app; [exact H | repeat constructor; intros [] |].
  intros a Ha [<-|[]]. apply existsb_eqb_in in Ha. congruence.
Qed.

Lemma dict_fold_keys {V : Type} (items : list (string * V)) (acc : dict V) :
  NoDup (app.keys acc) ->
  let d := fold_left (fun d kv => dict_set d (fst kv) (snd kv)) items acc in
  NoDup (app.keys d)
  /\ (length d <= length acc + length items)%nat
  /\ (length d = (length acc + length items)%nat ->
      NoDup (app.keys acc ++ map fst items)).
Proof.
  revert acc. induction items as [|[k v] items IH]; intros acc Hacc; cbn zeta.
  - cbn [fold_left length map]. rewrite app_nil_r. repeat split; auto; lia.
  - cbn [fold_left fst snd length map].
    pose proof (dict_set_keys_nodup acc k v Hacc) as Hset.
    destruct (IH (dict_set acc k v) Hset) as (Hnd & Hle & Heq).
    pose proof (keys_dict_set acc k v) as Hkeys.
    assert (Hlen : length (dict_set acc k v) = length (app.keys (dict_set acc k v)))
      by (unfold app.keys; rewrite length_map; reflexivity).
    assert (Hlen' : length acc = length (app.keys acc))
      by (unfold app.keys; rewrite length_map; reflexivity).
    destruct (existsb (String.eqb k) (app.keys acc)) eqn:E.
    + rewrite Hkeys in Hlen. split; [exact Hnd|]. split; [lia|]. intros H. lia.
    + rewrite Hkeys, length_app in Hlen. cbn [length] in Hlen.
      split; [exact Hnd|]. split; [lia|]. intros H.
      rewrite Hkeys in Heq. rewrite <- app_assoc in Heq. apply Heq. lia.
Qed.

Lemma dict_get_set {V : Type} (d : dict V) (k k' : string) (v : V) :
  dict_get (dict_set d k' v) k
  = if String.eqb k k' then Some v else dict_get d k.
Proof.
  unfold dict_get. induction d as [|[k0 v0] d IH].
  - cbn [dict_set find fst]. destruct (String.eqb k k'); reflexivity.
  - cbn [dict_set]. destruct (String.eqb_spec k' k0) as [E|E].
    + subst k0. cbn [find fst]. destruct (String.eqb k k'); reflexivity.
    + cbn [find fst]. destruct (String.eqb_spec k k0) as [E0|E0].
      * subst k0. destruct (String.eqb_spec k k'); [congruence | reflexivity].
      * exact IH.
Qed.

Lemma dict_get_fold {V : Type} (items : list (string * V)) (acc : dict V)
    (k : string) :
  dict_get (fold_left (fun d kv => dict_set d (fst kv) (snd kv)) items acc) k
  = fold_left (fun found kv => if String.eqb k (fst kv) then Some (snd kv) else found)
      items (dict_get acc k).
Proof.
  revert acc. induction items as [|[k' v] items IH]; intros acc; [reflexivity|].
  cbn [fold_left fst snd]. rewrite IH, dict_get_set. reflexivity.
Qed.

(** A dictionary built from pairs has distinct keys and at most one entry
    per pair; it has one entry per pair only if the keys of the pairs are
    distinct, and looking a key up gives the value of the last pair with
    that key. *)
Lemma dict_of_pairs_keeps_last {V : Type} (items : list (string * V)) :
  NoDup (app.keys (dict_of items))
  /\ (length (dict_of items) <= length items)%nat
  /\ (length (dict_of items) = length items <-> NoDup (map fst items))
  /\ (forall k, dict_get (dict_of items) k = last_value items k).
Proof.
  destruct (dict_fold_keys items [] (NoDup_nil _)) as (Hnd & Hle & Heq).
  cbn zeta in *. fold (dict_of items) in *. cbn [length app.keys map app plus] in *.
  split; [exact Hnd|]. split; [exact Hle|]. split.
  - split; [exact Heq|]. intros H. rewrite dict_of_distinct by exact H. reflexivity.
  - intros k. unfold dict_of, last_value. rewrite dict_get_fold. reflexivity.
Qed.

Lemma length_zip {A B : Type} (a : list A) (b : list B) :
  length a = length b -> length (zip a b) = length a.
Proof. intros H. unfold zip. rewrite length_zip_with, H. apply Nat.min_id. Qed.



(** ** The portfolio entered by hand *)



(** The sum is a sum of binary64 values.  The weights 0.7, 0.2, 0.1 add
    up to 0.9999999999999999 and are refused; the default entry of the
    page, 0.3, 0.4, 0.3, adds up to 1.0; and 1, 1e-17 is accepted, the
    second weight being lost in the rounding of the sum. *)
Lemma manual_portfolio_sums_in_binary64 :
  app.manual_portfolio ["AAPL"; "MSFT"; "GOOGL"]%string
    [(7 / 10)%float; (2 / 10)%float; (1 / 10)%float]
  = inl app.AssertionError_sum_of_weights
  /\ (exists portfolio,
        app.manual_portfolio ["AAPL"; "MSFT"; "GOOGL"]%string
          [(3 / 10)%float; (4 / 10)%float; (3 / 10)%float]
        = inr portfolio)
  /\ (exists portfolio,
        app.manual_portfolio ["AAPL"; "MSFT"]%string
          [1%float; (1 / 100000000000000000)%float]
        = inr portfolio).
Proof.
  split; [reflexivity|]. split; eexists; reflexivity.
Qed.

(** X23.  A ticker entered twice: when the manual entry is accepted and a
    ticker occurs more than once, the portfolio has fewer entries than
    weights were entered, its tickers are distinct, and each ticker
    carries the last weight entered for it; the weights of the earlier
    occurrences are lost. *)
Theorem manual_portfolio_repeated_ticker
    (ticker_list : list string) (weight_list : list fp.float64)
    (portfolio : dict fp.float64) :
  app.manual_portfolio ticker_list weight_list = inr portfolio ->
  ~ NoDup ticker_list ->
  NoDup (app.keys portfolio)
  /\ (length portfolio < length weight_list)%nat
  /\ (forall ticker,
         dict_get portfolio ticker
         = last_value (zip ticker_list weight_list) ticker).
Proof.
  unfold app.manual_portfolio. intros H Hdup.
  destruct (PrimFloat.eqb (app.sum weight_list) 1%float); [|discriminate].
  destruct (Nat.eqb_spec (length ticker_list) (length weight_list)) as [Hlen|];
    [|discriminate].
  injection H as <-.
  destruct (dict_of_pairs_keeps_last (zip ticker_list weight_list))
    as (Hnd & Hle & Hiff & Hget).
  rewrite (length_zip _ _ Hlen) in Hle, Hiff.
  unfold zip in Hiff at 2. fold (zip ticker_list weight_list) in Hiff.
  rewrite (zip_fst _ _ Hlen) in Hiff.
  split; [exact Hnd|]. split; [|exact Hget].
  destruct (Nat.eq_dec (length (dict_of (zip ticker_list weight_list)))
              (length ticker_list)) as [E|E].
  - exfalso. apply Hdup, Hiff, E.
  - lia.
Qed.

Lemma manual_portfolio_repeated_ticker_witness :
  exists portfolio,
    app.manual_portfolio ["AAPL"; "MSFT"; "AAPL"]%string
      [0.5%float; 0.25%float; 0.25%float]
    = inr portfolio
    /\ NoDup (app.keys portfolio)
    /\ (length portfolio < 3)%nat
    /\ (forall ticker,
           dict_get portfolio ticker
           = last_value (zip ["AAPL"; "MSFT"; "AAPL"]%string
                           [0.5%float; 0.25%float; 0.25%float]) ticker).
Proof.
  assert (Hrun : app.manual_portfolio ["AAPL"; "MSFT"; "AAPL"]%string
                   [0.5%float; 0.25%float; 0.25%float]
                 = inr (dict_of (zip ["AAPL"; "MSFT"; "AAPL"]%string
                                   [0.5%float; 0.25%float; 0.25%float])))
    by reflexivity.
  eexists. split; [exact Hrun|].
  apply (manual_portfolio_repeated_ticker _ _ _ Hrun).
  intros H. apply NoDup_cons_iff in H as [H _]. apply H. right. left. reflexivity.
Defined.

(** ** Tables without rows *)

(** On a table without rows [np.dot] gives an empty array, whose mean and
    deviation are NaN; NaN passes the test [!= 0] and the quotient of NaN
    by NaN is NaN. *)
Lemma performance_without_rows (returns : DataFrame R) (weights : list R) :
  length weights = shape1 returns ->
  shape0 returns = 0%nat ->
  get_portfolio_performance weights returns = Returns (NaN, NaN, NaN).
Proof.
  intros Hlen Hrows.
  pose proof (performance_matching returns weights Hlen) as H. cbn zeta in H.
  rewrite np_volatility_spec in H.
  pose proof (length_portfolioReturn returns weights) as Hptf.
  destruct (Spec.portfolioReturn returns weights) as [|x xs].
  - rewrite H. reflexivity.
  - simpl in Hptf. lia.
Qed.

(** X2.  On a table without rows nothing fails and nothing is a number:
    [get_portfolio_performance] returns NaN three times,
    [calculate_risk_metrics] reports NaN for its three metrics, and when
    [optimize_portfolio] returns, whatever the solver did, its three
    metrics are NaN. *)
Theorem metrics_undefined_without_rows (returns : DataFrame R) :
  shape0 returns = 0%nat ->
  (forall weights, length weights = shape1 returns ->
     get_portfolio_performance weights returns = Returns (NaN, NaN, NaN))
  /\ (forall weights, length weights = shape1 returns ->
        calculate_risk_metrics returns weights
        = Returns (mkRiskMetrics NaN NaN NaN))
  /\ (forall (minimize : solver) method log res,
        optimize_portfolio minimize returns method = (log, Returns res) ->
        Annual_Return res = NaN /\ Volatility res = NaN
        /\ Sharpe_Ratio res = NaN).
Proof.
  intros Hrows. split; [|split].
  - intros weights Hlen. apply performance_without_rows; assumption.
  - intros weights Hlen.
    pose proof (risk_metrics_matching returns weights Hlen) as H. cbn zeta in H.
    unfold pd_volatility in H. rewrite np_sqrt_252 in H.
    pose proof (length_portfolioReturn returns weights) as Hptf.
    destruct (Spec.portfolioReturn returns weights) as [|x xs].
    + rewrite H. reflexivity.
    + simpl in Hptf. lia.
  - intros minimize method log res Hrun.
    destruct (optimize_portfolio_returned_from minimize returns method log res Hrun)
      as (objective & r & ret & vol & sharpe & _ & Hperf & ->).
    assert (Hlen : length (x r) = shape1 returns).
    { destruct (Nat.eq_dec (length (x r)) (shape1 returns)) as [E|E]; [exact E|].
      rewrite performance_mismatch in Hperf by exact E. discriminate. }
    rewrite (performance_without_rows returns (x r) Hlen Hrows) in Hperf.
    injection Hperf as <- <- <-. repeat split; reflexivity.
Qed.

Lemma metrics_undefined_without_rows_witness :
  get_portfolio_performance [1 / 2; 1 / 2] (mkFrame ["A"; "B"]%string [])
  = Returns (NaN, NaN, NaN)
  /\ calculate_risk_metrics (mkFrame ["A"; "B"]%string []) [1 / 2; 1 / 2]
     = Returns (mkRiskMetrics NaN NaN NaN)
  /\ exists log res,
       optimize_portfolio uniform_solver (mkFrame ["A"; "B"]%string []) "min_vol"
       = (log, Returns res)
       /\ Annual_Return res = NaN /\ Volatility res = NaN
       /\ Sharpe_Ratio res = NaN.
Proof.
  destruct (metrics_undefined_without_rows (mkFrame ["A"; "B"]%string []) eq_refl)
    as (Hperf & Hrisk & Hopt).
  split; [apply Hperf; reflexivity|].
  split; [apply Hrisk; reflexivity|].
  destruct (uniform_solver_run (mkFrame ["A"; "B"]%string []) "min_vol")
    as (log & res & Hrun & _).
  - unfold shape1. simpl. lia.
  - right. reflexivity.
  - exists log, res. split; [exact Hrun|]. exact (Hopt _ _ _ _ Hrun).
Defined.
